(** * SEC filings QA agent: retrieval strategy, targeted fetchers, evidence
      cache and citation reconciliation

    A shallow embedding of [data_retriever.py] and [qa_system.py].

    Conventions.
    - A Python [str] is a [string]: a sequence of 8-bit characters standing
      for the code points U+0000..U+00FF.  On that range the regular
      expression class [\d] is exactly ['0'..'9'], [str.lower] shifts
      [A-Z] and the Latin-1 capitals, and [str.isspace] / [str.isdigit]
      are the finite sets written out below.  [str.upper] leaves the range
      on U+00B5 and U+00FF only; what is stated of a stored upper-cased
      string is stated of the strings without these two.
    - A Python [int] is an [N] where it is a citation number or a count, a
      [Z] where the code may receive a negative one.  [int(s)] raises
      [ValueError] on a numeral of more than 4300 digits, the limit the
      interpreter starts with (CPython 3.11 and later); the integers that
      the code turns into digits are positions in a list.  A [str] has at
      most [sys.maxsize] characters, which is assumed where it is needed.
    - A [dict] is a [gmap]; a [set] is a [gset].
    - A Python [float] that is only carried along (a confidence score) is a
      [Q]; the floats the insider fetcher computes with are the carrier of
      a class [PyFloat] of which nothing is assumed.
    - An exception is a [PyExc], an instance of [Exception] with its
      message; a computation that may raise returns a [result].
    - Calls to the filing-data provider are answered from a script of
      responses held in the state, one list per end point, and every call
      is logged; a script that has run out answers like a failed
      connection.  The payloads are read at the fields the code reads,
      each absent, [null] or of the type the provider documents.
      [time.sleep], [print] and logging have no counterpart. *)

From Stdlib Require Import String Ascii ZArith NArith QArith List Lia.
From Equations Require Import Equations.
From stdpp Require Import base list gmap strings pretty numbers sorting.

Open Scope string_scope.

(** ** Exceptions *)

Record PyExc := { exc_type : string; exc_msg : string }.

Inductive result (A : Type) := Ok (a : A) | Raise (e : PyExc).
Arguments Ok {A} a.
Arguments Raise {A} e.

(** ** Python built-ins used by the code *)

Module Py.

Definition code (c : ascii) : nat := nat_of_ascii c.

Definition between (lo hi : nat) (c : ascii) : bool :=
  (lo <=? code c)%nat && (code c <=? hi)%nat.

(** [sep.join(l)] *)
Fixpoint join (sep : string) (l : list string) : string :=
  match l with
  | [] => ""
  | x :: l' =>
      match l' with
      | [] => x
      | _ :: _ => x ++ sep ++ join sep l'
      end
  end.

(** [s[:n]] for a literal [n >= 0] *)
Fixpoint prefix_str (n : nat) (s : string) : string :=
  match n, s with
  | S n', String c s' => String c (prefix_str n' s')
  | _, _ => ""
  end.

(** [l[:k]]: a negative bound counts from the end *)
Definition slice_to {A} (k : Z) (l : list A) : list A :=
  if (k <? 0)%Z then take (length l - Z.to_nat (- k)) l
  else take (Z.to_nat k) l.

(** [c.lower()] on one character *)
Definition lower_char (c : ascii) : ascii :=
  if between 65 90 c then ascii_of_nat (code c + 32)
  else if between 192 222 c && negb (code c =? 215)%nat
       then ascii_of_nat (code c + 32)
  else c.

Fixpoint lower (s : string) : string :=
  match s with
  | EmptyString => ""
  | String c s' => String (lower_char c) (lower s')
  end.

(** [c.upper()] on one character; the result can be two characters
    (sharp s).  The capitals of U+00B5 and U+00FF are U+039C and U+0178,
    which no [string] holds: [upper_char] keeps these two characters, and
    so differs from [str.upper] on them and on no other.  Where the code
    compares an upper-cased string with a form code written in ASCII the
    two agree, since neither spelling equals an ASCII string; where it
    stores one or passes it on they agree on the strings of [upper_exact]
    only, to which the statements about those places are restricted. *)
Definition upper_char (c : ascii) : string :=
  if between 97 122 c then String (ascii_of_nat (code c - 32)) ""
  else if (code c =? 223)%nat then "SS"
  else if between 224 254 c && negb (code c =? 247)%nat
       then String (ascii_of_nat (code c - 32)) ""
  else String c "".

Fixpoint upper (s : string) : string :=
  match s with
  | EmptyString => ""
  | String c s' => upper_char c ++ upper s'
  end.

(** [needle in hay] *)
Fixpoint contains (needle hay : string) : bool :=
  String.prefix needle hay
  || match hay with
     | EmptyString => false
     | String _ hay' => contains needle hay'
     end.

(** [str.isspace] on one character *)
Definition is_space (c : ascii) : bool :=
  between 9 13 c || between 28 32 c || (code c =? 133)%nat
  || (code c =? 160)%nat.

Fixpoint lstrip (s : string) : string :=
  match s with
  | String c s' => if is_space c then lstrip s' else s
  | EmptyString => ""
  end.

(** the string without its trailing white space *)
Fixpoint rstrip (s : string) : string :=
  match s with
  | EmptyString => ""
  | String c s' =>
      match rstrip s' with
      | EmptyString => if is_space c then "" else String c ""
      | r => String c r
      end
  end.

(** [s.strip()] *)
Definition strip (s : string) : string := rstrip (lstrip s).

(** [str.isdigit] on one character: decimal digits and the superscripts
    two, three and one *)
Definition isdigit_char (c : ascii) : bool :=
  between 48 57 c || (code c =? 178)%nat || (code c =? 179)%nat
  || (code c =? 185)%nat.

Fixpoint all_chars (p : ascii -> bool) (s : string) : bool :=
  match s with
  | EmptyString => true
  | String c s' => p c && all_chars p s'
  end.

(** the strings on which [upper] is [str.upper]: the capital of every
    character is a character of U+0000..U+00FF *)
Definition upper_exact (s : string) : bool :=
  all_chars (fun c => negb (code c =? 181)%nat && negb (code c =? 255)%nat) s.

(** [s.isdigit()] *)
Definition isdigit (s : string) : bool :=
  match s with
  | EmptyString => false
  | _ => all_chars isdigit_char s
  end.

(** truth value of a string *)
Definition truthy (s : string) : bool :=
  match s with EmptyString => false | _ => true end.

(** [x or y] on strings *)
Definition or_str (x y : string) : string := if truthy x then x else y.

(** [enumerate(l, start)] *)
Fixpoint enumerate {A} (start : N) (l : list A) : list (N * A) :=
  match l with
  | [] => []
  | x :: l' => (start, x) :: enumerate (N.succ start) l'
  end.

(** [str(n)] for an integer [n >= 0] *)
Definition str (n : N) : string := pretty n.

Definition digit_value (c : ascii) : N := N.of_nat (code c - 48).

Fixpoint int_from (acc : N) (s : string) : N :=
  match s with
  | EmptyString => acc
  | String c s' => int_from (10 * acc + digit_value c) s'
  end.

(** the number that a string of decimal digits writes *)
Definition int_value (s : string) : N := int_from 0 s.

(** [sys.maxsize] of a 64-bit build: no [str] has more characters *)
Definition maxsize : N := 9223372036854775807.

(** [sys.get_int_max_str_digits()] as the interpreter starts with it *)
Definition int_max_str_digits : N := 4300.

Definition digits_limit_error (digits : N) : PyExc :=
  {| exc_type := "ValueError";
     exc_msg :=
       "Exceeds the limit (" ++ str int_max_str_digits
       ++ " digits) for integer string conversion: value has "
       ++ str digits
       ++ " digits; use sys.set_int_max_str_digits() to increase the limit" |}.

(** [int(s)] for a string of decimal digits: it raises on a numeral of
    more digits than the limit, leading zeros included *)
Definition int (s : string) : result N :=
  let digits := N.of_nat (String.length s) in
  if (int_max_str_digits <? digits)%N then Raise (digits_limit_error digits)
  else Ok (int_value s).

(** concatenation of the strings of a list *)
Fixpoint concat (l : list string) : string :=
  match l with
  | [] => ""
  | x :: l' => x ++ concat l'
  end.

End Py.

(** ** models.py *)

Record DocumentChunk := {
  content : string;
  ticker : string;
  filing_type : string;
  filing_date : string;
  section : option string;
  chunk_id : string;
  source_url : string;
  page_number : option Z;
  confidence_score : Q
}.

Record Source := {
  src_ticker : string;
  src_filing_type : string;
  src_filing_date : string;
  src_section : option string;
  src_url : option string;
  src_chunk_id : option string;
  src_note : option string
}.

Inductive query_type_label :=
| single_ticker | multi_ticker_comparison | temporal_analysis
| multi_dimensional | industry_analysis | thematic_analysis.

Record QueryAnalysis := {
  tickers : list string;
  time_periods : list string;
  document_types : list string;
  query_type : query_type_label;
  sectors : list string;
  keywords : list string;
  complexity_score : Q;
  suggested_tickers : list string;
  selection_reason : string
}.

Record AnswerWithSources := {
  answer : string;
  ans_confidence_score : Q;
  sources : list Source;
  citations : list string;
  methodology : string;
  limitations : list string;
  companies_analyzed : list string;
  filing_types_used : list string;
  time_period_covered : option string;
  key_metrics : list (string * string);
  recommendations : list string;
  tool_used : option string;
  used_chunk_ids : list string
}.

(** ** Citation tags: the pattern [\[C(\d+)\]] *)

(** [\d] *)
Definition is_digit (c : ascii) : bool := Py.between 48 57 c.

(** the longest run of digits at the head of [s], and what follows it *)
Fixpoint span_digits (s : string) : string * string :=
  match s with
  | String c s' =>
      if is_digit c then
        let '(ds, r) := span_digits s' in (String c ds, r)
      else ("", s)
  | EmptyString => ("", "")
  end.

(** a match of the pattern at the head of [s]: group 1 and the text after
    the match *)
Definition match_tag (s : string) : option (string * string) :=
  match s with
  | String "[" (String "C" s1) =>
      match span_digits s1 with
      | (String d ds, String "]" rest) => Some (String d ds, rest)
      | _ => None
      end
  | _ => None
  end.

Lemma span_digits_length s ds r :
  span_digits s = (ds, r) ->
  String.length s = (String.length ds + String.length r)%nat.
Proof.
  revert ds r; induction s as [|c s IH]; intros ds r; simpl.
  - intros [= <- <-]. reflexivity.
  - destruct (is_digit c).
    + destruct (span_digits s) as [ds' r'].
      intros [= <- <-]. simpl. f_equal. now apply IH.
    + intros [= <- <-]. reflexivity.
Qed.

Lemma match_tag_shorter s ds rest :
  match_tag s = Some (ds, rest) ->
  (String.length rest < String.length s)%nat.
Proof.
  unfold match_tag.
  repeat (case_match; try discriminate).
  intros [= <- <-]. subst. simpl.
  match goal with
  | H : span_digits _ = _ |- _ => apply span_digits_length in H; rewrite H
  end.
  simpl. lia.
Qed.

Definition inspect {A} (a : A) : {b | a = b} := exist _ a eq_refl.

(** The text cut at the non-overlapping matches found from left to right:
    a character outside every match, or a match with its group 1. *)
Inductive piece := Lit (c : ascii) | Tag (digits : string).

Equations? scan (s : string) : list piece by wf (String.length s) lt :=
  scan EmptyString := [];
  scan (String c s') with inspect (match_tag (String c s')) => {
    | exist _ (Some p) Hm := Tag (fst p) :: scan (snd p);
    | exist _ None _ := Lit c :: scan s' }.
Proof.
  - destruct p as [ds rest]. apply match_tag_shorter in Hm. exact Hm.
  - simpl. lia.
Qed.

(** [match.group(0)] of a match whose group 1 is [ds] *)
Definition group0 (ds : string) : string := "[C" ++ ds ++ "]".

(** [match.group(1)] of a piece that is a match *)
Definition group1 (p : piece) : option string :=
  match p with
  | Tag ds => Some ds
  | Lit _ => None
  end.

(** group 1 of the matches of [re.finditer], in order *)
Definition finditer (text : string) : list string := omap group1 (scan text).

(** [re.sub(pattern, repl, text)] on the pieces of [text], [repl] reading
    group 1: the matches are replaced from left to right, and the first
    call of [repl] that raises ends the substitution *)
Fixpoint sub_pieces (repl : string -> result string) (pieces : list piece)
  : result string :=
  match pieces with
  | [] => Ok ""
  | Lit c :: rest =>
      match sub_pieces repl rest with
      | Ok s => Ok (String c s)
      | Raise e => Raise e
      end
  | Tag ds :: rest =>
      match repl ds with
      | Raise e => Raise e
      | Ok r =>
          match sub_pieces repl rest with
          | Ok s => Ok (r ++ s)
          | Raise e => Raise e
          end
      end
  end.

Definition re_sub (repl : string -> result string) (text : string)
  : result string :=
  sub_pieces repl (scan text).

(** ** qa_system.py: citation normalisation *)

(** one turn of the loop of [_parse_used_tags] on the state [(seen, order)] *)
Definition parse_step (st : gset N * list N) (ds : string)
  : result (gset N * list N) :=
  match Py.int ds with
  | Raise e => Raise e
  | Ok cid =>
      Ok (if decide (cid ∈ st.1) then st
          else ({[cid]} ∪ st.1, (st.2 ++ [cid])%list))
  end.

(** the loop over the matches, left at the first turn that raises *)
Fixpoint parse_loop_from (st : gset N * list N) (matches : list string)
  : result (gset N * list N) :=
  match matches with
  | [] => Ok st
  | ds :: rest =>
      match parse_step st ds with
      | Ok st' => parse_loop_from st' rest
      | Raise e => Raise e
      end
  end.

Definition _parse_used_tags (text : string) : result (list N) :=
  match parse_loop_from (∅, []) (finditer text) with
  | Ok st => Ok st.2
  | Raise e => Raise e
  end.

(** [mapping[old] = new] *)
Definition insert_pair (m : gmap N N) (p : N * N) : gmap N N :=
  let '(new, old) := p in <[old := new]> m.

(** [{old: new for new, old in enumerate(used_ids, start=1)}] *)
Definition renumber_mapping (used_ids : list N) : gmap N N :=
  foldl insert_pair ∅ (Py.enumerate 1 used_ids).

Definition replace (mapping : gmap N N) (group1 : string) : result string :=
  match Py.int group1 with
  | Raise e => Raise e
  | Ok old_id =>
      Ok (match mapping !! old_id with
          | Some new => "[C" ++ Py.str new ++ "]"
          | None => group0 group1
          end)
  end.

Definition _compact_renumber (text : string) (used_ids : list N)
  : result (string * gmap N N) :=
  let mapping := renumber_mapping used_ids in
  match re_sub (replace mapping) text with
  | Ok new_text => Ok (new_text, mapping)
  | Raise e => Raise e
  end.


(** ** Provider responses and the state of a run *)

(** A key of a JSON object: absent, [null], or a value. *)
Inductive jfield (A : Type) := Missing | Null | Val (a : A).
Arguments Missing {A}.
Arguments Null {A}.
Arguments Val {A} a.

(** [d.get(k)]: [None] stands for Python's [None] *)
Definition get {A} (f : jfield A) : option A :=
  match f with Val a => Some a | _ => None end.

(** [d.get(k, default)] *)
Definition get_or {A} (default : A) (f : jfield A) : option A :=
  match f with Missing => Some default | Null => None | Val a => Some a end.

(** a string or [None] inside an f-string *)
Definition fmt (o : option string) : string := default "None" o.

(** a scalar of the payload: a number by its literal, or a string *)
Inductive jscalar := JNum (literal : string) | JStr (s : string).

(** one item of ["filings"] in a search response *)
Record filing := {
  linkToHtml : jfield string;
  linkToTxt : jfield string;
  filedAt : jfield string;
  companyName : jfield string;
  description : jfield string;
  linkToFilingDetails : jfield string
}.

Record amounts := {
  shares : jfield jscalar;
  pricePerShare : jfield jscalar;
  acquiredDisposedCode : jfield string
}.

Record nd_transaction := { tx_amounts : jfield amounts }.

Record nd_table := { nd_transactions : jfield (list nd_transaction) }.

Record owner := { owner_name : jfield string }.

(** one item of ["transactions"] in an insider-trading response; an owner
    given as an empty object is [Val] of an owner with no name *)
Record insider_filing := {
  reportingOwner : jfield owner;
  ins_filedAt : jfield string;
  nonDerivativeTable : jfield nd_table;
  ins_linkToFilingDetails : jfield string
}.

(** What a request came back with: it raised (time-out, connection error),
    or it returned a status code and a body.  A body of [None] is one the
    code cannot read as the JSON object it expects. *)
Inductive reply (A : Type) :=
| NoReply (e : PyExc)
| Reply (status_code : Z) (body : option A).
Arguments NoReply {A} e.
Arguments Reply {A} status_code body.

Inductive request :=
| ReqSearch (q : string)
| ReqExtract (url item : string)
| ReqInsider (q : string).

(** The provider during one run: the responses it will give to the search,
    extractor and insider end points, in the order the calls are made, the
    date [n] days before today, and the log of the requests made so far. *)
Record World := {
  search_replies : list (reply (list filing));
  extract_replies : list (reply string);
  insider_replies : list (reply (list insider_filing));
  utc_days_ago : Z -> string;
  requests : list request
}.

Definition connection_error : PyExc :=
  {| exc_type := "ConnectionError"; exc_msg := "no response" |}.

(** computations that read the provider and may raise *)
Definition M (A : Type) : Type := World -> result A * World.

Global Instance M_ret : MRet M := fun A a w => (Ok a, w).
Global Instance M_bind : MBind M := fun A B f m w =>
  match m w with
  | (Ok a, w') => f a w'
  | (Raise e, w') => (Raise e, w')
  end.

Definition raise {A} (e : PyExc) : M A := fun w => (Raise e, w).

(** [try: body except Exception: return chunks]; in each fetcher the local
    list [chunks] is still empty wherever the body can raise *)
Definition try_except {A} (body : M A) (fallback : A) : M A := fun w =>
  match body w with
  | (Ok a, w') => (Ok a, w')
  | (Raise _, w') => (Ok fallback, w')
  end.

Definition type_error : PyExc :=
  {| exc_type := "TypeError";
     exc_msg := "'NoneType' object is not subscriptable" |}.

Definition validation_error : PyExc :=
  {| exc_type := "ValidationError";
     exc_msg := "Input should be a valid string" |}.

Definition index_error : PyExc :=
  {| exc_type := "IndexError"; exc_msg := "list index out of range" |}.

(** [x[:n]] where [x] is a string or [None] *)
Definition slice_str (n : nat) (x : option string) : M string :=
  match x with
  | Some s => mret (Py.prefix_str n s)
  | None => raise type_error
  end.

(** a [str] field of a pydantic model given a string or [None] *)
Definition str_field (x : option string) : M string :=
  match x with
  | Some s => mret s
  | None => raise validation_error
  end.

(** [requests.post(self.search_url, ...)] *)
Definition post_search (q : string) : M (Z * option (list filing)) := fun w =>
  let w' reps := {| search_replies := reps;
                    extract_replies := extract_replies w;
                    insider_replies := insider_replies w;
                    utc_days_ago := utc_days_ago w;
                    requests := (requests w ++ [ReqSearch q])%list |} in
  match search_replies w with
  | Reply code body :: reps => (Ok (code, body), w' reps)
  | NoReply e :: reps => (Raise e, w' reps)
  | [] => (Raise connection_error, w' [])
  end.

(** [requests.get(self.extractor_url + "?" + ...)] *)
Definition get_extract (url item : string) : M (Z * option string) := fun w =>
  let w' reps := {| search_replies := search_replies w;
                    extract_replies := reps;
                    insider_replies := insider_replies w;
                    utc_days_ago := utc_days_ago w;
                    requests := (requests w ++ [ReqExtract url item])%list |} in
  match extract_replies w with
  | Reply code body :: reps => (Ok (code, body), w' reps)
  | NoReply e :: reps => (Raise e, w' reps)
  | [] => (Raise connection_error, w' [])
  end.

(** [requests.post(self.insider_api_url, ...)] *)
Definition post_insider (q : string)
  : M (Z * option (list insider_filing)) := fun w =>
  let w' reps := {| search_replies := search_replies w;
                    extract_replies := extract_replies w;
                    insider_replies := reps;
                    utc_days_ago := utc_days_ago w;
                    requests := (requests w ++ [ReqInsider q])%list |} in
  match insider_replies w with
  | Reply code body :: reps => (Ok (code, body), w' reps)
  | NoReply e :: reps => (Raise e, w' reps)
  | [] => (Raise connection_error, w' [])
  end.

(** [r.json()] read as the object the code expects *)
Definition json {A} (body : option A) : M A :=
  match body with
  | Some a => mret a
  | None => raise {| exc_type := "ValueError"; exc_msg := "malformed body" |}
  end.

(** Python floats, as far as the insider fetcher uses them. *)
Class PyFloat := {
  float : Type;
  float_zero : float;
  (** truth value of a number, by its literal *)
  num_truthy : string -> bool;
  (** [float(x)] of a number and of a string; [None] when it raises *)
  float_of_num : string -> option float;
  float_of_str : string -> option float;
  fmul : float -> float -> float;
  fadd : float -> float -> float;
  (** [x > 0] *)
  fpositive : float -> bool;
  (** [f"{x:,.0f}"] and [f"{x:.2f}"] *)
  fmt_comma0 : float -> string;
  fmt_fixed2 : float -> string
}.

(** ** data_retriever.py: the retrieval strategy *)

Record target := {
  t_ticker : string;
  t_filing_type : string;
  t_sections : list string
}.

Record strategy := {
  s_description : string;
  s_reason : string;
  s_targets : list target
}.

(** [" ".join(analysis.keywords or []).lower()] *)
Definition keyword_text (analysis : QueryAnalysis) : string :=
  Py.lower (Py.join " " (keywords analysis)).

Definition _get_default_companies (analysis : QueryAnalysis) : list string :=
  let kw := keyword_text analysis in
  if Py.contains "financial" kw then ["JPM"]
  else if Py.contains "healthcare" kw then ["JNJ"]
  else ["AAPL"].

(** the sort key [{'4':0,'3':1,'5':2}[x]]; the last case is a [KeyError] in
    the source, on strings that the intersection below never holds *)
Definition insider_key (x : string) : nat :=
  if String.eqb x "4" then 0
  else if String.eqb x "3" then 1
  else if String.eqb x "5" then 2
  else 3.

Definition insider_le (x y : string) : Prop := insider_key x <= insider_key y.

Global Instance insider_le_dec x y : Decision (insider_le x y).
Proof. unfold insider_le. apply _. Defined.

Definition docset_of (analysis : QueryAnalysis) : gset string :=
  list_to_set (map Py.upper (document_types analysis)).

(** [sorted(docset & {'3','4','5'}, key=...)] *)
Definition insider_req_of (docset : gset string) : list string :=
  merge_sort insider_le (elements (docset ∩ {[ "3"; "4"; "5" ]})).

(** [analysis.tickers[:2] if analysis.tickers else
    self._get_default_companies(analysis)[:2]] *)
Definition companies_of (analysis : QueryAnalysis) : list string :=
  match tickers analysis with
  | [] => take 2 (_get_default_companies analysis)
  | _ :: _ => take 2 (tickers analysis)
  end.

Definition _determine_retrieval_strategy
    (analysis : QueryAnalysis) (allow_default : bool) : result strategy :=
  let kw := keyword_text analysis in
  let docset := docset_of analysis in
  let companies := companies_of analysis in
  let insider_req := insider_req_of docset in
  let per_company (form : string) (secs : list string) :=
    map (fun c => {| t_ticker := c; t_filing_type := form;
                     t_sections := secs |}) (take 2 companies) in
  if bool_decide (insider_req <> [])
     || (Py.contains "insider" kw || Py.contains "trading" kw) then
    let forms_to_pull :=
      match insider_req with [] => ["4"] | _ :: _ => insider_req end in
    Ok {| s_description := "Insider trading targeted";
          s_reason := "explicit_form_or_keyword";
          s_targets :=
            flat_map (fun c =>
              map (fun f => {| t_ticker := c; t_filing_type := f;
                               t_sections := [] |}) forms_to_pull)
              (take 2 companies) |}
  else if bool_decide ("10-K" ∈ docset)
          || (Py.contains "risk" kw || Py.contains "factor" kw) then
    Ok {| s_description := "10-K Risk factors (Item 1A)";
          s_reason := "explicit_form_or_keyword";
          s_targets := per_company "10-K" ["1A"] |}
  else if bool_decide ("10-Q" ∈ docset)
          || (Py.contains "md&a" kw
              || Py.contains "management discussion" kw) then
    Ok {| s_description := "10-Q MD&A (part1item2)";
          s_reason := "explicit_form_or_keyword";
          s_targets := per_company "10-Q" ["part1item2"] |}
  else if bool_decide ("DEF 14A" ∈ docset)
          || (Py.contains "compensation" kw || Py.contains "proxy" kw) then
    Ok {| s_description := "Proxy / compensation";
          s_reason := "explicit_form_or_keyword";
          s_targets := per_company "DEF 14A" [] |}
  else
    match query_type analysis with
    | multi_ticker_comparison =>
        Ok {| s_description := "Multi-company comparison (10-K 1A)";
              s_reason := "query_type";
              s_targets :=
                map (fun c => {| t_ticker := c; t_filing_type := "10-K";
                                 t_sections := ["1A"] |}) companies |}
    | _ =>
        if allow_default then
          match companies !! 0%nat with
          | Some c =>
              Ok {| s_description := "Default targeted (single 10-K 1A)";
                    s_reason := "default";
                    s_targets := [ {| t_ticker := c; t_filing_type := "10-K";
                                      t_sections := ["1A"] |} ] |}
          | None => Raise index_error
          end
        else
          Ok {| s_description := "No matching rule"; s_reason := "no_match";
                s_targets := [] |}
    end.

(** ** data_retriever.py: the targeted fetchers *)

Definition lift {A} (r : result A) : M A := fun w => (r, w).

(** the double quote character *)
Definition dquote : string := String (ascii_of_nat 34) EmptyString.

Definition newline : string := String (ascii_of_nat 10) EmptyString.

(** [f'ticker:{ticker} AND formType:"{form_type}"'] *)
Definition search_query (ticker form_type : string) : string :=
  "ticker:" ++ ticker ++ " AND formType:" ++ dquote ++ form_type ++ dquote.

Definition is_year (p : string) : bool :=
  Py.isdigit p && (String.length p =? 4)%nat.

Definition _resolve_date_from (analysis : QueryAnalysis) (default_days : Z)
  : M string := fun w =>
  match List.find is_year (time_periods analysis) with
  | Some p => (Ok (p ++ "-01-01"), w)
  | None => (Ok (utc_days_ago w default_days), w)
  end.

(** [filing.get("linkToHtml") or filing.get("linkToTxt")] *)
Definition link_of (f : filing) : option string :=
  match get (linkToHtml f) with
  | Some s => if Py.truthy s then Some s else get (linkToTxt f)
  | None => get (linkToTxt f)
  end.

Definition _fetch_structured_targeted
    (ticker form_type : string) (sections : list string)
    (analysis : QueryAnalysis) : M (list DocumentChunk) :=
  try_except
    ('(status, body) ← post_search (search_query ticker form_type);
     if negb (status =? 200)%Z then mret [] else
     filings ← json body;
     match filings with
     | [] => mret []
     | filing :: _ =>
         match link_of filing, sections with
         | Some link, sec :: _ =>
             if negb (Py.truthy link) then mret [] else
             '(status', body') ← get_extract link sec;
             if negb (status' =? 200)%Z then mret [] else
             let text := Py.strip (default "" body') in
             if (String.length text <? 200)%nat then mret [] else
             let text :=
               if (1500 <? String.length text)%nat
               then Py.prefix_str 1500 text ++ "..." else text in
             date ← slice_str 10 (get_or "" (filedAt filing));
             mret [ {| content := text;
                       ticker := ticker;
                       filing_type := form_type;
                       filing_date := date;
                       section := Some ("Item " ++ sec);
                       chunk_id := ticker ++ "_" ++ form_type ++ "_" ++ sec
                                   ++ "_targeted";
                       source_url := link;
                       page_number := None;
                       confidence_score := 1 |} ]
         | _, _ => mret []
         end
     end)
    [].

Definition _section_name (form_type : string) : string :=
  if String.eqb form_type "8-K" then "Material Event"
  else if String.eqb form_type "DEF 14A" then "Proxy Statement"
  else if String.eqb form_type "3" then "Initial Statement of Ownership"
  else if String.eqb form_type "4" then "Statement of Changes in Ownership"
  else if String.eqb form_type "5" then "Annual Statement of Ownership"
  else form_type ++ " Filing".

Definition _fetch_general_targeted
    (ticker form_type : string) (analysis : QueryAnalysis)
  : M (list DocumentChunk) :=
  try_except
    ('(status, body) ← post_search (search_query ticker form_type);
     if negb (status =? 200)%Z then mret [] else
     filings ← json body;
     match filings with
     | [] => mret []
     | f :: _ =>
         let company := get_or "Unknown Company" (companyName f) in
         date ← slice_str 10 (get_or "" (filedAt f));
         desc ← slice_str 180
                  (get_or (form_type ++ " filing") (description f));
         let content :=
           form_type ++ " Filing - " ++ fmt company ++ newline
           ++ "Date: " ++ date ++ newline
           ++ "Summary: " ++ desc ++ "..." ++ newline
           ++ newline
           ++ "This filing contains material information relevant to the query."
         in
         url ← str_field (get_or "" (linkToFilingDetails f));
         mret [ {| content := content;
                   ticker := ticker;
                   filing_type := form_type;
                   filing_date := date;
                   section := Some (_section_name form_type);
                   chunk_id := ticker ++ "_" ++ form_type ++ "_targeted";
                   source_url := url;
                   page_number := None;
                   confidence_score := 8 # 10 |} ]
     end)
    [].

Section Insider.

Context {PF : PyFloat}.

(** [float(amt.get(key, 0) or 0)]; [None] when the conversion raises *)
Definition to_float (x : jfield jscalar) : option float :=
  match x with
  | Missing | Null => Some float_zero
  | Val (JNum literal) =>
      if num_truthy literal then float_of_num literal else Some float_zero
  | Val (JStr s) =>
      if Py.truthy s then float_of_str s else Some float_zero
  end.

(** [t.get('amounts', {}) or {}] *)
Definition amounts_of (t : nd_transaction) : amounts :=
  match tx_amounts t with
  | Val a => a
  | _ => {| shares := Missing; pricePerShare := Missing;
            acquiredDisposedCode := Missing |}
  end.

(** ["Acquired" if amt.get('acquiredDisposedCode')=='A' else "Disposed"] *)
Definition targeted_action (amt : amounts) : string :=
  if bool_decide (get (acquiredDisposedCode amt) = Some "A")
  then "Acquired" else "Disposed".

(** one turn of the loop over [nd[:2]], on [(lines, total)] *)
Definition insider_step (st : list string * float) (t : nd_transaction)
  : list string * float :=
  let amt := amounts_of t in
  match to_float (shares amt), to_float (pricePerShare amt) with
  | Some sh, Some px =>
      let val := fmul sh px in
      let act := targeted_action amt in
      let line := "- " ++ act ++ " " ++ fmt_comma0 sh ++ " @ $"
                  ++ fmt_fixed2 px ++ " ($" ++ fmt_comma0 val ++ ")" in
      (app st.1 [line], fadd st.2 val)
  | _, _ => st
  end.

(** [(filing.get('reportingOwner') or {}).get('name', 'Unknown Person')] *)
Definition person_of (f : insider_filing) : option string :=
  match reportingOwner f with
  | Val o => get_or "Unknown Person" (owner_name o)
  | _ => Some "Unknown Person"
  end.

(** [(filing.get('nonDerivativeTable') or {}).get('transactions', [])] *)
Definition nd_of (f : insider_filing) : option (list nd_transaction) :=
  match nonDerivativeTable f with
  | Val tbl => get_or [] (nd_transactions tbl)
  | _ => Some []
  end.

Definition insider_content (ticker : string) (person : option string)
    (filed : string) (nd : list nd_transaction) : string :=
  let lines := ["Recent Insider Trading - " ++ ticker;
                "Person: " ++ fmt person; "Filed: " ++ filed; ""] in
  let '(lines, total) := foldl insider_step (lines, float_zero) (take 2 nd) in
  let total_line := newline ++ "Total Value: $" ++ fmt_comma0 total in
  let lines := if fpositive total then app lines [total_line] else lines in
  Py.join newline lines.

Definition _fetch_insider_targeted
    (ticker form_type : string) (analysis : QueryAnalysis)
  : M (list DocumentChunk) :=
  try_except
    (date_from ← _resolve_date_from analysis 180;
     let q := "issuer.tradingSymbol:" ++ ticker ++ " AND documentType:"
              ++ form_type ++ " AND filedAt:[" ++ date_from ++ " TO *]" in
     '(status, body) ← post_insider q;
     if negb (status =? 200)%Z then mret [] else
     txs ← json body;
     match txs with
     | [] => mret []
     | filing :: _ =>
         let person := person_of filing in
         filed ← slice_str 10 (get_or "" (ins_filedAt filing));
         match nd_of filing with
         | None => raise type_error
         | Some nd =>
             let content := insider_content ticker person filed nd in
             if Py.truthy content then
               url ← str_field (get_or "" (ins_linkToFilingDetails filing));
               mret [ {| content := Py.prefix_str 1200 content;
                         ticker := ticker;
                         filing_type := form_type;
                         filing_date := filed;
                         section := Some ("Insider Filing - " ++ fmt person);
                         chunk_id := ticker ++ "_" ++ form_type
                                     ++ "_targeted";
                         source_url := url;
                         page_number := None;
                         confidence_score := 1 |} ]
             else mret []
         end
     end)
    [].

(** the body of the loop of [fetch_targeted_filings] *)
Definition fetch_target (analysis : QueryAnalysis) (t : target)
  : M (list DocumentChunk) :=
  let ticker := t_ticker t in
  let form := t_filing_type t in
  let sections := take 1 (t_sections t) in
  if bool_decide (form ∈ ["3"; "4"; "5"]) then
    _fetch_insider_targeted ticker form analysis
  else if bool_decide (form ∈ ["10-K"; "10-Q"]) then
    _fetch_structured_targeted ticker form sections analysis
  else _fetch_general_targeted ticker form analysis.

(** [for t in ...: chunks += ...] *)
Fixpoint fetch_targets (analysis : QueryAnalysis) (ts : list target)
    (chunks : list DocumentChunk) : M (list DocumentChunk) :=
  match ts with
  | [] => mret chunks
  | t :: ts' =>
      cs ← fetch_target analysis t;
      fetch_targets analysis ts' (chunks ++ cs)%list
  end.

Definition _fetch_general_small_probe (analysis : QueryAnalysis)
  : M (list DocumentChunk) :=
  let cands :=
    take 1 (match tickers analysis with
            | [] => _get_default_companies analysis
            | _ :: _ => tickers analysis
            end) in
  let form :=
    match take 1 (document_types analysis) with
    | [] => "10-K"
    | f :: _ => f
    end in
  chunks ←
    (fix loop (cs : list string) (chunks : list DocumentChunk) :=
       match cs with
       | [] => mret chunks
       | c :: cs' =>
           got ←
             (if bool_decide (form ∈ ["10-K"; "10-Q"]) then
                let sec := if String.eqb form "10-K" then ["1A"]
                           else ["part1item2"] in
                _fetch_structured_targeted c form sec analysis
              else _fetch_general_targeted c form analysis);
           loop cs' (chunks ++ got)%list
       end) cands [];
  mret (take 2 chunks).

Definition fetch_targeted_filings (analysis : QueryAnalysis)
    (allow_default : bool) (fallback : string) (max_targets : Z)
  : M (list DocumentChunk) :=
  strategy ← lift (_determine_retrieval_strategy analysis allow_default);
  chunks ← fetch_targets analysis
             (Py.slice_to max_targets (s_targets strategy)) [];
  match chunks with
  | _ :: _ => mret chunks
  | [] =>
      if String.eqb fallback "general_small"
      then _fetch_general_small_probe analysis
      else mret []
  end.

(** the rendering of the same code in [_format_insider_filing]:
    [acq_disp = amounts.get('acquiredDisposedCode', 'Unknown')] and
    ["Acquired" if acq_disp == 'A' else "Disposed" if acq_disp == 'D'
     else acq_disp]; [None] is Python's [None] *)
Definition format_action (amt : amounts) : option string :=
  let acq_disp := get_or "Unknown" (acquiredDisposedCode amt) in
  if bool_decide (acq_disp = Some "A") then Some "Acquired"
  else if bool_decide (acq_disp = Some "D") then Some "Disposed"
  else acq_disp.

End Insider.

(** ** qa_system.py: citation normalisation inside [answer_question] *)

(** U+2014, written by its three UTF-8 bytes: the character lies above
    U+00FF and occurs only in text that the code itself emits *)
Definition em_dash : string :=
  String (ascii_of_nat 226) (String (ascii_of_nat 128)
    (String (ascii_of_nat 148) EmptyString)).

(** [chunk.section or 'Summary'] *)
Definition section_or_summary (chunk : DocumentChunk) : string :=
  match section chunk with
  | Some s => Py.or_str s "Summary"
  | None => "Summary"
  end.

(** [{chunk.ticker} {chunk.filing_type} {chunk.filing_date},
     {chunk.section or 'Summary'} — {chunk.source_url}] *)
Definition chunk_reference (chunk : DocumentChunk) : string :=
  ticker chunk ++ " " ++ filing_type chunk ++ " " ++ filing_date chunk
  ++ ", " ++ section_or_summary chunk ++ " " ++ em_dash ++ " "
  ++ source_url chunk.

(** [allowed_map[i] = chunk] *)
Definition insert_chunk (m : gmap N DocumentChunk) (p : N * DocumentChunk)
  : gmap N DocumentChunk :=
  let '(i, chunk) := p in <[i := chunk]> m.

(** [allowed_map] after the loop over [enumerate(document_chunks, start=1)] *)
Definition allowed_map_of (document_chunks : list DocumentChunk)
  : gmap N DocumentChunk :=
  foldl insert_chunk ∅ (Py.enumerate 1 document_chunks).

Definition allowed_lines_of (document_chunks : list DocumentChunk)
  : list string :=
  map (fun '(i, chunk) => "- [C" ++ Py.str i ++ "] " ++ chunk_reference chunk)
      (Py.enumerate 1 document_chunks).

Definition allowed_block_of (document_chunks : list DocumentChunk) : string :=
  "ALLOWED SOURCES (use only these, cite inline as [C#]):" ++ newline
  ++ Py.join newline (allowed_lines_of document_chunks)
  ++ newline ++ newline ++ "CITATION RULES:" ++ newline
  ++ "- Only cite items above (do not mention forms not present)." ++ newline
  ++ "- Each Evidence bullet should include a [C#] tag." ++ newline.

Definition source_of (chunk : DocumentChunk) : Source :=
  {| src_ticker := ticker chunk;
     src_filing_type := filing_type chunk;
     src_filing_date := filing_date chunk;
     src_section := Some (section_or_summary chunk);
     src_url := Some (source_url chunk);
     src_chunk_id := Some (chunk_id chunk);
     src_note := None |}.

(** the chunks that the loop over [original_ids] resolves, in its order *)
Definition resolved_chunks (allowed_map : gmap N DocumentChunk)
    (original_ids : list N) : list DocumentChunk :=
  omap (fun old_id => allowed_map !! old_id) original_ids.

(** the lines added to [citation_lines] by the loop over
    [enumerate(original_ids, start=1)] *)
Definition citation_entries (allowed_map : gmap N DocumentChunk)
    (original_ids : list N) : list string :=
  omap (fun '(new_id, old_id) =>
          c ← allowed_map !! old_id;
          Some ("[C" ++ Py.str new_id ++ "] " ++ chunk_reference c))
       (Py.enumerate 1 original_ids).

Definition set_answer (a : AnswerWithSources) (text : string)
    (srcs : list Source) (ids : list string) : AnswerWithSources :=
  {| answer := text;
     ans_confidence_score := ans_confidence_score a;
     sources := srcs;
     citations := citations a;
     methodology := methodology a;
     limitations := limitations a;
     companies_analyzed := companies_analyzed a;
     filing_types_used := filing_types_used a;
     time_period_covered := time_period_covered a;
     key_metrics := key_metrics a;
     recommendations := recommendations a;
     tool_used := tool_used a;
     used_chunk_ids := ids |}.

(** Step 5 of [answer_question] on the answer object *)
Definition normalize_citations (a : AnswerWithSources)
    (allowed_map : gmap N DocumentChunk) : result AnswerWithSources :=
  match _parse_used_tags (answer a) with
  | Raise e => Raise e
  | Ok original_ids =>
      match _compact_renumber (answer a) original_ids with
      | Raise e => Raise e
      | Ok (new_text, id_map) =>
          let chunks := resolved_chunks allowed_map original_ids in
          let final_text :=
            match original_ids with
            | [] => new_text
            | _ :: _ =>
                new_text ++ newline
                ++ Py.join newline
                     ("" :: "**Citations**"
                      :: citation_entries allowed_map original_ids)
            end in
          Ok (set_answer a final_text (map source_of chunks)
                         (map chunk_id chunks))
      end
  end.

(** ** qa_system.py: the question flow *)

Definition _get_default_document_types (analysis : QueryAnalysis)
  : list string :=
  let keywords := Py.lower (Py.join " " (keywords analysis)) in
  let any := existsb (fun k => Py.contains k keywords) in
  if any ["insider"; "trading"; "purchase"; "sale"] then ["4"; "3"; "5"]
  else if any ["compensation"; "executive"; "salary"; "pay"] then ["DEF 14A"]
  else if any ["acquisition"; "merger"; "material"; "event"] then ["8-K"]
  else if any ["risk"; "factor"; "business"] then ["10-K"]
  else if any ["quarterly"; "q1"; "q2"; "q3"; "q4"] then ["10-Q"]
  else ["10-K"; "10-Q"].

(** [f"{company}_{'-'.join(document_types)}_{date_from or 'recent'}"] *)
Definition cache_key (company : string) (document_types : list string)
    (date_from : option string) : string :=
  company ++ "_" ++ Py.join "-" document_types ++ "_"
  ++ match date_from with
     | Some d => Py.or_str d "recent"
     | None => "recent"
     end.

(** the date floor computed at the head of [_retrieve_documents] *)
Definition date_floor (analysis : QueryAnalysis) : option string :=
  match List.find is_year (time_periods analysis) with
  | Some period => Some (period ++ "-01-01")
  | None => None
  end.

(** the handler of [answer_question] *)
Definition error_answer (e : PyExc) : AnswerWithSources :=
  {| answer := "Error: " ++ exc_msg e;
     ans_confidence_score := 0;
     sources := [];
     citations := [];
     methodology := "";
     limitations := ["Internal error during analysis."];
     companies_analyzed := [];
     filing_types_used := [];
     time_period_covered := None;
     key_metrics := [];
     recommendations := [];
     tool_used := None;
     used_chunk_ids := [] |}.

Section QASystem.

(** The collaborators of the flow, each a step on their common state
    [Env] that may raise: the two agents, the ticker registry, and
    [data_retriever.fetch_filings]. *)
Variable Env : Type.
Variable query_analyzer_run : string -> Env -> result QueryAnalysis * Env.
Variable financial_analyst_run :
  string -> list DocumentChunk -> Env -> result AnswerWithSources * Env.
Variable resolve : string -> Env -> result (option string) * Env.
Variable fetch_filings :
  string -> list string -> option string -> Z -> Env
  -> result (list DocumentChunk) * Env.

(** The fields of the system object, the collaborators' state, and the
    log of the calls made to [fetch_filings] (not a field of the source:
    it counts the calls). *)
Record System := {
  document_cache : gmap string (list DocumentChunk);
  missing_companies : list string;
  env : Env;
  fetch_calls : list (string * list string * option string)
}.

Definition QM (A : Type) : Type := System -> result A * System.

Local Instance QM_ret : MRet QM := fun A a st => (Ok a, st).
Local Instance QM_bind : MBind QM := fun A B f m st =>
  match m st with
  | (Ok a, st') => f a st'
  | (Raise e, st') => (Raise e, st')
  end.

(** a step of the flow that touches no state *)
Definition QM_lift {A} (r : result A) : QM A := fun st => (r, st).

(** a collaborator's step inside the flow *)
Definition call {A} (step : Env -> result A * Env) : QM A := fun st =>
  let '(r, e') := step (env st) in
  (r, {| document_cache := document_cache st;
         missing_companies := missing_companies st;
         env := e';
         fetch_calls := fetch_calls st |}).

Definition call_fetch_filings (company : string)
    (document_types : list string) (date_from : option string)
  : QM (list DocumentChunk) := fun st =>
  let '(r, e') := fetch_filings company document_types date_from 3 (env st) in
  (r, {| document_cache := document_cache st;
         missing_companies := missing_companies st;
         env := e';
         fetch_calls :=
           app (fetch_calls st) [(company, document_types, date_from)] |}).

Definition set_missing (l : list string) : QM unit := fun st =>
  (Ok tt, {| document_cache := document_cache st;
             missing_companies := l;
             env := env st;
             fetch_calls := fetch_calls st |}).

Definition add_missing (company : string) : QM unit := fun st =>
  (Ok tt, {| document_cache := document_cache st;
             missing_companies := app (missing_companies st) [company];
             env := env st;
             fetch_calls := fetch_calls st |}).

Definition cache_store (key : string) (chunks : list DocumentChunk)
  : QM unit := fun st =>
  (Ok tt, {| document_cache := <[key := chunks]> (document_cache st);
             missing_companies := missing_companies st;
             env := env st;
             fetch_calls := fetch_calls st |}).

Definition cache_lookup (key : string) : QM (option (list DocumentChunk)) :=
  fun st => (Ok (document_cache st !! key), st).

Definition get_missing : QM (list string) :=
  fun st => (Ok (missing_companies st), st).

(** the body of the loop of [_retrieve_documents] for one company *)
Definition retrieve_company (document_types : list string)
    (date_from : option string) (all_chunks : list DocumentChunk)
    (company : string) : QM (list DocumentChunk) :=
  let key := cache_key company document_types date_from in
  cached ← cache_lookup key;
  match cached with
  | Some chunks => mret (app all_chunks chunks)
  | None =>
      chunks ← call_fetch_filings company document_types date_from;
      match chunks with
      | _ :: _ =>
          _ ← cache_store key chunks;
          mret (app all_chunks chunks)
      | [] =>
          _ ← add_missing company;
          mret all_chunks
      end
  end.

Fixpoint retrieve_loop (document_types : list string)
    (date_from : option string) (companies : list string)
    (all_chunks : list DocumentChunk) : QM (list DocumentChunk) :=
  match companies with
  | [] => mret all_chunks
  | company :: rest =>
      all_chunks' ←
        retrieve_company document_types date_from all_chunks company;
      retrieve_loop document_types date_from rest all_chunks'
  end.

Definition _retrieve_documents (companies : list string)
    (analysis : QueryAnalysis) : QM (list DocumentChunk) :=
  _ ← set_missing [];
  let date_from := date_floor analysis in
  let document_types :=
    match document_types analysis with
    | [] => _get_default_document_types analysis
    | _ :: _ => document_types analysis
    end in
  retrieve_loop document_types date_from companies [].

(** [[meta.ticker for t in (tickers or [])
      if (meta := self.company_resolver.resolve(t.upper()))]] *)
Fixpoint _validate_tickers (tickers : list string) : QM (list string) :=
  match tickers with
  | [] => mret []
  | t :: rest =>
      meta ← call (resolve (Py.upper t));
      others ← _validate_tickers rest;
      mret (match meta with
            | Some ticker => ticker :: others
            | None => others
            end)
  end.

Definition _determine_companies (analysis : QueryAnalysis) (top_k : nat)
  : QM (list string) :=
  user ← _validate_tickers (tickers analysis);
  match user with
  | _ :: _ => mret (take top_k user)
  | [] =>
      suggested ← _validate_tickers (suggested_tickers analysis);
      match suggested with
      | _ :: _ => mret (take top_k suggested)
      | [] =>
          pool ← _validate_tickers
                   ["AAPL"; "MSFT"; "JPM"; "GOOGL"; "AMZN"; "META"; "NVDA"];
          mret (take top_k pool)
      end
  end.

Definition missing_note (missing : list string) : string :=
  newline ++ "Note: No filings found for: " ++ Py.join ", " missing ++ ". "
  ++ "These companies were excluded due to missing or unavailable filings.".

Definition set_metadata (a : AnswerWithSources)
    (target_companies : list string) (analysis : QueryAnalysis)
  : AnswerWithSources :=
  {| answer := answer a;
     ans_confidence_score := ans_confidence_score a;
     sources := sources a;
     citations := citations a;
     methodology := methodology a;
     limitations := limitations a;
     companies_analyzed := target_companies;
     filing_types_used := document_types analysis;
     time_period_covered :=
       Some (Py.or_str (Py.join ", " (time_periods analysis))
                       "Recent filings");
     key_metrics := key_metrics a;
     recommendations := recommendations a;
     tool_used := tool_used a;
     used_chunk_ids := used_chunk_ids a |}.

(** the body of the [try] of [answer_question] *)
Definition question_flow (question : string) : QM AnswerWithSources :=
  analysis ← call (query_analyzer_run question);
  target_companies ← _determine_companies analysis 3;
  document_chunks ← _retrieve_documents target_companies analysis;
  let allowed_map := allowed_map_of document_chunks in
  let allowed_block := allowed_block_of document_chunks in
  answer0 ← call (financial_analyst_run
                    (allowed_block ++ newline ++ question) document_chunks);
  missing ← get_missing;
  let answer1 :=
    match missing with
    | [] => answer0
    | _ :: _ =>
        set_answer answer0 (answer answer0 ++ missing_note missing)
                   (sources answer0) (used_chunk_ids answer0)
    end in
  answer2 ← QM_lift (normalize_citations answer1 allowed_map);
  mret (set_metadata answer2 target_companies analysis).

Definition answer_question (question : string) (st : System)
  : AnswerWithSources * System :=
  match question_flow question st with
  | (Ok a, st') => (a, st')
  | (Raise e, st') => (error_answer e, st')
  end.

(** *** Properties of the evidence cache and of the handler *)

(** every cached sequence is non-empty *)
Definition cache_nonempty (st : System) : Prop :=
  forall key chunks, document_cache st !! key = Some chunks -> chunks <> [].

(** the document types a retrieval asks for *)
Definition effective_types (analysis : QueryAnalysis) : list string :=
  match document_types analysis with
  | [] => _get_default_document_types analysis
  | _ :: _ => document_types analysis
  end.

Lemma system_eta (st : System) :
  {| document_cache := document_cache st;
     missing_companies := missing_companies st;
     env := env st;
     fetch_calls := fetch_calls st |} = st.
Proof. now destruct st. Qed.

Lemma retrieve_company_hit dts df all company st chunks :
  document_cache st !! cache_key company dts df = Some chunks ->
  retrieve_company dts df all company st = (Ok (app all chunks), st).
Proof.
  intros Hhit. unfold retrieve_company, cache_lookup, mbind, QM_bind.
  now rewrite Hhit.
Qed.

Lemma retrieve_company_miss dts df all company st :
  document_cache st !! cache_key company dts df = None ->
  retrieve_company dts df all company st
  = let after e' :=
      {| document_cache := document_cache st;
         missing_companies := missing_companies st;
         env := e';
         fetch_calls := app (fetch_calls st) [(company, dts, df)] |} in
    match fetch_filings company dts df 3 (env st) with
    | (Ok (c :: cs), e') =>
        (Ok (app all (c :: cs)),
         {| document_cache :=
              <[cache_key company dts df := c :: cs]> (document_cache st);
            missing_companies := missing_companies st;
            env := e';
            fetch_calls := app (fetch_calls st) [(company, dts, df)] |})
    | (Ok [], e') =>
        (Ok all,
         {| document_cache := document_cache st;
            missing_companies := app (missing_companies st) [company];
            env := e';
            fetch_calls := app (fetch_calls st) [(company, dts, df)] |})
    | (Raise e, e') => (Raise e, after e')
    end.
Proof.
  intros Hmiss.
  unfold retrieve_company, cache_lookup, call_fetch_filings, cache_store,
    add_missing, mbind, QM_bind, mret, QM_ret.
  rewrite Hmiss.
  destruct (fetch_filings company dts df 3 (env st)) as [[[|c cs]|e] e'];
    reflexivity.
Qed.

Lemma retrieve_single (company : string) (analysis : QueryAnalysis)
    (st : System) :
  _retrieve_documents [company] analysis st
  = retrieve_company (effective_types analysis) (date_floor analysis) []
      company
      {| document_cache := document_cache st;
         missing_companies := [];
         env := env st;
         fetch_calls := fetch_calls st |}.
Proof.
  unfold _retrieve_documents, set_missing, effective_types.
  unfold mbind at 1, QM_bind at 1. cbn [retrieve_loop].
  unfold mbind, QM_bind, mret, QM_ret.
  match goal with
  | |- (let (r, st') := ?m in _) = _ => now destruct m as [[l|e] st']
  end.
Qed.

Lemma retrieve_company_cache_nonempty dts df all company st :
  cache_nonempty st ->
  cache_nonempty (retrieve_company dts df all company st).2.
Proof.
  intros Hne.
  destruct (document_cache st !! cache_key company dts df) as [cached|] eqn:Hk.
  - now rewrite (retrieve_company_hit _ _ _ _ _ cached).
  - rewrite retrieve_company_miss by exact Hk.
    destruct (fetch_filings company dts df 3 (env st)) as [[[|c cs]|e] e'];
      cbv zeta; cbn [snd]; try exact Hne.
    intros k v. cbn [document_cache]. rewrite lookup_insert.
    case_decide; [|apply Hne]. intros [= <-]. discriminate.
Qed.

(** whatever the companies, a retrieval stores no empty sequence *)
Lemma retrieve_documents_cache_nonempty companies analysis st :
  cache_nonempty st ->
  cache_nonempty (_retrieve_documents companies analysis st).2.
Proof.
  intros Hne. unfold _retrieve_documents, set_missing.
  unfold mbind at 1, QM_bind at 1. fold (effective_types analysis).
  set (st0 := {| document_cache := document_cache st;
                 missing_companies := [];
                 env := env st;
                 fetch_calls := fetch_calls st |}).
  assert (cache_nonempty st0) as Hne0 by exact Hne.
  clearbody st0. clear Hne.
  generalize (@nil DocumentChunk) as all. revert st0 Hne0.
  induction companies as [|company rest IH]; intros st0 Hne0 all.
  - exact Hne0.
  - cbn [retrieve_loop]. unfold mbind, QM_bind.
    pose proof (retrieve_company_cache_nonempty (effective_types analysis)
                  (date_floor analysis) all company st0 Hne0) as Hstep.
    destruct (retrieve_company (effective_types analysis)
                (date_floor analysis) all company st0) as [[l|e] st1];
      cbn [snd] in *; [|exact Hstep].
    now apply IH.
Qed.

(** C6 (as the code has it): the cache of [_retrieve_documents] is keyed by
    the string [company_types_floor], the document types joined by ["-"] in
    the order given (not sorted) and the floor replaced by ["recent"] when
    there is none.  A retrieval for one company that returns a non-empty
    sequence leaves it in the cache under that key, and any retrieval with
    the same key string from the resulting state returns the same sequence
    and leaves the state as it is: no call to the fetcher is added.  On a miss the fetcher is
    called once; an empty result is not stored and the company is recorded
    as missing.  Cached sequences stay non-empty. *)
Theorem evidence_cache_keyed_by_joined_string
    (company : string) (analysis : QueryAnalysis) (st st1 : System)
    (chunks : list DocumentChunk)
    (Hrun : _retrieve_documents [company] analysis st = (Ok chunks, st1)) :
  let dts := effective_types analysis in
  let df := date_floor analysis in
  let key := cache_key company dts df in
  key = company ++ "_" ++ Py.join "-" dts ++ "_" ++ default "recent" df
  /\ (chunks <> [] ->
      document_cache st1 !! key = Some chunks
      /\ missing_companies st1 = []
      /\ forall company' analysis',
           cache_key company' (effective_types analysis')
                     (date_floor analysis') = key ->
           _retrieve_documents [company'] analysis' st1 = (Ok chunks, st1))
  /\ (document_cache st !! key = None ->
      fetch_calls st1 = app (fetch_calls st) [(company, dts, df)]
      /\ (chunks = [] ->
          missing_companies st1 = [company]
          /\ document_cache st1 = document_cache st))
  /\ (document_cache st !! key = Some chunks ->
      fetch_calls st1 = fetch_calls st)
  /\ (cache_nonempty st -> cache_nonempty st1).
Proof.
  intros dts df key. rewrite retrieve_single in Hrun. fold dts df in Hrun.
  split.
  { unfold key, cache_key, df, date_floor.
    destruct (List.find is_year (time_periods analysis)) as [p|];
      [|reflexivity].
    cbn [default]. unfold Py.or_str.
    destruct p; reflexivity. }
  destruct (document_cache st !! key) as [cached|] eqn:Hkey.
  - rewrite (retrieve_company_hit _ _ _ _ _ cached) in Hrun by exact Hkey.
    injection Hrun as <- <-. cbn [app document_cache missing_companies].
    split; [|split; [done|split; [|done]]].
    + intros _. split; [exact Hkey|]. split; [reflexivity|].
      intros company' analysis' Hsame. rewrite retrieve_single.
      cbn [document_cache env fetch_calls].
      rewrite (retrieve_company_hit _ _ _ _ _ cached); [reflexivity|].
      cbn [document_cache]. now rewrite Hsame.
    + intros _. reflexivity.
  - rewrite retrieve_company_miss in Hrun by exact Hkey. fold key in Hrun.
    cbn [document_cache missing_companies env fetch_calls app] in Hrun.
    destruct (fetch_filings company dts df 3 (env st)) as [[[|c cs]|e] e'];
      cbv zeta in Hrun; [| |discriminate].
    + injection Hrun as <- <-.
      cbn [document_cache missing_companies fetch_calls].
      split; [done|]. split; [|split; [done|done]].
      intros _. split; [reflexivity|]. now intros _.
    + injection Hrun as <- <-.
      cbn [document_cache missing_companies fetch_calls].
      split; [|split; [|split; [done|]]].
      * intros _. split; [apply lookup_insert_eq|]. split; [reflexivity|].
        intros company' analysis' Hsame. rewrite retrieve_single.
        cbn [document_cache env fetch_calls].
        rewrite (retrieve_company_hit _ _ _ _ _ (c :: cs)); [reflexivity|].
        cbn [document_cache]. rewrite Hsame. apply lookup_insert_eq.
      * intros _. split; [reflexivity|]. discriminate.
      * intros Hne k v. cbn [document_cache].
        rewrite lookup_insert. case_decide; [|apply Hne].
        intros [= <-]. discriminate.
Qed.

Lemma analyzer_failure_reaches_handler question st e e' :
  query_analyzer_run question (env st) = (Raise e, e') ->
  question_flow question st
  = (Raise e, {| document_cache := document_cache st;
                 missing_companies := missing_companies st;
                 env := e';
                 fetch_calls := fetch_calls st |}).
Proof.
  intros H. unfold question_flow, call, mbind, QM_bind. now rewrite H.
Qed.

Lemma analyst_failure_reaches_handler question st analysis e1 companies st2
    chunks st3 e e4 :
  query_analyzer_run question (env st) = (Ok analysis, e1) ->
  _determine_companies analysis 3
    {| document_cache := document_cache st;
       missing_companies := missing_companies st;
       env := e1;
       fetch_calls := fetch_calls st |} = (Ok companies, st2) ->
  _retrieve_documents companies analysis st2 = (Ok chunks, st3) ->
  financial_analyst_run (allowed_block_of chunks ++ newline ++ question)
    chunks (env st3) = (Raise e, e4) ->
  question_flow question st
  = (Raise e, {| document_cache := document_cache st3;
                 missing_companies := missing_companies st3;
                 env := e4;
                 fetch_calls := fetch_calls st3 |}).
Proof.
  intros Ha Hc Hr Hf. unfold question_flow.
  unfold mbind at 1, QM_bind at 1. unfold call at 1. rewrite Ha.
  unfold mbind at 1, QM_bind at 1. rewrite Hc.
  unfold mbind at 1, QM_bind at 1. rewrite Hr.
  unfold mbind at 1, QM_bind at 1. unfold call at 1. now rewrite Hf.
Qed.

(** C8: an exception that escapes the body of the [try] of
    [answer_question] does not reach the caller: the call returns the
    answer object of the handler, whose confidence is 0.0, whose source
    list is empty, whose text is ["Error: "] followed by the description of
    the exception, and whose limitations are the internal-error note. *)
Theorem answer_question_absorbs_exceptions
    (question : string) (st st' : System) (e : PyExc)
    (Hraise : question_flow question st = (Raise e, st')) :
  answer_question question st = (error_answer e, st')
  /\ ans_confidence_score (error_answer e) = 0%Q
  /\ sources (error_answer e) = []
  /\ answer (error_answer e) = "Error: " ++ exc_msg e
  /\ limitations (error_answer e) = ["Internal error during analysis."].
Proof.
  unfold answer_question. rewrite Hraise. repeat split; reflexivity.
Qed.

End QASystem.

Arguments document_cache {Env} _.
Arguments missing_companies {Env} _.
Arguments env {Env} _.
Arguments fetch_calls {Env} _.

Set Warnings "-clear-no-such-hyp".

(** * Properties *)

(** ** Citation normalisation where no conversion raises

    What [_parse_used_tags], [_compact_renumber] and Step 5 return when
    every tag is within the limit of [int]; [parse_used_tags_run],
    [compact_renumber_run] and [normalize_citations_run] below relate
    them to the code. *)

Definition re_sub_value (repl : string -> string) (text : string) : string :=
  Py.concat (map (fun p => match p with
                           | Lit c => String c ""
                           | Tag ds => repl ds
                           end) (scan text)).

Definition tags_step (st : gset N * list N) (ds : string)
  : gset N * list N :=
  let cid := Py.int_value ds in
  if decide (cid ∈ st.1) then st
  else ({[cid]} ∪ st.1, (st.2 ++ [cid])%list).

Definition used_tags (text : string) : list N :=
  (foldl tags_step (∅, []) (finditer text)).2.

Definition replaced (mapping : gmap N N) (group1 : string) : string :=
  let old_id := Py.int_value group1 in
  match mapping !! old_id with
  | Some new => "[C" ++ Py.str new ++ "]"
  | None => group0 group1
  end.

Definition compact_renumbered (text : string) (used_ids : list N)
  : string * gmap N N :=
  let mapping := renumber_mapping used_ids in
  (re_sub_value (replaced mapping) text, mapping).

Definition normalized (a : AnswerWithSources)
    (allowed_map : gmap N DocumentChunk) : AnswerWithSources :=
  let original_ids := used_tags (answer a) in
  let '(new_text, id_map) := compact_renumbered (answer a) original_ids in
  let chunks := resolved_chunks allowed_map original_ids in
  let final_text :=
    match original_ids with
    | [] => new_text
    | _ :: _ =>
        new_text ++ newline
        ++ Py.join newline
             ("" :: "**Citations**"
              :: citation_entries allowed_map original_ids)
    end in
  set_answer a final_text (map source_of chunks) (map chunk_id chunks).

(** ** The limit of [int] on the tags of a text *)

(** a tag numeral that [int] refuses: it has more than 4300 digits *)
Definition oversize (ds : string) : Prop :=
  (4300 < N.of_nat (String.length ds))%N.

Global Instance oversize_dec ds : Decision (oversize ds).
Proof. unfold oversize. apply _. Defined.

(** [int] converts every tag of the text *)
Definition tags_within_limit (text : string) : Prop :=
  Forall (fun ds => ~ oversize ds) (finditer text).

(** [e] is the [ValueError] that [int] raises on the first tag of [text]
    that it refuses *)
Definition tag_refused (text : string) (e : PyExc) : Prop :=
  exists before ds after,
    finditer text = (before ++ ds :: after)%list
    /\ Forall (fun ds' => ~ oversize ds') before
    /\ oversize ds
    /\ exc_type e = "ValueError"
    /\ exc_msg e
       = "Exceeds the limit (4300 digits) for integer string conversion: value has "
         ++ Py.str (N.of_nat (String.length ds))
         ++ " digits; use sys.set_int_max_str_digits() to increase the limit".

Definition refusal (ds : string) : PyExc :=
  Py.digits_limit_error (N.of_nat (String.length ds)).

Fixpoint first_oversize (matches : list string) : option string :=
  match matches with
  | [] => None
  | ds :: rest =>
      if decide (oversize ds) then Some ds else first_oversize rest
  end.

Lemma int_run ds :
  Py.int ds
  = if decide (oversize ds) then Raise (refusal ds)
    else Ok (Py.int_value ds).
Proof.
  unfold Py.int, oversize, refusal, Py.int_max_str_digits. cbv zeta.
  destruct (N.ltb_spec 4300 (N.of_nat (String.length ds)));
    case_decide; (reflexivity || lia).
Qed.

Lemma first_oversize_cases l :
  match first_oversize l with
  | Some ds =>
      exists before after,
        l = (before ++ ds :: after)%list
        /\ Forall (fun d => ~ oversize d) before /\ oversize ds
  | None => Forall (fun d => ~ oversize d) l
  end.
Proof.
  induction l as [|d l IH]; [constructor|]. cbn [first_oversize].
  case_decide as Hd.
  - exists [], l. auto.
  - destruct (first_oversize l) as [ds|].
    + destruct IH as (before & after & -> & Hb & Hds).
      exists (d :: before), after. auto.
    + now constructor.
Qed.

Lemma refusal_message ds :
  exc_type (refusal ds) = "ValueError"
  /\ exc_msg (refusal ds)
     = "Exceeds the limit (4300 digits) for integer string conversion: value has "
       ++ Py.str (N.of_nat (String.length ds))
       ++ " digits; use sys.set_int_max_str_digits() to increase the limit".
Proof.
  split; [reflexivity|]. unfold refusal, Py.digits_limit_error. cbn [exc_msg].
  replace (Py.str Py.int_max_str_digits) with "4300"
    by (vm_compute; reflexivity).
  reflexivity.
Qed.

Lemma first_oversize_refused text ds :
  first_oversize (finditer text) = Some ds -> tag_refused text (refusal ds).
Proof.
  intros E. pose proof (first_oversize_cases (finditer text)) as H.
  rewrite E in H. destruct H as (before & after & Hl & Hb & Hds).
  destruct (refusal_message ds) as [Ht Hm].
  exists before, ds, after. auto.
Qed.

Lemma first_oversize_within text :
  first_oversize (finditer text) = None -> tags_within_limit text.
Proof.
  intros E. pose proof (first_oversize_cases (finditer text)) as H.
  now rewrite E in H.
Qed.

Lemma within_first_oversize text :
  tags_within_limit text -> first_oversize (finditer text) = None.
Proof.
  unfold tags_within_limit. induction 1 as [|d l Hd _ IH]; [reflexivity|].
  cbn [first_oversize]. now rewrite decide_False.
Qed.

Lemma parse_loop_from_run st l :
  parse_loop_from st l
  = match first_oversize l with
    | Some ds => Raise (refusal ds)
    | None => Ok (foldl tags_step st l)
    end.
Proof.
  revert st. induction l as [|d l IH]; intros st; [reflexivity|].
  cbn [parse_loop_from first_oversize foldl]. unfold parse_step.
  rewrite int_run. case_decide; [reflexivity|]. apply IH.
Qed.

Lemma sub_pieces_run mapping pieces :
  sub_pieces (replace mapping) pieces
  = match first_oversize (omap group1 pieces) with
    | Some ds => Raise (refusal ds)
    | None =>
        Ok (Py.concat (map (fun p => match p with
                                     | Lit c => String c ""
                                     | Tag ds => replaced mapping ds
                                     end) pieces))
    end.
Proof.
  induction pieces as [|[c|d] l IH]; [reflexivity|..];
    cbn [sub_pieces omap list_omap group1 map Py.concat].
  - rewrite IH. now destruct (first_oversize (omap group1 l)).
  - cbn [first_oversize]. unfold replace at 1. rewrite int_run.
    case_decide; [reflexivity|]. rewrite IH.
    now destruct (first_oversize (omap group1 l)).
Qed.

Lemma parse_used_tags_run text :
  _parse_used_tags text
  = match first_oversize (finditer text) with
    | Some ds => Raise (refusal ds)
    | None => Ok (used_tags text)
    end.
Proof.
  unfold _parse_used_tags. rewrite parse_loop_from_run.
  now destruct (first_oversize (finditer text)).
Qed.

Lemma compact_renumber_run text used_ids :
  _compact_renumber text used_ids
  = match first_oversize (finditer text) with
    | Some ds => Raise (refusal ds)
    | None => Ok (compact_renumbered text used_ids)
    end.
Proof.
  unfold _compact_renumber, re_sub. cbv zeta. rewrite sub_pieces_run.
  fold (finditer text). now destruct (first_oversize (finditer text)).
Qed.

Lemma normalize_citations_run a allowed_map :
  normalize_citations a allowed_map
  = match first_oversize (finditer (answer a)) with
    | Some ds => Raise (refusal ds)
    | None => Ok (normalized a allowed_map)
    end.
Proof.
  unfold normalize_citations. rewrite parse_used_tags_run.
  destruct (first_oversize (finditer (answer a))) eqn:E; [reflexivity|].
  rewrite compact_renumber_run, E. unfold normalized.
  now destruct (compact_renumbered (answer a) (used_tags (answer a))).
Qed.

(** ** Strings and numerals *)

Lemma scan_nil : scan "" = [].
Proof. now simp scan. Qed.

Lemma scan_clause c s o (e : match_tag (String c s) = o) :
  scan_unfold_clause_2 c s (exist _ o e) =
  match o with
  | Some (ds, rest) => Tag ds :: scan rest
  | None => Lit c :: scan s
  end.
Proof. destruct o as [[ds rest]|]; reflexivity. Qed.

Lemma scan_cons c s :
  scan (String c s) =
  match match_tag (String c s) with
  | Some (ds, rest) => Tag ds :: scan rest
  | None => Lit c :: scan s
  end.
Proof. simp scan. unfold inspect. apply scan_clause. Qed.

Lemma append_cons x (a b : string) : String x a ++ b = String x (a ++ b).
Proof. reflexivity. Qed.

Lemma append_nil_l (b : string) : "" ++ b = b.
Proof. reflexivity. Qed.

Lemma append_assoc (a b c : string) : (a ++ b) ++ c = a ++ (b ++ c).
Proof.
  induction a as [|x a IH]; [reflexivity|].
  rewrite !append_cons. now f_equal.
Qed.

Lemma append_nil_r (a : string) : a ++ "" = a.
Proof.
  induction a as [|x a IH]; [reflexivity|].
  rewrite append_cons. now f_equal.
Qed.

Lemma append_length (a b : string) :
  String.length (a ++ b) = (String.length a + String.length b)%nat.
Proof.
  induction a as [|x a IH]; [reflexivity|].
  rewrite append_cons. simpl. now f_equal.
Qed.

(** numerals *)
Definition numeral (ds : string) : bool :=
  Py.truthy ds && Py.all_chars is_digit ds.

Lemma pretty_N_char_digit d : is_digit (pretty_N_char d) = true.
Proof. unfold pretty_N_char. repeat case_match; reflexivity. Qed.

Lemma pretty_N_char_value d :
  (d < 10)%N -> Py.digit_value (pretty_N_char d) = d.
Proof.
  intros Hd. unfold pretty_N_char.
  repeat case_match; try reflexivity; subst; try lia.
  vm_compute. lia.
Qed.

Lemma pretty_N_go_digits x s :
  Py.all_chars is_digit s = true ->
  Py.all_chars is_digit (pretty_N_go x s) = true.
Proof.
  revert s. induction (N.lt_wf_0 x) as [x _ IH]; intros s Hs.
  destruct (decide (x = 0%N)) as [->|Hx].
  - now rewrite pretty_N_go_0.
  - rewrite pretty_N_go_step by lia.
    apply IH; [apply N.div_lt; lia|].
    simpl. now rewrite pretty_N_char_digit.
Qed.

Lemma pretty_N_go_truthy x s :
  (0 < x)%N -> Py.truthy (pretty_N_go x s) = true.
Proof.
  revert s. induction (N.lt_wf_0 x) as [x _ IH]; intros s Hx.
  rewrite pretty_N_go_step by lia.
  destruct (decide (x `div` 10 = 0)%N) as [->|Hq].
  - now rewrite pretty_N_go_0.
  - apply IH; [apply N.div_lt; lia|now apply N.neq_0_lt_0].
Qed.

Lemma int_from_pretty_N_go x s :
  Py.int_from 0 (pretty_N_go x s) = Py.int_from x s.
Proof.
  revert s. induction (N.lt_wf_0 x) as [x _ IH]; intros s.
  destruct (decide (x = 0%N)) as [->|Hx].
  - now rewrite pretty_N_go_0.
  - rewrite pretty_N_go_step by lia.
    rewrite IH by (apply N.div_lt; lia). simpl.
    rewrite pretty_N_char_value by (apply N.mod_lt; lia).
    f_equal. pose proof (N.div_mod x 10). lia.
Qed.

Lemma str_numeral n : numeral (Py.str n) = true.
Proof.
  unfold numeral, Py.str, pretty, pretty_N.
  case_decide as Hn; [reflexivity|].
  rewrite pretty_N_go_truthy by lia.
  now rewrite pretty_N_go_digits.
Qed.

Lemma int_str n : Py.int_value (Py.str n) = n.
Proof.
  unfold Py.int_value, Py.str, pretty, pretty_N.
  case_decide as Hn; [now subst|].
  now rewrite int_from_pretty_N_go.
Qed.

Lemma pretty_N_go_length d x s :
  (x < 10 ^ N.of_nat d)%N ->
  (String.length (pretty_N_go x s) <= String.length s + d)%nat.
Proof.
  revert x s. induction d as [|d IH]; intros x s Hx.
  - assert (x = 0%N) as -> by (simpl in Hx; lia).
    rewrite pretty_N_go_0. lia.
  - destruct (decide (x = 0%N)) as [->|Hne]; [rewrite pretty_N_go_0; lia|].
    rewrite pretty_N_go_step by lia.
    etransitivity; [apply IH|simpl; lia].
    rewrite Nat2N.inj_succ, N.pow_succ_r' in Hx.
    apply N.Div0.div_lt_upper_bound. lia.
Qed.

Lemma str_length d n :
  (n < 10 ^ N.of_nat (S d))%N -> (String.length (Py.str n) <= S d)%nat.
Proof.
  intros Hn. unfold Py.str, pretty, pretty_N.
  case_decide; [simpl; lia|].
  etransitivity; [apply (pretty_N_go_length (S d)), Hn|]. simpl. lia.
Qed.

Lemma span_digits_numeral ds rest :
  Py.all_chars is_digit ds = true ->
  span_digits (ds ++ String "]" rest) = (ds, String "]" rest).
Proof.
  induction ds as [|d ds IH]; [reflexivity|].
  rewrite append_cons. simpl.
  intros [Hd Hds]%andb_true_iff. rewrite Hd, IH by done. reflexivity.
Qed.

Lemma match_tag_group0 ds rest :
  numeral ds = true -> match_tag (group0 ds ++ rest) = Some (ds, rest).
Proof.
  unfold numeral. intros [Ht Hd]%andb_true_iff.
  unfold group0. rewrite !append_assoc, !append_cons, !append_nil_l.
  cbn [match_tag]. rewrite span_digits_numeral by done.
  destruct ds; [discriminate|reflexivity].
Qed.

Lemma span_digits_app s ds r :
  span_digits s = (ds, r) -> s = ds ++ r /\ Py.all_chars is_digit ds = true.
Proof.
  revert ds r. induction s as [|c s IH]; simpl; intros ds r.
  - intros [= <- <-]. done.
  - destruct (is_digit c) eqn:Hc.
    + destruct (span_digits s) as [ds' r'].
      intros [= <- <-]. destruct (IH _ _ eq_refl) as [-> Hds].
      simpl. now rewrite Hc.
    + intros [= <- <-]. done.
Qed.

Lemma match_tag_Some s ds rest :
  match_tag s = Some (ds, rest) ->
  s = group0 ds ++ rest /\ numeral ds = true.
Proof.
  unfold match_tag. repeat (case_match; try discriminate).
  intros [= <- <-]. subst.
  match goal with H : span_digits _ = _ |- _ =>
    apply span_digits_app in H as [-> Hd] end.
  split; [|exact Hd].
  unfold group0. rewrite !append_assoc. reflexivity.
Qed.

Definition relabel (mapping : gmap N N) (ds : string) : string :=
  match mapping !! Py.int_value ds with
  | Some new => Py.str new
  | None => ds
  end.

Definition retag (f : string -> string) (p : piece) : piece :=
  match p with
  | Lit c => Lit c
  | Tag ds => Tag (f ds)
  end.

Lemma re_sub_nil repl : re_sub_value repl "" = "".
Proof. unfold re_sub_value. now rewrite scan_nil. Qed.

Lemma re_sub_cons repl c s :
  re_sub_value repl (String c s) =
  match match_tag (String c s) with
  | Some (ds, rest) => repl ds ++ re_sub_value repl rest
  | None => String c (re_sub_value repl s)
  end.
Proof.
  unfold re_sub_value. rewrite scan_cons.
  destruct (match_tag (String c s)) as [[ds rest]|]; reflexivity.
Qed.

Lemma re_sub_ext f g t :
  (forall ds, f ds = g ds) -> re_sub_value f t = re_sub_value g t.
Proof.
  intros E. unfold re_sub_value. f_equal. apply map_ext.
  intros [c|ds]; [reflexivity|apply E].
Qed.

Lemma replace_relabel mapping ds :
  replaced mapping ds = group0 (relabel mapping ds).
Proof.
  unfold replaced, relabel, group0.
  destruct (mapping !! Py.int_value ds); reflexivity.
Qed.

Lemma string_length_ind (P : string -> Prop) :
  (forall s,
     (forall s', (String.length s' < String.length s)%nat -> P s') -> P s) ->
  forall s, P s.
Proof.
  intros step s. remember (String.length s) as n eqn:Hn.
  revert s Hn. induction (lt_wf n) as [n _ IH]. intros s ->.
  apply step. intros s' Hlt. now apply (IH _ Hlt).
Qed.

Section Relabelling.

Variable f : string -> string.
Hypothesis f_numeral : forall ds, numeral ds = true -> numeral (f ds) = true.

Let g (ds : string) : string := group0 (f ds).

Lemma is_digit_not_bracket c : is_digit c = true -> c <> "["%char.
Proof. intros H ->. discriminate. Qed.

Lemma match_tag_head c s p :
  match_tag (String c s) = Some p -> c = "["%char.
Proof.
  destruct p as [ds rest]. intros [E _]%match_tag_Some.
  unfold group0 in E. rewrite !append_cons in E. now injection E.
Qed.

Lemma re_sub_head c s : exists s', re_sub_value g (String c s) = String c s'.
Proof.
  rewrite re_sub_cons.
  destruct (match_tag (String c s)) as [[ds rest]|] eqn:E.
  - apply match_tag_head in E as ->. unfold g, group0.
    rewrite !append_cons. eauto.
  - eauto.
Qed.

Lemma span_digits_re_sub s ds r :
  span_digits s = (ds, r) -> span_digits (re_sub_value g s) = (ds, re_sub_value g r).
Proof.
  revert ds r. induction s as [|c s IH]; intros ds r.
  - simpl. intros [= <- <-]. now rewrite re_sub_nil.
  - simpl. destruct (is_digit c) eqn:Hc.
    + destruct (span_digits s) as [ds' r'] eqn:E.
      intros [= <- <-]. rewrite re_sub_cons.
      destruct (match_tag (String c s)) eqn:Em.
      { apply match_tag_head in Em. now apply is_digit_not_bracket in Hc. }
      simpl. rewrite Hc. now rewrite (IH _ _ eq_refl).
    + intros [= <- <-].
      destruct (re_sub_head c s) as [s' ->]. simpl. now rewrite Hc.
Qed.

Lemma match_tag_re_sub_None c s :
  match_tag (String c s) = None -> match_tag (String c (re_sub_value g s)) = None.
Proof.
  destruct (decide (c = "["%char)) as [->|Hc].
  2:{ intros _. unfold match_tag. repeat case_match; congruence. }
  destruct s as [|c2 s2]; [now rewrite re_sub_nil|].
  destruct (decide (c2 = "C"%char)) as [->|Hc2].
  2:{ intros _. destruct (re_sub_head c2 s2) as [s' ->].
      unfold match_tag. repeat case_match; congruence. }
  rewrite re_sub_cons.
  replace (match_tag (String "C" s2)) with (@None (string * string))
    by reflexivity.
  cbn [match_tag].
  destruct (span_digits s2) as [ds r] eqn:E.
  rewrite (span_digits_re_sub _ _ _ E).
  destruct ds as [|d ds]; [reflexivity|].
  destruct r as [|c3 r]; [now rewrite re_sub_nil|].
  destruct (re_sub_head c3 r) as [r' ->].
  repeat case_match; congruence.
Qed.

Lemma scan_re_sub t : scan (re_sub_value g t) = map (retag f) (scan t).
Proof.
  induction t as [t IH] using string_length_ind.
  destruct t as [|c s]; [now rewrite re_sub_nil, scan_nil|].
  rewrite re_sub_cons, scan_cons.
  destruct (match_tag (String c s)) as [[ds rest]|] eqn:E.
  - pose proof (match_tag_shorter _ _ _ E) as Hlt.
    apply match_tag_Some in E as [_ Hn].
    pose proof (match_tag_group0 (f ds) (re_sub_value g rest) (f_numeral _ Hn)) as Hm.
    unfold g at 1. unfold group0 in *. rewrite !append_cons in *.
    rewrite scan_cons, Hm. cbn. now rewrite IH.
  - apply match_tag_re_sub_None in E.
    rewrite scan_cons, E. cbn. rewrite IH; [reflexivity|simpl; lia].
Qed.

End Relabelling.

(** first occurrences *)
Fixpoint firsts (seen : gset N) (ids : list N) : list N :=
  match ids with
  | [] => []
  | x :: l =>
      if decide (x ∈ seen) then firsts seen l
      else x :: firsts ({[x]} ∪ seen) l
  end.

Definition one_to (k : nat) : list N := map N.of_nat (seq 1 k).

(** the number a citation is given: its mapping entry *)
Definition rank (mapping : gmap N N) (old : N) : N :=
  default 0%N (mapping !! old).

Lemma parse_loop seen order dss :
  (foldl tags_step (seen, order) dss).2
  = (order ++ firsts seen (map Py.int_value dss))%list.
Proof.
  revert seen order. induction dss as [|ds dss IH]; intros seen order; simpl.
  - now rewrite app_nil_r.
  - unfold tags_step at 2. simpl.
    destruct (decide (Py.int_value ds ∈ seen)); [apply IH|].
    rewrite IH, <- app_assoc. reflexivity.
Qed.

Lemma parse_used_tags_firsts text :
  used_tags text = firsts ∅ (map Py.int_value (finditer text)).
Proof. unfold used_tags. now rewrite parse_loop. Qed.

Lemma elem_of_firsts x seen ids :
  x ∈ firsts seen ids <-> x ∈ ids /\ x ∉ seen.
Proof.
  revert seen. induction ids as [|y l IH]; intros seen; simpl.
  - set_solver.
  - destruct (decide (y ∈ seen)).
    + rewrite IH. set_solver.
    + rewrite elem_of_cons, IH. destruct (decide (x = y)); set_solver.
Qed.

Lemma NoDup_firsts seen ids : NoDup (firsts seen ids).
Proof.
  revert seen. induction ids as [|y l IH]; intros seen; simpl.
  - constructor.
  - destruct (decide (y ∈ seen)); [apply IH|].
    constructor; [|apply IH]. rewrite elem_of_firsts. set_solver.
Qed.

Lemma firsts_map (g : N -> N) seen seen' ids :
  (forall x y, x ∈ ids -> y ∈ ids -> g x = g y -> x = y) ->
  (forall x, x ∈ ids -> g x ∈ seen' <-> x ∈ seen) ->
  firsts seen' (map g ids) = map g (firsts seen ids).
Proof.
  revert seen seen'. induction ids as [|x l IH]; intros seen seen' Hinj Hseen.
  - reflexivity.
  - simpl. pose proof (Hseen x ltac:(left)) as Hx.
    destruct (decide (x ∈ seen)), (decide (g x ∈ seen')); try tauto.
    + apply IH; intros; [apply Hinj|apply Hseen]; try right; done.
    + simpl. f_equal. apply IH.
      * intros; apply Hinj; try right; done.
      * intros y Hy. rewrite !elem_of_union, !elem_of_singleton.
        rewrite (Hseen y ltac:(by right)).
        split; (intros [E|?]; [left|by right]).
        -- apply Hinj; [by right|by left|done].
        -- now subst.
Qed.

Lemma mapping_lookup_notin (l : list N) m start x :
  x ∉ l -> foldl insert_pair m (Py.enumerate start l) !! x = m !! x.
Proof.
  revert m start. induction l as [|y l IH]; intros m start Hx; simpl.
  - reflexivity.
  - rewrite IH by set_solver. unfold insert_pair. simpl.
    apply lookup_insert_ne. set_solver.
Qed.

Lemma mapping_lookup_in (l : list N) m start i x :
  NoDup l -> l !! i = Some x ->
  foldl insert_pair m (Py.enumerate start l) !! x
  = Some (start + N.of_nat i)%N.
Proof.
  revert m start i. induction l as [|y l IH]; intros m start i Hnd Hi.
  - discriminate.
  - apply NoDup_cons in Hnd as [Hy Hnd]. simpl. destruct i as [|i].
    + injection Hi as ->. rewrite mapping_lookup_notin by done.
      unfold insert_pair. simpl. rewrite lookup_insert_eq. f_equal. lia.
    + rewrite (IH _ _ i) by done. f_equal. lia.
Qed.

Lemma renumber_mapping_lookup used i x :
  NoDup used -> used !! i = Some x ->
  renumber_mapping used !! x = Some (N.of_nat (S i)).
Proof.
  intros Hnd Hi. unfold renumber_mapping.
  rewrite (mapping_lookup_in _ _ _ i) by done. f_equal. lia.
Qed.

Lemma renumber_mapping_None used x :
  x ∉ used -> renumber_mapping used !! x = None.
Proof.
  intros Hx. unfold renumber_mapping.
  now rewrite mapping_lookup_notin.
Qed.

Lemma one_to_lookup k i :
  (i < k)%nat -> one_to k !! i = Some (N.of_nat (S i)).
Proof.
  intros Hi. unfold one_to. rewrite list_lookup_fmap.
  rewrite lookup_seq_lt by done. reflexivity.
Qed.

Lemma one_to_length k : length (one_to k) = k.
Proof. unfold one_to. now rewrite length_map, length_seq. Qed.

Lemma rank_used used :
  NoDup used -> map (rank (renumber_mapping used)) used = one_to (length used).
Proof.
  intros Hnd. apply list_eq. intros i.
  rewrite list_lookup_fmap.
  destruct (used !! i) as [x|] eqn:Hi; simpl.
  - unfold rank. rewrite (renumber_mapping_lookup _ i) by done. simpl.
    symmetry. apply one_to_lookup. now apply lookup_lt_Some in Hi.
  - symmetry. apply lookup_ge_None. rewrite one_to_length.
    now apply lookup_ge_None in Hi.
Qed.

Lemma rank_inj used x y :
  NoDup used -> x ∈ used -> y ∈ used ->
  rank (renumber_mapping used) x = rank (renumber_mapping used) y -> x = y.
Proof.
  intros Hnd [i Hi]%list_elem_of_lookup [j Hj]%list_elem_of_lookup.
  unfold rank.
  rewrite (renumber_mapping_lookup _ i), (renumber_mapping_lookup _ j) by done.
  simpl. intros E. assert (i = j) as -> by lia. congruence.
Qed.

Lemma NoDup_one_to k : NoDup (one_to k).
Proof.
  unfold one_to. apply NoDup_fmap_2; [|apply NoDup_seq].
  intros a b. lia.
Qed.

Lemma elem_of_one_to k (j : N) :
  j ∈ one_to k <-> (1 <= j <= N.of_nat k)%N.
Proof.
  unfold one_to. rewrite list_elem_of_fmap. split.
  - intros (i & -> & Hi%elem_of_seq). lia.
  - intros Hj. exists (N.to_nat j). rewrite elem_of_seq. lia.
Qed.

Lemma identity_mapping k (j : N) :
  renumber_mapping (one_to k) !! j
  = if bool_decide (1 <= j <= N.of_nat k)%N then Some j else None.
Proof.
  case_bool_decide as Hj.
  - apply elem_of_one_to in Hj as Hin.
    apply list_elem_of_lookup in Hin as [i Hi].
    rewrite (renumber_mapping_lookup _ i) by (done || apply NoDup_one_to).
    f_equal. apply lookup_lt_Some in Hi as Hlt. rewrite one_to_length in Hlt.
    rewrite one_to_lookup in Hi by done. congruence.
  - apply renumber_mapping_None. now rewrite elem_of_one_to.
Qed.

Lemma finditer_nil : finditer "" = [].
Proof. unfold finditer. now rewrite scan_nil. Qed.

Lemma finditer_cons c s :
  finditer (String c s) =
  match match_tag (String c s) with
  | Some (ds, rest) => ds :: finditer rest
  | None => finditer s
  end.
Proof.
  unfold finditer. rewrite scan_cons.
  destruct (match_tag (String c s)) as [[ds rest]|]; reflexivity.
Qed.

Lemma finditer_retag f l :
  omap group1 (map (retag f) l) = map f (omap group1 l).
Proof.
  induction l as [|[c|ds] l IH]; simpl; [reflexivity|exact IH|now f_equal].
Qed.

Lemma finditer_numeral text ds : ds ∈ finditer text -> numeral ds = true.
Proof.
  induction text as [t IH] using string_length_ind.
  destruct t as [|c s]; [rewrite finditer_nil; set_solver|].
  rewrite finditer_cons.
  destruct (match_tag (String c s)) as [[ds' rest]|] eqn:E.
  - pose proof (match_tag_shorter _ _ _ E).
    apply match_tag_Some in E as [_ Hn].
    intros [->|Hin]%elem_of_cons; [done|]. now apply (IH rest).
  - apply IH. simpl. lia.
Qed.

Lemma relabel_numeral mapping ds :
  numeral ds = true -> numeral (relabel mapping ds) = true.
Proof.
  intros Hn. unfold relabel.
  destruct (mapping !! Py.int_value ds); [apply str_numeral|done].
Qed.

Lemma scan_compact_renumber text used :
  scan (compact_renumbered text used).1
  = map (retag (relabel (renumber_mapping used))) (scan text).
Proof.
  unfold compact_renumbered. simpl.
  rewrite (re_sub_ext _ (fun ds => group0 (relabel (renumber_mapping used) ds)))
    by apply replace_relabel.
  apply scan_re_sub. apply relabel_numeral.
Qed.

Lemma re_sub_id repl text :
  (forall ds, ds ∈ finditer text -> repl ds = group0 ds) ->
  re_sub_value repl text = text.
Proof.
  induction text as [t IH] using string_length_ind. intros Hid.
  destruct t as [|c s]; [apply re_sub_nil|].
  rewrite re_sub_cons. rewrite finditer_cons in Hid.
  destruct (match_tag (String c s)) as [[ds rest]|] eqn:E.
  - pose proof (match_tag_shorter _ _ _ E).
    apply match_tag_Some in E as [-> _].
    rewrite Hid by left. f_equal. apply IH; [done|].
    intros ds' Hds'. apply Hid. now right.
  - f_equal. apply IH; [simpl; lia|done].
Qed.

Lemma int_relabel text ds :
  ds ∈ finditer text ->
  relabel (renumber_mapping (used_tags text)) ds
  = Py.str (rank (renumber_mapping (used_tags text)) (Py.int_value ds)).
Proof.
  intros Hds. unfold relabel, rank.
  assert (Py.int_value ds ∈ used_tags text) as [i Hi]%list_elem_of_lookup.
  { rewrite parse_used_tags_firsts, elem_of_firsts. split; [|set_solver].
    apply list_elem_of_fmap. eauto. }
  rewrite (renumber_mapping_lookup _ i); [reflexivity| |done].
  rewrite parse_used_tags_firsts. apply NoDup_firsts.
Qed.

Lemma finditer_compact_renumber text :
  finditer (compact_renumbered text (used_tags text)).1
  = map (fun ds => Py.str (rank (renumber_mapping (used_tags text))
                                (Py.int_value ds)))
        (finditer text).
Proof.
  unfold finditer at 1. rewrite scan_compact_renumber, finditer_retag.
  apply map_ext_in. intros ds Hds%list_elem_of_In. now apply int_relabel.
Qed.

Lemma parse_compact_renumber text :
  used_tags (compact_renumbered text (used_tags text)).1
  = one_to (length (used_tags text)).
Proof.
  rewrite parse_used_tags_firsts at 1.
  rewrite finditer_compact_renumber, map_map.
  erewrite map_ext by (intros; apply int_str).
  rewrite <- (map_map Py.int_value (rank _)).
  set (ids := map Py.int_value (finditer text)).
  assert (used_tags text = firsts ∅ ids) as Hused
    by apply parse_used_tags_firsts.
  assert (NoDup (used_tags text)) as Hnd
    by (rewrite Hused; apply NoDup_firsts).
  rewrite (firsts_map _ ∅ ∅).
  - rewrite <- Hused. now apply rank_used.
  - intros x y Hx Hy. apply rank_inj; [done|..];
      rewrite Hused, elem_of_firsts; set_solver.
  - set_solver.
Qed.

Lemma renumbered_twice (t : string) :
  let used := used_tags t in
  let t' := (compact_renumbered t used).1 in
  used_tags t' = one_to (length used)
  /\ compact_renumbered t' (used_tags t')
     = (t', renumber_mapping (one_to (length used))).
Proof.
  intros used t'.
  assert (used_tags t' = one_to (length used)) as Hparse
    by apply parse_compact_renumber.
  split; [exact Hparse|].
  rewrite Hparse. unfold compact_renumbered at 1. f_equal.
  apply re_sub_id. intros ds' Hds'.
  assert (Py.int_value ds' ∈ one_to (length used)) as Hj.
  { rewrite <- Hparse, parse_used_tags_firsts, elem_of_firsts.
    split; [|set_solver]. apply list_elem_of_fmap. eauto. }
  unfold t', used in Hds'. rewrite finditer_compact_renumber in Hds'.
  apply list_elem_of_fmap in Hds' as (ds & -> & _).
  rewrite int_str in Hj.
  unfold replaced. rewrite int_str, identity_mapping.
  apply elem_of_one_to in Hj. now rewrite bool_decide_eq_true_2.
Qed.

Lemma finditer_length text :
  (length (finditer text) <= String.length text)%nat.
Proof.
  induction text as [t IH] using string_length_ind.
  destruct t as [|c s]; [now rewrite finditer_nil|].
  rewrite finditer_cons.
  destruct (match_tag (String c s)) as [[ds rest]|] eqn:E.
  - apply match_tag_shorter in E. specialize (IH rest E).
    cbn [length]. lia.
  - specialize (IH s ltac:(simpl; lia)). simpl. lia.
Qed.

Lemma firsts_length seen ids :
  (length (firsts seen ids) <= length ids)%nat.
Proof.
  revert seen. induction ids as [|x l IH]; intros seen; [reflexivity|].
  cbn [firsts]. case_decide; cbn [length]; [specialize (IH seen)|
    specialize (IH ({[x]} ∪ seen))]; lia.
Qed.

(** the distinct tag numbers of a text *)
Definition tag_numbers (text : string) : gset N :=
  list_to_set (map Py.int_value (finditer text)).

Lemma used_tags_size text : length (used_tags text) = size (tag_numbers text).
Proof.
  rewrite parse_used_tags_firsts. unfold tag_numbers.
  rewrite <- (size_list_to_set (C := gset N) (firsts _ _))
    by apply NoDup_firsts.
  f_equal. apply set_eq. intros x.
  rewrite !elem_of_list_to_set, elem_of_firsts. set_solver.
Qed.

(** the tags of the renumbered text are the numerals of 1..k *)
Lemma renumbered_tags text :
  Forall (fun ds => exists j : N,
            (1 <= j <= N.of_nat (length (used_tags text)))%N
            /\ ds = Py.str j)
         (finditer (compact_renumbered text (used_tags text)).1).
Proof.
  rewrite finditer_compact_renumber. apply Forall_fmap, Forall_forall.
  intros ds Hds. cbn.
  assert (Py.int_value ds ∈ used_tags text) as [i Hi]%list_elem_of_lookup.
  { rewrite parse_used_tags_firsts, elem_of_firsts. split; [|set_solver].
    apply list_elem_of_fmap. eauto. }
  exists (N.of_nat (S i)). split.
  - apply lookup_lt_Some in Hi. lia.
  - f_equal. unfold rank.
    rewrite (renumber_mapping_lookup _ i); [reflexivity| |done].
    rewrite parse_used_tags_firsts. apply NoDup_firsts.
Qed.

Lemma renumbered_within_limit text :
  (N.of_nat (String.length text) <= Py.maxsize)%N ->
  tags_within_limit (compact_renumbered text (used_tags text)).1.
Proof.
  intros Hsize. unfold tags_within_limit.
  eapply Forall_impl; [apply renumbered_tags|].
  intros ds (j & Hj & ->). unfold oversize.
  assert (length (used_tags text) <= String.length text)%nat as Hk.
  { rewrite parse_used_tags_firsts.
    etransitivity; [apply firsts_length|].
    rewrite length_map. apply finditer_length. }
  assert (Py.maxsize < 10 ^ N.of_nat 19)%N as Hmax
    by (vm_compute; reflexivity).
  pose proof (str_length 18 j ltac:(lia)). lia.
Qed.

Example parse_example :
  _parse_used_tags "x [C99] [C007] [C12[C4] [C] [Cx] [C7]" = Ok [99; 7; 4]%N.
Proof. vm_compute. reflexivity. Qed.

Example renumber_example :
  _compact_renumber "x [C99] [C007] [C12[C4] [C] [Cx] [C7]" [99; 7; 4]%N
  = Ok ("x [C1] [C2] [C12[C3] [C] [Cx] [C2]", renumber_mapping [99; 7; 4]%N).
Proof. vm_compute. reflexivity. Qed.

(** C9 (as the code has it): renumbering is idempotent wherever it
    returns.  On a text [t] (of at most [sys.maxsize] characters, as every
    [str] is) [_parse_used_tags] raises the [ValueError] of [int] when a
    tag of [t] has more than 4300 digits, and on no other text.
    Otherwise [_compact_renumber] returns a text [t'] with as many tags as
    [t], each of them one of [[C1]] .. [[Ck]], k the number of distinct tag
    numbers of [t]; [_parse_used_tags t'] is 1, 2, ..., k in that order;
    renumbering [t'] returns [t'] itself; and the mapping built on [t']
    sends each of 1..k to itself and has no other key. *)
Theorem renumber_idempotent (t : string)
    (Hsize : (N.of_nat (String.length t) <= Py.maxsize)%N) :
  match _parse_used_tags t with
  | Raise e => tag_refused t e
  | Ok used =>
      tags_within_limit t
      /\ exists t' mapping,
           let k := size (tag_numbers t) in
           _compact_renumber t used = Ok (t', mapping)
           /\ length used = k
           /\ length (finditer t') = length (finditer t)
           /\ Forall (fun ds => exists j : N,
                        (1 <= j <= N.of_nat k)%N /\ ds = Py.str j)
                     (finditer t')
           /\ _parse_used_tags t' = Ok (one_to k)
           /\ _compact_renumber t' (one_to k)
              = Ok (t', renumber_mapping (one_to k))
           /\ forall j : N,
                renumber_mapping (one_to k) !! j
                = if bool_decide (1 <= j <= N.of_nat k)%N
                  then Some j else None
  end.
Proof.
  rewrite parse_used_tags_run.
  destruct (first_oversize (finditer t)) as [ds|] eqn:E;
    [now apply first_oversize_refused|].
  split; [now apply first_oversize_within|].
  set (used := used_tags t).
  set (t' := (compact_renumbered t used).1).
  exists t', (renumber_mapping used). cbv zeta.
  rewrite <- used_tags_size. fold used.
  destruct (renumbered_twice t) as [Hparse Htwice]. fold used t' in Hparse, Htwice.
  pose proof (within_first_oversize _ (renumbered_within_limit t Hsize)) as E'.
  fold used t' in E'.
  split; [now rewrite compact_renumber_run, E|].
  split; [reflexivity|]. split.
  { unfold t', used. now rewrite finditer_compact_renumber, length_map. }
  split; [apply renumbered_tags|]. split.
  { now rewrite parse_used_tags_run, E', Hparse. }
  split; [|apply identity_mapping].
  rewrite compact_renumber_run, E'. rewrite <- Hparse at 1.
  now rewrite Htwice.
Qed.

Lemma renumber_idempotent_witness :
  _parse_used_tags "x [C1] [C2] [C12[C3] [C] [Cx] [C2]" = Ok [1; 2; 3]%N
  /\ _compact_renumber "x [C1] [C2] [C12[C3] [C] [Cx] [C2]" [1; 2; 3]%N
     = Ok ("x [C1] [C2] [C12[C3] [C] [Cx] [C2]", renumber_mapping [1; 2; 3]%N).
Proof.
  pose proof (renumber_idempotent "x [C99] [C007] [C12[C4] [C] [Cx] [C7]"
                ltac:(vm_compute; discriminate)) as H.
  rewrite parse_example in H.
  destruct H as (_ & t' & mapping & Hrun & _ & _ & _ & Hparse & Htwice & _).
  rewrite renumber_example in Hrun. injection Hrun as <- _.
  replace (size (tag_numbers "x [C99] [C007] [C12[C4] [C] [Cx] [C7]"))
    with 3%nat in * by (vm_compute; reflexivity).
  split; [exact Hparse|exact Htwice].
Defined.

(** [c * n] *)
Fixpoint repeat_char (c : ascii) (n : nat) : string :=
  match n with
  | O => ""
  | S n' => String c (repeat_char c n')
  end.

Lemma repeat_char_length c n : String.length (repeat_char c n) = n.
Proof. induction n as [|n IH]; [reflexivity|]. simpl. now rewrite IH. Qed.

Lemma repeat_char_numeral c n :
  is_digit c = true -> numeral (repeat_char c (S n)) = true.
Proof.
  intros Hc. unfold numeral. cbn [repeat_char Py.truthy andb].
  assert (forall m, Py.all_chars is_digit (repeat_char c m) = true) as H.
  { induction m as [|m IH]; cbn [repeat_char Py.all_chars];
      [reflexivity|now rewrite Hc]. }
  apply (H (S n)).
Qed.

Lemma first_oversize_app before ds after :
  Forall (fun d => ~ oversize d) before -> oversize ds ->
  first_oversize (before ++ ds :: after)%list = Some ds.
Proof.
  induction 1 as [|d l Hd _ IH]; intros Hds; cbn [app first_oversize].
  - now rewrite decide_True.
  - rewrite decide_False by done. now apply IH.
Qed.

Lemma finditer_group0 ds rest :
  numeral ds = true -> finditer (group0 ds ++ rest) = ds :: finditer rest.
Proof.
  intros Hn. pose proof (match_tag_group0 ds rest Hn) as E.
  assert (exists s, group0 ds ++ rest = String "[" s) as [s Es].
  { unfold group0. rewrite !append_cons. eauto. }
  rewrite Es in *. now rewrite finditer_cons, E.
Qed.

(** a tag of [n] sevens *)
Definition long_tag (n : nat) : string := "[C" ++ repeat_char "7" n ++ "]".

Lemma long_tag_first n rest :
  (4300 < n)%nat ->
  first_oversize (finditer (long_tag n ++ rest)) = Some (repeat_char "7" n).
Proof.
  intros Hn. destruct n as [|n]; [lia|].
  change (long_tag (S n)) with (group0 (repeat_char "7" (S n))).
  rewrite finditer_group0 by now apply repeat_char_numeral.
  cbn [first_oversize]. apply decide_True.
  unfold oversize. rewrite repeat_char_length. lia.
Qed.

Lemma refusal_of_4301_digits :
  refusal (repeat_char "7" 4301)
  = {| exc_type := "ValueError";
       exc_msg := "Exceeds the limit (4300 digits) for integer string conversion: value has 4301 digits; use sys.set_int_max_str_digits() to increase the limit" |}.
Proof.
  unfold refusal. rewrite repeat_char_length. vm_compute. reflexivity.
Qed.

(** C9 as stated fails on a text with a tag of 4301 digits:
    [_parse_used_tags] raises on it, so no renumbered text is made of
    it. *)
Lemma oversize_tag_is_not_parsed :
  _parse_used_tags (long_tag 4301)
  = Raise {| exc_type := "ValueError";
             exc_msg := "Exceeds the limit (4300 digits) for integer string conversion: value has 4301 digits; use sys.set_int_max_str_digits() to increase the limit" |}.
Proof.
  rewrite <- refusal_of_4301_digits, parse_used_tags_run.
  rewrite <- (append_nil_r (long_tag 4301)).
  now rewrite long_tag_first by lia.
Qed.

(** the chunk that citation number [id] stands for *)
Definition chunk_at (allowed : list DocumentChunk) (id : N)
  : option DocumentChunk :=
  if (id =? 0)%N then None else allowed !! (N.to_nat id - 1)%nat.

Definition in_range (n : nat) (id : N) : Prop := (1 <= id <= N.of_nat n)%N.

Global Instance in_range_dec n id : Decision (in_range n id).
Proof. unfold in_range. apply _. Defined.

Definition renumbered (used : list N) (p p' : piece) : Prop :=
  match p, p' with
  | Lit c, Lit c' => c = c'
  | Tag ds, Tag ds' =>
      exists k, used !! k = Some (Py.int_value ds) /\ ds' = Py.str (N.of_nat (S k))
  | _, _ => False
  end.

Lemma allowed_map_fold (l : list DocumentChunk) m start (i : N) :
  foldl insert_chunk m (Py.enumerate start l) !! i
  = if bool_decide (start <= i < start + N.of_nat (length l))%N
    then l !! N.to_nat (i - start) else m !! i.
Proof.
  revert m start. induction l as [|c l IH]; intros m start; simpl.
  - rewrite bool_decide_eq_false_2 by lia. reflexivity.
  - rewrite IH. unfold insert_chunk. simpl.
    repeat case_bool_decide; try lia.
    + replace (N.to_nat (i - start)) with (S (N.to_nat (i - N.succ start)))
        by lia. reflexivity.
    + assert (i = start) as -> by lia.
      rewrite lookup_insert_eq, N.sub_diag. reflexivity.
    + apply lookup_insert_ne. lia.
Qed.

Lemma allowed_map_lookup allowed id :
  allowed_map_of allowed !! id = chunk_at allowed id.
Proof.
  unfold allowed_map_of, chunk_at.
  rewrite allowed_map_fold, lookup_empty.
  destruct (N.eqb_spec id 0) as [->|Hid].
  - now rewrite bool_decide_eq_false_2 by lia.
  - case_bool_decide as Hr.
    + f_equal. lia.
    + symmetry. apply lookup_ge_None. lia.
Qed.

Lemma chunk_at_in_range allowed id :
  is_Some (chunk_at allowed id) <-> in_range (length allowed) id.
Proof.
  unfold chunk_at, in_range. destruct (N.eqb_spec id 0) as [->|Hid].
  - split; [intros [? [=]]|lia].
  - rewrite lookup_lt_is_Some. lia.
Qed.

Lemma scan_renumbered text :
  Forall2 (renumbered (used_tags text)) (scan text)
    (scan (compact_renumbered text (used_tags text)).1).
Proof.
  rewrite scan_compact_renumber. apply Forall2_fmap_r, Forall_Forall2_diag.
  apply Forall_forall. intros [c|ds] Hp; simpl; [reflexivity|].
  assert (ds ∈ finditer text) as Hds.
  { unfold finditer. apply list_elem_of_omap. exists (Tag ds). done. }
  assert (Py.int_value ds ∈ used_tags text) as [k Hk]%list_elem_of_lookup.
  { rewrite parse_used_tags_firsts, elem_of_firsts. split; [|set_solver].
    apply list_elem_of_fmap. eauto. }
  exists k. split; [done|].
  rewrite int_relabel by done. unfold rank.
  rewrite (renumber_mapping_lookup _ k); [reflexivity| |done].
  rewrite parse_used_tags_firsts. apply NoDup_firsts.
Qed.

Lemma normalize_citations_sources a allowed :
  sources (normalized a (allowed_map_of allowed))
  = map source_of (omap (chunk_at allowed) (used_tags (answer a))).
Proof.
  unfold normalized, compact_renumbered. simpl. f_equal.
  unfold resolved_chunks. apply list_omap_ext, Forall_Forall2_diag.
  apply Forall_forall. intros. apply allowed_map_lookup.
Qed.

Definition sample_chunk : DocumentChunk :=
  {| content := "Item 1A text"; ticker := "AAPL"; filing_type := "10-K";
     filing_date := "2024-11-01"; section := Some "Item 1A";
     chunk_id := "AAPL_10-K_1A_targeted";
     source_url := "https://sec.example/aapl";
     page_number := None; confidence_score := 1 |}.

Definition with_text (a : AnswerWithSources) (text : string)
  : AnswerWithSources :=
  set_answer a text (sources a) (used_chunk_ids a).

(** an answer of the analyst that cites nothing *)
Definition plain_answer : AnswerWithSources :=
  {| answer := "No significant findings were identified.";
     ans_confidence_score := 5 # 10;
     sources := [source_of sample_chunk];
     citations := ["C1"];
     methodology := "";
     limitations := [];
     companies_analyzed := [];
     filing_types_used := [];
     time_period_covered := None;
     key_metrics := [];
     recommendations := [];
     tool_used := None;
     used_chunk_ids := ["AAPL_10-K_1A_targeted"] |}.

(** the Source that Step 5 makes of a chunk, field by field *)
Definition source_for (c : DocumentChunk) (s : Source) : Prop :=
  src_ticker s = ticker c
  /\ src_filing_type s = filing_type c
  /\ src_filing_date s = filing_date c
  /\ src_section s
     = Some (match section c with
             | Some sec => if Py.truthy sec then sec else "Summary"
             | None => "Summary"
             end)
  /\ src_url s = Some (source_url c)
  /\ src_chunk_id s = Some (chunk_id c)
  /\ src_note s = None.

Lemma source_of_fields c : source_for c (source_of c).
Proof.
  unfold source_for, source_of, section_or_summary, Py.or_str.
  cbn [src_ticker src_filing_type src_filing_date src_section src_url
       src_chunk_id src_note].
  now destruct (section c).
Qed.

Lemma normalized_sources_for a allowed :
  Forall2 source_for (omap (chunk_at allowed) (used_tags (answer a)))
    (sources (normalized a (allowed_map_of allowed))).
Proof.
  rewrite normalize_citations_sources.
  apply Forall2_fmap_r, Forall_Forall2_diag, Forall_forall.
  intros c _. apply source_of_fields.
Qed.



(** a piece as it stands in the text *)
Definition render (p : piece) : string :=
  match p with
  | Lit c => String c ""
  | Tag ds => group0 ds
  end.

Lemma render_scan text : Py.concat (map render (scan text)) = text.
Proof. apply (re_sub_id group0). reflexivity. Qed.

Lemma length_omap_chunk_at allowed (ids : list N) :
  length (omap (chunk_at allowed) ids)
  = length (filter (in_range (length allowed)) ids).
Proof.
  induction ids as [|id ids IH]; [reflexivity|]. cbn [omap list_omap].
  pose proof (chunk_at_in_range allowed id) as Hr.
  rewrite filter_cons. destruct (chunk_at allowed id) eqn:E.
  - rewrite decide_True by (apply Hr; eauto). simpl. now rewrite IH.
  - rewrite decide_False; [exact IH|]. intros [? ?]%Hr. discriminate.
Qed.

Lemma normalized_answer a allowed_map :
  answer (normalized a allowed_map)
  = let used := used_tags (answer a) in
    let new_text := (compact_renumbered (answer a) used).1 in
    match used with
    | [] => new_text
    | _ :: _ =>
        new_text ++ newline
        ++ Py.join newline
             ("" :: "**Citations**" :: citation_entries allowed_map used)
    end.
Proof.
  unfold normalized. cbv zeta.
  destruct (compact_renumbered (answer a) (used_tags (answer a)))
    as [text id_map].
  reflexivity.
Qed.


(** C2 (as the code has it): with at least three allowed chunks the text
    ["A [C3] and B [C1] and [C3] again"] is rewritten to
    ["A [C1] and B [C2] and [C1] again"] and there are exactly two sources,
    that of chunk 3 and then that of chunk 1, each with the ticker, form
    type, date, section (or ["Summary"]), address and id of its chunk.  In
    general reconciliation raises the [ValueError] of [int] when a tag has
    more than 4300 digits, and on no other text; otherwise the used numbers
    are the distinct numbers in order of first occurrence, every piece of
    the text outside the tags is kept, every tag whose number is the k-th
    used number is rewritten to [[Ck]], and the sources follow the order of
    the used numbers. *)
Theorem citations_renumbered_by_first_occurrence :
  (forall (a : AnswerWithSources) (c1 c2 c3 : DocumentChunk)
          (rest : list DocumentChunk),
     let a0 := with_text a "A [C3] and B [C1] and [C3] again" in
     let section_of c :=
       match section c with
       | Some sec => if Py.truthy sec then sec else "Summary"
       | None => "Summary"
       end in
     let reference c :=
       ticker c ++ " " ++ filing_type c ++ " " ++ filing_date c ++ ", "
       ++ section_of c ++ " " ++ em_dash ++ " " ++ source_url c in
     exists id_map result,
       _parse_used_tags (answer a0) = Ok [3; 1]%N
       /\ _compact_renumber (answer a0) [3; 1]%N
          = Ok ("A [C1] and B [C2] and [C1] again", id_map)
       /\ normalize_citations a0 (allowed_map_of (c1 :: c2 :: c3 :: rest))
          = Ok result
       /\ sources result
          = [ {| src_ticker := ticker c3;
                 src_filing_type := filing_type c3;
                 src_filing_date := filing_date c3;
                 src_section := Some (section_of c3);
                 src_url := Some (source_url c3);
                 src_chunk_id := Some (chunk_id c3);
                 src_note := None |};
              {| src_ticker := ticker c1;
                 src_filing_type := filing_type c1;
                 src_filing_date := filing_date c1;
                 src_section := Some (section_of c1);
                 src_url := Some (source_url c1);
                 src_chunk_id := Some (chunk_id c1);
                 src_note := None |} ]
       /\ used_chunk_ids result = [chunk_id c3; chunk_id c1]
       /\ answer result
          = "A [C1] and B [C2] and [C1] again" ++ newline
            ++ Py.join newline [""; "**Citations**";
                                "[C1] " ++ reference c3;
                                "[C2] " ++ reference c1])
  /\ (forall text : string,
        match _parse_used_tags text with
        | Raise e => tag_refused text e
        | Ok used =>
            tags_within_limit text
            /\ used = firsts ∅ (map Py.int_value (finditer text))
            /\ NoDup used
            /\ Py.concat (map render (scan text)) = text
            /\ exists new_text id_map,
                 _compact_renumber text used = Ok (new_text, id_map)
                 /\ Forall2 (renumbered used) (scan text) (scan new_text)
        end)
  /\ (forall (a : AnswerWithSources) (allowed : list DocumentChunk),
        match _parse_used_tags (answer a),
              normalize_citations a (allowed_map_of allowed) with
        | Ok used, Ok result =>
            Forall2 source_for (omap (chunk_at allowed) used) (sources result)
        | Raise e, Raise e' => e' = e /\ tag_refused (answer a) e
        | _, _ => False
        end).
Proof.
  split; [|split].
  - intros a c1 c2 c3 rest a0 section_of reference.
    assert (first_oversize (finditer (answer a0)) = None) as E
      by (vm_compute; reflexivity).
    assert (used_tags (answer a0) = [3; 1]%N) as Hused
      by (vm_compute; reflexivity).
    assert ((compact_renumbered (answer a0) [3; 1]%N).1
            = "A [C1] and B [C2] and [C1] again") as Htext
      by (vm_compute; reflexivity).
    eexists (renumber_mapping [3; 1]%N), _.
    rewrite parse_used_tags_run, compact_renumber_run,
      normalize_citations_run, E, Hused.
    split; [reflexivity|]. split.
    { unfold compact_renumbered in *. cbn [fst] in Htext. now rewrite Htext. }
    split; [reflexivity|].
    unfold normalized. rewrite Hused.
    destruct (compact_renumbered (answer a0) [3; 1]%N) as [new_text id_map].
    cbn [fst] in Htext. subst new_text.
    unfold resolved_chunks, citation_entries.
    cbn [omap list_omap Py.enumerate]. rewrite !allowed_map_lookup.
    cbn [set_answer sources used_chunk_ids answer chunk_at N.eqb Pos.eqb
         N.to_nat Pos.to_nat Pos.iter_op Nat.add Nat.sub lookup list_lookup
         mbind option_bind map].
    replace (Py.str 1) with "1" by (vm_compute; reflexivity).
    replace (Py.str (N.succ 1)) with "2" by (vm_compute; reflexivity).
    repeat split; reflexivity.
  - intros text. rewrite parse_used_tags_run.
    destruct (first_oversize (finditer text)) as [ds|] eqn:E;
      [now apply first_oversize_refused|].
    split; [now apply first_oversize_within|].
    split; [apply parse_used_tags_firsts|].
    split; [rewrite parse_used_tags_firsts; apply NoDup_firsts|].
    split; [apply render_scan|].
    exists (compact_renumbered text (used_tags text)).1,
      (renumber_mapping (used_tags text)).
    rewrite compact_renumber_run, E.
    split; [reflexivity|apply scan_renumbered].
  - intros a allowed.
    rewrite parse_used_tags_run, normalize_citations_run.
    destruct (first_oversize (finditer (answer a))) as [ds|] eqn:E.
    + split; [reflexivity|now apply first_oversize_refused].
    + apply normalized_sources_for.
Qed.

(** C2 as stated fails on a text with a tag of 4301 digits: reconciliation
    raises, so the tag [[C3]] that follows is not renumbered, and
    [answer_question] ends in its handler. *)
Lemma oversize_tag_ends_reconciliation :
  normalize_citations (with_text plain_answer (long_tag 4301 ++ " and [C3]"))
    (allowed_map_of (replicate 5 sample_chunk))
  = Raise {| exc_type := "ValueError";
             exc_msg := "Exceeds the limit (4300 digits) for integer string conversion: value has 4301 digits; use sys.set_int_max_str_digits() to increase the limit" |}.
Proof.
  rewrite <- refusal_of_4301_digits, normalize_citations_run.
  cbn [with_text set_answer answer].
  now rewrite long_tag_first by lia.
Qed.

Section RefusedTag.

Variable Env : Type.
Variable query_analyzer_run : string -> Env -> result QueryAnalysis * Env.
Variable financial_analyst_run :
  string -> list DocumentChunk -> Env -> result AnswerWithSources * Env.
Variable resolve : string -> Env -> result (option string) * Env.
Variable fetch_filings :
  string -> list string -> option string -> Z -> Env
  -> result (list DocumentChunk) * Env.

(** an answer of the analyst with a tag that [int] refuses ends the
    question in the handler *)
Lemma refused_tag_reaches_handler question (st : System Env) analysis e1
    companies st2 chunks st3 a e4 ds :
  query_analyzer_run question (env st) = (Ok analysis, e1) ->
  _determine_companies Env resolve analysis 3
    {| document_cache := document_cache st;
       missing_companies := missing_companies st;
       env := e1;
       fetch_calls := fetch_calls st |} = (Ok companies, st2) ->
  _retrieve_documents Env fetch_filings companies analysis st2
  = (Ok chunks, st3) ->
  financial_analyst_run (allowed_block_of chunks ++ newline ++ question)
    chunks (env st3) = (Ok a, e4) ->
  missing_companies st3 = [] ->
  first_oversize (finditer (answer a)) = Some ds ->
  answer_question Env query_analyzer_run financial_analyst_run resolve
    fetch_filings question st
  = (error_answer (refusal ds),
     {| document_cache := document_cache st3;
        missing_companies := missing_companies st3;
        env := e4;
        fetch_calls := fetch_calls st3 |}).
Proof.
  intros Ha Hc Hr Hf Hm Hds. unfold answer_question, question_flow.
  unfold mbind at 1, QM_bind at 1. unfold call at 1. rewrite Ha.
  unfold mbind at 1, QM_bind at 1. rewrite Hc.
  unfold mbind at 1, QM_bind at 1. rewrite Hr.
  unfold mbind at 1, QM_bind at 1. unfold call at 1. rewrite Hf.
  unfold mbind, QM_bind, get_missing, QM_lift.
  cbn [missing_companies]. rewrite Hm, normalize_citations_run, Hds.
  reflexivity.
Qed.

End RefusedTag.

(** ** The retrieval strategy *)

Definition rule_target (form : string) (secs : list string) (c : string)
  : target :=
  {| t_ticker := c; t_filing_type := form; t_sections := secs |}.

(** one of the form-or-keyword rules of the selector applies *)
Definition explicit_rule_matches (analysis : QueryAnalysis) : bool :=
  let kw := keyword_text analysis in
  let docset := docset_of analysis in
  (bool_decide (insider_req_of docset <> [])
   || (Py.contains "insider" kw || Py.contains "trading" kw))
  || (bool_decide ("10-K" ∈ docset)
      || (Py.contains "risk" kw || Py.contains "factor" kw))
  || (bool_decide ("10-Q" ∈ docset)
      || (Py.contains "md&a" kw || Py.contains "management discussion" kw))
  || (bool_decide ("DEF 14A" ∈ docset)
      || (Py.contains "compensation" kw || Py.contains "proxy" kw)).

Definition three_ticker_query : QueryAnalysis :=
  {| tickers := ["AAPL"; "MSFT"; "GOOGL"];
     time_periods := [];
     document_types := [];
     query_type := multi_ticker_comparison;
     sectors := [];
     keywords := ["compare"; "outlook"];
     complexity_score := 5 # 10;
     suggested_tickers := [];
     selection_reason := "" |}.

Definition every_ticker_targeted (analysis : QueryAnalysis)
    (allow_default : bool) : Prop :=
  exists s,
    _determine_retrieval_strategy analysis allow_default = Ok s
    /\ forall c, c ∈ tickers analysis ->
                 rule_target "10-K" ["1A"] c ∈ s_targets s.

Lemma default_companies_cases analysis :
  _get_default_companies analysis = ["JPM"]
  \/ _get_default_companies analysis = ["JNJ"]
  \/ _get_default_companies analysis = ["AAPL"].
Proof. unfold _get_default_companies. repeat case_match; auto. Qed.

Lemma companies_of_nonempty analysis : companies_of analysis <> [].
Proof.
  unfold companies_of. destruct (tickers analysis) as [|t ts]; [|done].
  destruct (default_companies_cases analysis) as [-> | [-> | ->]]; done.
Qed.

Lemma strategy_never_raises analysis allow_default :
  exists s, _determine_retrieval_strategy analysis allow_default = Ok s.
Proof.
  assert (is_Some (companies_of analysis !! 0%nat)) as [c Hc].
  { unfold companies_of, _get_default_companies.
    destruct (tickers analysis); [|eauto]. repeat case_match; eauto. }
  unfold _determine_retrieval_strategy. rewrite Hc.
  repeat case_match; eauto.
Qed.

(** the form-or-keyword rules are the ones whose reason is
    ["explicit_form_or_keyword"] *)
Lemma explicit_rule_reason analysis allow_default s :
  _determine_retrieval_strategy analysis allow_default = Ok s ->
  explicit_rule_matches analysis = true
  <-> s_reason s = "explicit_form_or_keyword".
Proof.
  unfold explicit_rule_matches, _determine_retrieval_strategy.
  repeat case_match; intros [= <-]; cbn [s_reason];
    rewrite ?orb_true_r, ?orb_false_r; cbn; split; (done || discriminate).
Qed.

(** the scenario of a single ticker asking for risk factors *)
Example selector_on_risk_query :
  _determine_retrieval_strategy
    {| tickers := ["AAPL"]; time_periods := []; document_types := ["10-K"];
       query_type := single_ticker; sectors := []; keywords := ["risk"];
       complexity_score := 3 # 10; suggested_tickers := [];
       selection_reason := "" |} false
  = Ok {| s_description := "10-K Risk factors (Item 1A)";
          s_reason := "explicit_form_or_keyword";
          s_targets := [rule_target "10-K" ["1A"] "AAPL"] |}.
Proof. vm_compute. reflexivity. Qed.

(** requested insider forms are pulled in the order 4, 3, 5 *)
Example selector_on_insider_forms :
  option_map (fun s => map t_filing_type (s_targets s))
    (match _determine_retrieval_strategy
             {| tickers := ["MSFT"]; time_periods := [];
                document_types := ["5"; "3"; "4"];
                query_type := single_ticker; sectors := []; keywords := [];
                complexity_score := 3 # 10; suggested_tickers := [];
                selection_reason := "" |} false with
     | Ok s => Some s
     | Raise _ => None
     end)
  = Some ["4"; "3"; "5"].
Proof. vm_compute. reflexivity. Qed.

(** C10: [_get_default_companies] returns one of [["JPM"]], [["JNJ"]],
    [["AAPL"]]; the company list of [_determine_retrieval_strategy] is never
    empty, so [companies[0]] exists and the selector never raises. *)
Theorem default_companies_never_empty
    (analysis : QueryAnalysis) (allow_default : bool) :
  (_get_default_companies analysis = ["JPM"]
   \/ _get_default_companies analysis = ["JNJ"]
   \/ _get_default_companies analysis = ["AAPL"])
  /\ companies_of analysis <> []
  /\ is_Some (companies_of analysis !! 0%nat)
  /\ exists s, _determine_retrieval_strategy analysis allow_default = Ok s.
Proof.
  split; [apply default_companies_cases|].
  pose proof (companies_of_nonempty analysis) as Hne.
  split; [exact Hne|].
  assert (is_Some (companies_of analysis !! 0%nat)) as Hhd.
  { destruct (companies_of analysis); [done|eauto]. }
  split; [exact Hhd|].
  unfold _determine_retrieval_strategy.
  destruct Hhd as [c ->].
  repeat case_match; eauto.
Qed.

(** C4 as stated fails: of the three tickers of a comparison query only
    the first two get a target. *)
Lemma third_ticker_dropped :
  ~ (query_type three_ticker_query = multi_ticker_comparison ->
     explicit_rule_matches three_ticker_query = false ->
     every_ticker_targeted three_ticker_query false).
Proof.
  intros H.
  destruct (H eq_refl ltac:(vm_compute; reflexivity)) as (s & Hs & Hall).
  assert (_determine_retrieval_strategy three_ticker_query false
          = Ok {| s_description := "Multi-company comparison (10-K 1A)";
                  s_reason := "query_type";
                  s_targets := [rule_target "10-K" ["1A"] "AAPL";
                                rule_target "10-K" ["1A"] "MSFT"] |}) as E
    by (vm_compute; reflexivity).
  rewrite E in Hs. injection Hs as <-.
  assert (rule_target "10-K" ["1A"] "GOOGL"
          ∈ [rule_target "10-K" ["1A"] "AAPL";
             rule_target "10-K" ["1A"] "MSFT"]) as Hin.
  { apply (Hall "GOOGL"). simpl. set_solver. }
  set_solver.
Qed.

(** C4 (as the code has it): when the query type is
    [multi_ticker_comparison] and no form-or-keyword rule applies, the
    selector emits, with reason ["query_type"], one (company, "10-K",
    ["1A"]) target for every company of its company list; the rule itself
    applies no cap, but that list is the first two tickers of the query (or
    the default company when the query has none), so at most two targets
    result. *)
Theorem comparison_rule_targets_companies
    (analysis : QueryAnalysis) (allow_default : bool)
    (Hqt : query_type analysis = multi_ticker_comparison)
    (Hno : explicit_rule_matches analysis = false) :
  _determine_retrieval_strategy analysis allow_default
  = Ok {| s_description := "Multi-company comparison (10-K 1A)";
          s_reason := "query_type";
          s_targets :=
            map (rule_target "10-K" ["1A"]) (companies_of analysis) |}
  /\ companies_of analysis
     = take 2 (match tickers analysis with
               | [] => _get_default_companies analysis
               | _ :: _ => tickers analysis
               end)
  /\ (length (companies_of analysis) <= 2)%nat.
Proof.
  unfold explicit_rule_matches in Hno.
  apply orb_false_iff in Hno as [Hno H4].
  apply orb_false_iff in Hno as [Hno H3].
  apply orb_false_iff in Hno as [H1 H2].
  split; [|split].
  - unfold _determine_retrieval_strategy.
    rewrite H1, H2, H3, H4, Hqt. reflexivity.
  - unfold companies_of. now destruct (tickers analysis).
  - unfold companies_of. destruct (tickers analysis); rewrite length_take; lia.
Qed.

(** the comparison rule on a query with three tickers *)
Lemma comparison_rule_witness :
  _determine_retrieval_strategy three_ticker_query false
  = Ok {| s_description := "Multi-company comparison (10-K 1A)";
          s_reason := "query_type";
          s_targets :=
            map (rule_target "10-K" ["1A"])
                (companies_of three_ticker_query) |}
  /\ companies_of three_ticker_query
     = take 2 (match tickers three_ticker_query with
               | [] => _get_default_companies three_ticker_query
               | _ :: _ => tickers three_ticker_query
               end)
  /\ (length (companies_of three_ticker_query) <= 2)%nat.
Proof.
  apply (comparison_rule_targets_companies three_ticker_query false);
    vm_compute; reflexivity.
Defined.

(** ** The targeted fetchers and the fallback *)

Definition returned {A} (r : result (list A) * World) : list A :=
  match r.1 with Ok l => l | Raise _ => [] end.

Definition content_length (c : DocumentChunk) : nat :=
  String.length (content c).

(** what the structured fetcher makes of the stripped extractor text *)
Definition truncated (text : string) : string :=
  if (1500 <? String.length text)%nat
  then Py.prefix_str 1500 text ++ "..." else text.

Lemma prefix_str_length n s :
  String.length (Py.prefix_str n s) = Nat.min n (String.length s).
Proof.
  revert s. induction n as [|n IH]; intros [|c s]; simpl; try reflexivity.
  now rewrite IH.
Qed.

Lemma truncated_length text :
  String.length (truncated text)
  = if (1500 <? String.length text)%nat then 1503%nat else String.length text.
Proof.
  unfold truncated. destruct (Nat.ltb_spec 1500 (String.length text)); [|done].
  rewrite append_length, prefix_str_length.
  change (String.length "...") with 3%nat. lia.
Qed.

Ltac run_step :=
  match goal with
  | |- context [match ?x with _ => _ end] =>
      first
        [ is_var x
        | lazymatch x with
          | search_replies _ => idtac
          | extract_replies _ => idtac
          | insider_replies _ => idtac
          | negb _ => idtac
          | Nat.ltb _ _ => idtac
          | link_of _ => idtac
          | get_or _ _ => idtac
          | Py.truthy _ => idtac
          | List.find _ _ => idtac
          end ];
      destruct x eqn:?; cbv beta iota zeta
  end.

Ltac run_fetch :=
  unfold try_except, post_search, get_extract, post_insider, json, slice_str,
    str_field, raise, lift;
  unfold mbind, M_bind, mret, M_ret;
  cbv beta iota zeta;
  repeat run_step.

(** A fetcher's run from [w]: it returns, with at most one chunk, each
    satisfying [P], after at most [max_requests] requests. *)
Definition fetches (m : M (list DocumentChunk)) (w : World)
    (max_requests : nat) (P : DocumentChunk -> Prop) : Prop :=
  exists l w' extra,
    m w = (Ok l, w')
    /\ (length l <= 1)%nat
    /\ requests w' = (requests w ++ extra)%list
    /\ (length extra <= max_requests)%nat
    /\ Forall P l.

(** the content of a structured chunk, from the extractor's reply *)
Definition structured_content (w : World) (c : DocumentChunk) : Prop :=
  exists body rest,
    extract_replies w = Reply 200 body :: rest
    /\ (200 <= String.length (Py.strip (default "" body)))%nat
    /\ content c = truncated (Py.strip (default "" body)).

Ltac fetch_done :=
  eexists _, _, _; split; [reflexivity|]; split; [simpl; lia|];
  split; [cbn [requests]; rewrite <- ?app_assoc; reflexivity|];
  split; [simpl; lia|]; try apply Forall_nil_2.

Lemma structured_fetch_spec ticker form_type sections analysis w :
  fetches (_fetch_structured_targeted ticker form_type sections analysis) w 2
          (structured_content w).
Proof.
  unfold fetches, _fetch_structured_targeted. run_fetch.
  all: fetch_done.
  all: apply Forall_singleton; cbn [extract_replies] in *;
    match goal with
    | H : negb (?code =? 200)%Z = false,
      E : extract_replies _ = Reply ?code _ :: _ |- _ =>
        apply negb_false_iff, Z.eqb_eq in H; subst code
    end;
    eexists _, _; split; [eassumption|];
    match goal with
    | H : (_ <? 200)%nat = false |- _ => apply Nat.ltb_ge in H
    end;
    split; [assumption|]; cbn [content]; unfold truncated;
    match goal with H : (1500 <? _)%nat = _ |- _ => now rewrite H end.
Qed.

Lemma general_fetch_spec ticker form_type analysis w :
  fetches (_fetch_general_targeted ticker form_type analysis) w 1
          (fun c => exists company date desc,
             (String.length date <= 10)%nat /\ (String.length desc <= 180)%nat
             /\ content c
                = form_type ++ " Filing - " ++ company ++ newline
                  ++ "Date: " ++ date ++ newline
                  ++ "Summary: " ++ desc ++ "..." ++ newline ++ newline
                  ++ "This filing contains material information relevant to the query.").
Proof.
  unfold fetches, _fetch_general_targeted. run_fetch.
  all: fetch_done.
  all: apply Forall_singleton; eexists _, _, _; cbn [content].
  all: split; [|split; [|reflexivity]]; rewrite prefix_str_length; lia.
Qed.

(** the company name as a general chunk shows it *)
Definition company_shown (f : filing) : string :=
  match companyName f with
  | Missing => "Unknown Company"
  | Null => "None"
  | Val name => name
  end.

(** the content of a general chunk, from the first filing of the search
    reply *)
Definition general_content (w : World) (form_type : string)
    (c : DocumentChunk) : Prop :=
  exists f more rest d s,
    search_replies w = Reply 200 (Some (f :: more)) :: rest
    /\ (filedAt f = Val d \/ (filedAt f = Missing /\ d = ""))
    /\ (description f = Val s
        \/ (description f = Missing /\ s = form_type ++ " filing"))
    /\ content c
       = form_type ++ " Filing - " ++ company_shown f ++ newline
         ++ "Date: " ++ Py.prefix_str 10 d ++ newline
         ++ "Summary: " ++ Py.prefix_str 180 s ++ "..." ++ newline ++ newline
         ++ "This filing contains material information relevant to the query.".

Lemma general_fetch_content ticker form_type analysis w :
  fetches (_fetch_general_targeted ticker form_type analysis) w 1
          (general_content w form_type).
Proof.
  unfold fetches, _fetch_general_targeted. run_fetch.
  all: fetch_done.
  all: apply Forall_singleton.
  all: match goal with
       | H : negb (?code =? 200)%Z = false |- _ =>
           apply negb_false_iff, Z.eqb_eq in H; subst code
       end.
  all: match goal with
       | Hw : search_replies _ = Reply 200 (Some (?f :: ?more)) :: ?rest,
         Hd : get_or "" (filedAt ?f) = Some ?d,
         Hs : get_or _ (description ?f) = Some ?s |- _ =>
           exists f, more, rest, d, s; split; [exact Hw|];
           split; [destruct (filedAt f); cbn in Hd; simplify_eq; auto|];
           split; [destruct (description f); cbn in Hs; simplify_eq; auto|]
       end.
  all: cbn [content]; unfold company_shown; now destruct (companyName f).
Qed.

Lemma prefix_str_truthy n s :
  Py.truthy s = true -> (1 <= String.length (Py.prefix_str (S n) s))%nat.
Proof. destruct s; [discriminate|]. simpl. lia. Qed.

Definition insider_chunk_content (c : DocumentChunk) : Prop :=
  (1 <= content_length c <= 1200)%nat.

Section InsiderFacts.

Context {PF : PyFloat}.

Lemma insider_fetch_spec ticker form_type analysis w :
  fetches (_fetch_insider_targeted ticker form_type analysis) w 1
          insider_chunk_content.
Proof.
  unfold fetches, _fetch_insider_targeted, _resolve_date_from. run_fetch.
  all: repeat match goal with
       | |- context [match nd_of ?f with _ => _ end] =>
           destruct (nd_of f) eqn:?; cbv beta iota zeta
       end.
  all: repeat run_step.
  all: fetch_done.
  all: apply Forall_singleton; unfold insider_chunk_content, content_length;
    cbn [content]; split; [now apply prefix_str_truthy|];
    rewrite prefix_str_length; lia.
Qed.

Lemma fetch_target_spec analysis t w :
  fetches (fetch_target analysis t) w 2 (fun _ => True).
Proof.
  unfold fetch_target. repeat case_bool_decide.
  - destruct (insider_fetch_spec (t_ticker t) (t_filing_type t) analysis w)
      as (l & w' & extra & E & Hl & Hr & Hn & _).
    exists l, w', extra. repeat split; try done; [lia|]. now apply Forall_true.
  - destruct (structured_fetch_spec (t_ticker t) (t_filing_type t)
                (take 1 (t_sections t)) analysis w)
      as (l & w' & extra & E & Hl & Hr & Hn & _).
    exists l, w', extra. repeat split; try done. now apply Forall_true.
  - destruct (general_fetch_spec (t_ticker t) (t_filing_type t) analysis w)
      as (l & w' & extra & E & Hl & Hr & Hn & _).
    exists l, w', extra. repeat split; try done; [lia|]. now apply Forall_true.
Qed.

(** the results of the fetches of a target list, one per target, and the
    provider after them *)
Fixpoint per_target_results (analysis : QueryAnalysis) (ts : list target)
    (w : World) : list (list DocumentChunk) * World :=
  match ts with
  | [] => ([], w)
  | t :: ts' =>
      let r := fetch_target analysis t w in
      let '(rs, w') := per_target_results analysis ts' r.2 in
      (returned r :: rs, w')
  end.

Lemma fetch_targets_spec analysis ts acc w :
  fetch_targets analysis ts acc w
  = (Ok (acc ++ concat (per_target_results analysis ts w).1)%list,
     (per_target_results analysis ts w).2).
Proof.
  revert acc w. induction ts as [|t ts IH]; intros acc w; simpl.
  - now rewrite app_nil_r.
  - destruct (fetch_target_spec analysis t w) as (l & w' & _ & E & _).
    unfold mbind, M_bind. rewrite E. cbn [snd]. rewrite IH.
    destruct (per_target_results analysis ts w') as [rs w2].
    unfold returned. simpl. now rewrite app_assoc.
Qed.

Lemma per_target_requests analysis ts w :
  exists extra,
    requests (per_target_results analysis ts w).2 = (requests w ++ extra)%list
    /\ (length extra <= 2 * length ts)%nat.
Proof.
  revert w. induction ts as [|t ts IH]; intros w; simpl.
  - exists []. now rewrite app_nil_r.
  - destruct (fetch_target_spec analysis t w)
      as (l & w' & extra & E & _ & Hr & Hn & _).
    rewrite E. cbn [snd]. destruct (IH w') as (extra' & Hr' & Hn').
    destruct (per_target_results analysis ts w') as [rs w2]. simpl in *.
    exists (extra ++ extra')%list. rewrite Hr', Hr, app_assoc, length_app.
    split; [reflexivity|lia].
Qed.

(** the one company and the one form of the probe *)
Definition probe_company (analysis : QueryAnalysis) : string :=
  match tickers analysis with
  | [] => default "" (head (_get_default_companies analysis))
  | c :: _ => c
  end.

Definition probe_form (analysis : QueryAnalysis) : string :=
  default "10-K" (head (document_types analysis)).

Definition probe_fetch (analysis : QueryAnalysis) : M (list DocumentChunk) :=
  let c := probe_company analysis in
  let form := probe_form analysis in
  if bool_decide (form ∈ ["10-K"; "10-Q"]) then
    _fetch_structured_targeted c form
      (if String.eqb form "10-K" then ["1A"] else ["part1item2"]) analysis
  else _fetch_general_targeted c form analysis.

Lemma probe_fetch_spec analysis w :
  fetches (probe_fetch analysis) w 2 (fun _ => True).
Proof.
  unfold probe_fetch. case_bool_decide.
  - destruct (structured_fetch_spec (probe_company analysis)
                (probe_form analysis)
                (if String.eqb (probe_form analysis) "10-K"
                 then ["1A"] else ["part1item2"]) analysis w)
      as (l & w' & extra & E & Hl & Hr & Hn & _).
    exists l, w', extra. repeat split; try done. now apply Forall_true.
  - destruct (general_fetch_spec (probe_company analysis)
                (probe_form analysis) analysis w)
      as (l & w' & extra & E & Hl & Hr & Hn & _).
    exists l, w', extra. repeat split; try done; [lia|]. now apply Forall_true.
Qed.

Lemma probe_is_single_fetch analysis w :
  _fetch_general_small_probe analysis w
  = (Ok (take 2 (returned (probe_fetch analysis w))),
     (probe_fetch analysis w).2).
Proof.
  destruct (probe_fetch_spec analysis w) as (l & w' & _ & E & _).
  unfold _fetch_general_small_probe.
  assert (take 1 (match tickers analysis with
                  | [] => _get_default_companies analysis
                  | _ :: _ => tickers analysis
                  end) = [probe_company analysis]) as ->.
  { unfold probe_company, _get_default_companies.
    destruct (tickers analysis); [|reflexivity].
    repeat case_match; reflexivity. }
  assert (match take 1 (document_types analysis) with
          | [] => "10-K"
          | f :: _ => f
          end = probe_form analysis) as ->.
  { unfold probe_form. now destruct (document_types analysis). }
  fold (probe_fetch analysis). unfold mbind, M_bind, mret, M_ret.
  unfold probe_fetch in *. rewrite E. reflexivity.
Qed.


Lemma slice_to_length {A} (k : Z) (l : list A) :
  (0 <= k)%Z -> (length (Py.slice_to k l) <= Z.to_nat k)%nat.
Proof.
  intros Hk. unfold Py.slice_to.
  destruct (Z.ltb_spec k 0); [lia|]. rewrite length_take. lia.
Qed.

(** C7: [fetch_targeted_filings] runs the targets of the strategy, capped
    by [max_targets], and returns the concatenation of their results when
    it is non-empty; when it is empty and [fallback] is ["general_small"]
    it returns the result of the probe, and otherwise the empty list.  The
    probe is one fetch for one company and one form, returns at most two
    records and makes at most two requests; nothing follows it. *)
Theorem targeted_then_probe_then_empty
    (analysis : QueryAnalysis) (allow_default : bool) (fallback : string)
    (max_targets : Z) (w : World) :
  exists s,
    _determine_retrieval_strategy analysis allow_default = Ok s
    /\ let capped := Py.slice_to max_targets (s_targets s) in
       let runs := per_target_results analysis capped w in
       let chunks := concat runs.1 in
       ((0 <= max_targets)%Z ->
        capped = take (Z.to_nat max_targets) (s_targets s)
        /\ (length capped <= Z.to_nat max_targets)%nat)
       /\ fetch_targeted_filings analysis allow_default fallback max_targets w
          = (if bool_decide (chunks <> []) then (Ok chunks, runs.2)
             else if String.eqb fallback "general_small"
                  then _fetch_general_small_probe analysis runs.2
                  else (Ok [], runs.2))
       /\ forall w1,
            exists l w2 extra,
              _fetch_general_small_probe analysis w1 = (Ok (take 2 l), w2)
              /\ probe_fetch analysis w1 = (Ok l, w2)
              /\ (length (take 2 l) <= 2)%nat
              /\ requests w2 = (requests w1 ++ extra)%list
              /\ (length extra <= 2)%nat.
Proof.
  destruct (strategy_never_raises analysis allow_default) as [s Hs].
  exists s. split; [exact Hs|]. intros capped runs chunks.
  split.
  { intros Hmax. split; [|now apply slice_to_length].
    unfold capped, Py.slice_to.
    destruct (Z.ltb_spec max_targets 0); [lia|done]. }
  split.
  - unfold fetch_targeted_filings, lift. unfold mbind at 1, M_bind at 1.
    rewrite Hs. unfold mbind, M_bind.
    rewrite fetch_targets_spec. fold capped runs. cbn [app]. fold chunks.
    destruct chunks; [|reflexivity].
    rewrite bool_decide_eq_false_2 by (intros H; now apply H).
    now destruct (String.eqb fallback "general_small").
  - intros w1. rewrite probe_is_single_fetch.
    destruct (probe_fetch_spec analysis w1)
      as (l & w2 & extra & E & Hl & Hr & Hn & _).
    exists l, w2, extra. rewrite E. unfold returned. simpl.
    repeat split; try done. rewrite length_take. lia.
Qed.

Lemma general_content_length form_type company date desc :
  (String.length date <= 10)%nat -> (String.length desc <= 180)%nat ->
  let content :=
    form_type ++ " Filing - " ++ company ++ newline
    ++ "Date: " ++ date ++ newline
    ++ "Summary: " ++ desc ++ "..." ++ newline ++ newline
    ++ "This filing contains material information relevant to the query." in
  (96 <= String.length content
   <= String.length form_type + String.length company + 286)%nat.
Proof.
  intros Hd Hs content. unfold content. rewrite !append_length.
  unfold newline. cbn [String.length]. lia.
Qed.

(** C3 (as the code has it): no targeted fetcher returns a chunk with
    empty content.  A structured chunk holds the stripped extractor text
    when it has 200 to 1500 characters, and its first 1500 characters
    followed by ["..."] (1503 characters) when it is longer; a text under
    200 characters yields no chunk.  An insider chunk has 1 to 1200
    characters.  A general chunk is made of the first filing of the search
    reply: its form type, the company name of that filing, the first 10
    characters of its date and the first 180 of its description; it has at
    least 96 characters and at most 286 more than the form type and that
    company name together. *)
Theorem targeted_content_lengths
    (ticker form_type : string) (sections : list string)
    (analysis : QueryAnalysis) (w : World) :
  Forall (fun c => (200 <= content_length c <= 1503)%nat
                   /\ structured_content w c)
         (returned (_fetch_structured_targeted ticker form_type sections
                      analysis w))
  /\ (forall body rest,
        extract_replies w = Reply 200 body :: rest ->
        (String.length (Py.strip (default "" body)) < 200)%nat ->
        returned (_fetch_structured_targeted ticker form_type sections
                    analysis w) = [])
  /\ (forall text,
        (1500 < String.length text)%nat ->
        truncated text = Py.prefix_str 1500 text ++ "..."
        /\ String.length (Py.prefix_str 1500 text) = 1500%nat
        /\ String.length (truncated text) = 1503%nat)
  /\ Forall (fun c => (1 <= content_length c <= 1200)%nat)
            (returned (_fetch_insider_targeted ticker form_type analysis w))
  /\ Forall (fun c =>
               general_content w form_type c
               /\ exists f more rest,
                    search_replies w = Reply 200 (Some (f :: more)) :: rest
                    /\ (96 <= content_length c
                        <= String.length form_type
                           + String.length (company_shown f) + 286)%nat)
            (returned (_fetch_general_targeted ticker form_type analysis w)).
Proof.
  destruct (structured_fetch_spec ticker form_type sections analysis w)
    as (l & w1 & _ & E & _ & _ & _ & Hs).
  assert (Forall (fun c => (200 <= content_length c <= 1503)%nat
                           /\ structured_content w c) l) as Hs'.
  { eapply Forall_impl; [exact Hs|]. intros c Hc. split; [|exact Hc].
    destruct Hc as (body & rest & _ & Hlen & Hc). unfold content_length.
    rewrite Hc, truncated_length.
    destruct (Nat.ltb_spec 1500 (String.length (Py.strip (default "" body))));
      lia. }
  unfold returned. rewrite E. cbn [fst]. split; [exact Hs'|]. split.
  { intros body rest Hw Hshort. destruct l as [|c l]; [reflexivity|].
    apply Forall_cons_1 in Hs as [(body' & rest' & Hw' & Hlen & _) _].
    rewrite Hw in Hw'. injection Hw' as <- <-. lia. }
  split.
  { intros text Hlong. unfold truncated.
    rewrite (proj2 (Nat.ltb_lt _ _) Hlong). split; [reflexivity|].
    rewrite append_length, prefix_str_length.
    change (String.length "...") with 3%nat. lia. }
  split.
  - destruct (insider_fetch_spec ticker form_type analysis w)
      as (li & w2 & _ & Ei & _ & _ & _ & Hi).
    rewrite Ei. exact Hi.
  - destruct (general_fetch_content ticker form_type analysis w)
      as (lg & w3 & _ & Eg & _ & _ & _ & Hg).
    rewrite Eg. cbn [fst]. eapply Forall_impl; [exact Hg|].
    intros c Hc. split; [exact Hc|].
    destruct Hc as (f & more & rest & d & s & Hw & _ & _ & Hc).
    exists f, more, rest. split; [exact Hw|].
    unfold content_length. rewrite Hc.
    apply general_content_length; rewrite prefix_str_length; lia.
Qed.

(** C5: the targeted insider fetcher renders code ['A'] as ["Acquired"]
    and every other code, or none, as ["Disposed"]; the formatter of
    [_format_insider_filing] renders ['A'] and ['D'] and passes any other
    code through. *)
Theorem targeted_action_guesses_disposed (code : jfield string)
    (sh px : jfield jscalar) :
  let amt := {| shares := sh; pricePerShare := px;
                acquiredDisposedCode := code |} in
  targeted_action amt
  = match code with
    | Val c => if bool_decide (c = "A") then "Acquired" else "Disposed"
    | _ => "Disposed"
    end
  /\ format_action amt
     = match code with
       | Missing => Some "Unknown"
       | Null => None
       | Val c =>
           if bool_decide (c = "A") then Some "Acquired"
           else if bool_decide (c = "D") then Some "Disposed"
           else Some c
       end
  /\ forall (st : list string * float),
       insider_step st
         {| tx_amounts := Val {| shares := sh; pricePerShare := px;
                                 acquiredDisposedCode := Val "X" |} |}
       = match to_float sh, to_float px with
         | Some shares, Some price =>
             (app st.1 ["- Disposed " ++ fmt_comma0 shares ++ " @ $"
                        ++ fmt_fixed2 price ++ " ($"
                        ++ fmt_comma0 (fmul shares price) ++ ")"],
              fadd st.2 (fmul shares price))
         | _, _ => st
         end.
Proof.
  intros amt. unfold targeted_action, format_action. cbn.
  split; [|split].
  - destruct code as [| |c]; cbn; try reflexivity.
    repeat case_bool_decide; simplify_eq; done.
  - destruct code as [| |c]; cbn; try reflexivity.
    repeat case_bool_decide; simplify_eq; done.
  - intros st. unfold insider_step. cbn [amounts_of tx_amounts shares
      pricePerShare].
    destruct (to_float sh), (to_float px); reflexivity.
Qed.

End InsiderFacts.

Definition sample_filing : filing :=
  {| linkToHtml := Val "https://www.sec.gov/a10k.htm";
     linkToTxt := Missing;
     filedAt := Val "2024-11-01T16:30:00-04:00";
     companyName := Val "Apple Inc.";
     description := Val "Form 10-K - Annual report";
     linkToFilingDetails := Val "https://www.sec.gov/a10k-index.htm" |}.

(** a provider whose extractor returns [n] characters of text *)
Definition extractor_world (n : nat) : World :=
  {| search_replies := [Reply 200 (Some [sample_filing])];
     extract_replies := [Reply 200 (Some (repeat_char "x" n))];
     insider_replies := [];
     utc_days_ago := fun _ => "2024-05-05";
     requests := [] |}.

Definition risk_query : QueryAnalysis :=
  {| tickers := ["AAPL"];
     time_periods := [];
     document_types := ["10-K"];
     query_type := single_ticker;
     sectors := [];
     keywords := ["risk"];
     complexity_score := 3 # 10;
     suggested_tickers := [];
     selection_reason := "" |}.

Definition content_within_1500 (chunks : list DocumentChunk) : Prop :=
  Forall (fun c => (1 <= content_length c <= 1500)%nat) chunks.

Example structured_fetch_of_300_characters :
  map content_length
    (returned (_fetch_structured_targeted "AAPL" "10-K" ["1A"] risk_query
                 (extractor_world 300)))
  = [300%nat]
  /\ returned (_fetch_structured_targeted "AAPL" "10-K" ["1A"] risk_query
                 (extractor_world 199)) = [].
Proof. split; vm_compute; reflexivity. Qed.

(** C3 as stated fails: an extractor text of 1501 characters gives a
    chunk whose content has 1503 characters. *)
Lemma structured_content_exceeds_1500 :
  ~ content_within_1500
      (returned (_fetch_structured_targeted "AAPL" "10-K" ["1A"] risk_query
                   (extractor_world 1501))).
Proof.
  assert (map content_length
            (returned (_fetch_structured_targeted "AAPL" "10-K" ["1A"]
                         risk_query (extractor_world 1501)))
          = [1503%nat]) as E by (vm_compute; reflexivity).
  intros H. destruct (returned _) as [|c [|c' l]]; try discriminate.
  injection E as E. apply Forall_cons_1 in H as [H _]. lia.
Qed.

(** ** The evidence cache and the handler on concrete runs *)

(** a fetcher that finds one chunk for AAPL and nothing for anyone else;
    its state counts the calls *)
Definition counting_fetch (company : string) (_ : list string)
    (_ : option string) (_ : Z) (n : nat)
  : result (list DocumentChunk) * nat :=
  (Ok (if String.eqb company "AAPL" then [sample_chunk] else []), S n).

Definition fresh_system : System nat :=
  {| document_cache := ∅; missing_companies := []; env := 0%nat;
     fetch_calls := [] |}.

Definition after_first_retrieval : System nat :=
  (_retrieve_documents nat counting_fetch ["AAPL"] risk_query fresh_system).2.

(** the cache keyed by the sorted list of document types: lists that are
    permutations of each other share their key *)
Definition keyed_by_sorted_types : Prop :=
  forall (company : string) (dts dts' : list string) (df : option string),
    dts ≡ₚ dts' -> cache_key company dts df = cache_key company dts' df.

(** C6 as stated fails: the key follows the order in which the document
    types are given. *)
Lemma cache_key_follows_given_order : ~ keyed_by_sorted_types.
Proof.
  intros H.
  specialize (H "AAPL" ["10-K"; "10-Q"] ["10-Q"; "10-K"] None
                ltac:(apply perm_swap)).
  vm_compute in H. discriminate H.
Qed.

(** a first retrieval that fetches and a second one answered from the
    cache *)
Lemma evidence_cache_first_and_second_lookup :
  _retrieve_documents nat counting_fetch ["AAPL"] risk_query fresh_system
  = (Ok [sample_chunk], after_first_retrieval)
  /\ document_cache after_first_retrieval !! "AAPL_10-K_recent"
     = Some [sample_chunk]
  /\ _retrieve_documents nat counting_fetch ["AAPL"] risk_query
       after_first_retrieval
     = (Ok [sample_chunk], after_first_retrieval)
  /\ fetch_calls after_first_retrieval = [("AAPL", ["10-K"], None)].
Proof.
  assert (_retrieve_documents nat counting_fetch ["AAPL"] risk_query
            fresh_system
          = (Ok [sample_chunk], after_first_retrieval)) as Hrun
    by (vm_compute; reflexivity).
  destruct (evidence_cache_keyed_by_joined_string nat counting_fetch "AAPL"
              risk_query fresh_system after_first_retrieval [sample_chunk]
              Hrun) as (_ & Hhit & Hmiss & _).
  destruct (Hhit ltac:(discriminate)) as (Hkey & _ & Hagain).
  destruct (Hmiss ltac:(reflexivity)) as (Hcalls & _).
  split; [exact Hrun|]. split; [exact Hkey|].
  split; [exact (Hagain "AAPL" risk_query eq_refl)|].
  exact Hcalls.
Defined.

(** an analyzer that is down *)
Definition failing_analyzer (_ : string) (e : unit)
  : result QueryAnalysis * unit :=
  (Raise {| exc_type := "RuntimeError"; exc_msg := "model unavailable" |}, e).

Definition idle_analyst (_ : string) (_ : list DocumentChunk) (e : unit)
  : result AnswerWithSources * unit :=
  (Raise {| exc_type := "RuntimeError"; exc_msg := "not reached" |}, e).

Definition idle_resolver (_ : string) (e : unit)
  : result (option string) * unit := (Ok None, e).

Definition idle_fetch (_ : string) (_ : list string) (_ : option string)
    (_ : Z) (e : unit) : result (list DocumentChunk) * unit := (Ok [], e).

Definition idle_system : System unit :=
  {| document_cache := ∅; missing_companies := []; env := tt;
     fetch_calls := [] |}.

(** the handler's answer when the analyzer raises *)
Lemma answer_question_when_analyzer_fails :
  answer_question unit failing_analyzer idle_analyst idle_resolver idle_fetch
    "What are Apple's risk factors?" idle_system
  = (error_answer {| exc_type := "RuntimeError";
                     exc_msg := "model unavailable" |}, idle_system).
Proof.
  apply (answer_question_absorbs_exceptions unit failing_analyzer idle_analyst
           idle_resolver idle_fetch "What are Apple's risk factors?"
           idle_system idle_system
           {| exc_type := "RuntimeError"; exc_msg := "model unavailable" |}).
  reflexivity.
Defined.

(** ** More on citation normalisation *)

Lemma mapping_lookup_Some (l : list N) m start x v :
  foldl insert_pair m (Py.enumerate start l) !! x = Some v ->
  m !! x = Some v
  \/ exists k, l !! k = Some x /\ v = (start + N.of_nat k)%N.
Proof.
  revert m start. induction l as [|y l IH]; intros m start; simpl.
  - auto.
  - intros [H|(k & Hk & ->)]%IH.
    + unfold insert_pair in H. destruct (decide (y = x)) as [->|Hne].
      * rewrite lookup_insert_eq in H. injection H as <-.
        right. exists 0%nat. split; [done|lia].
      * rewrite lookup_insert_ne in H by done. now left.
    + right. exists (S k). split; [done|lia].
Qed.

Lemma mapping_lookup_elem (l : list N) m start x :
  x ∈ l -> is_Some (foldl insert_pair m (Py.enumerate start l) !! x).
Proof.
  revert m start. induction l as [|y l IH]; intros m start Hx.
  - set_solver.
  - simpl. destruct (decide (x ∈ l)) as [Hin|Hnin]; [now apply IH|].
    assert (x = y) as -> by set_solver.
    rewrite mapping_lookup_notin by done.
    unfold insert_pair. rewrite lookup_insert_eq. eauto.
Qed.

(** a tag after renumbering with the ids [used_ids] *)
Definition renumbered_with (used_ids : list N) (p p' : piece) : Prop :=
  match p, p' with
  | Lit c, Lit c' => c = c'
  | Tag ds, Tag ds' =>
      ((Py.int_value ds ∉ used_ids) /\ ds' = ds)
      \/ (exists k, used_ids !! k = Some (Py.int_value ds)
                    /\ ds' = Py.str (N.of_nat (S k)))
  | _, _ => False
  end.

Lemma compact_renumber_nil text : (compact_renumbered text []).1 = text.
Proof.
  unfold compact_renumbered. cbn [fst].
  apply re_sub_id. intros ds _. unfold replaced, renumber_mapping. simpl.
  now rewrite lookup_empty.
Qed.

Lemma compact_renumbered_with text used_ids :
  Forall2 (renumbered_with used_ids) (scan text)
          (scan (compact_renumbered text used_ids).1).
Proof.
  rewrite scan_compact_renumber. apply Forall2_fmap_r, Forall_Forall2_diag.
  apply Forall_forall. intros [c|ds] _; simpl; [reflexivity|].
  unfold relabel.
  destruct (renumber_mapping used_ids !! Py.int_value ds) as [new|] eqn:E.
  - right. unfold renumber_mapping in E.
    apply mapping_lookup_Some in E as [E|(k & Hk & ->)];
      [now rewrite lookup_empty in E|].
    exists k. split; [done|]. f_equal. lia.
  - left. split; [|done]. intros Hin.
    apply (mapping_lookup_elem _ ∅ 1%N) in Hin as [? Hin].
    unfold renumber_mapping in E. congruence.
Qed.

(** X1: [_compact_renumber] for any list [used_ids], not only the one
    that [_parse_used_tags] returns.  It raises the [ValueError] of [int]
    when a tag of the text has more than 4300 digits, listed or not, and on
    no other text.  Otherwise, piece by piece, a tag whose number is not
    listed stays as it is and a listed one becomes its position in the
    list; the characters between the tags are kept.  With no listed id the
    text comes back unchanged, and the mapping holds positions of the list
    only. *)
Theorem compact_renumber_keeps_unlisted_tags
    (text : string) (used_ids : list N) :
  match _compact_renumber text used_ids with
  | Raise e => tag_refused text e
  | Ok (new_text, mapping) =>
      tags_within_limit text
      /\ Forall2 (renumbered_with used_ids) (scan text) (scan new_text)
      /\ (used_ids = [] -> new_text = text)
      /\ forall old new,
           mapping !! old = Some new ->
           exists k, used_ids !! k = Some old /\ new = N.of_nat (S k)
  end.
Proof.
  rewrite compact_renumber_run.
  destruct (first_oversize (finditer text)) as [ds|] eqn:E;
    [now apply first_oversize_refused|].
  destruct (compact_renumbered text used_ids) as [new_text mapping] eqn:Hrun.
  assert (new_text = (compact_renumbered text used_ids).1) as Htext
    by now rewrite Hrun.
  assert (mapping = renumber_mapping used_ids) as ->
    by (change mapping with (new_text, mapping).2; now rewrite <- Hrun).
  split; [now apply first_oversize_within|].
  split; [rewrite Htext; apply compact_renumbered_with|]. split.
  - intros ->. rewrite Htext. apply compact_renumber_nil.
  - intros old new Hlook. unfold renumber_mapping in Hlook.
    apply mapping_lookup_Some in Hlook as [Hlook|(k & Hk & ->)];
      [now rewrite lookup_empty in Hlook|].
    exists k. split; [done|lia].
Qed.

Lemma firsts_nil_inv seen ids :
  firsts seen ids = [] -> forall x, x ∈ ids -> x ∈ seen.
Proof.
  intros E x Hx. destruct (decide (x ∈ seen)) as [|Hn]; [done|].
  assert (x ∈ firsts seen ids) as Hin by (apply elem_of_firsts; done).
  rewrite E in Hin. set_solver.
Qed.

Lemma parse_nil_finditer text :
  used_tags text = [] <-> finditer text = [].
Proof.
  rewrite parse_used_tags_firsts. split.
  - intros E. destruct (finditer text) as [|ds l]; [done|].
    exfalso. eapply (not_elem_of_empty (C := gset N)).
    apply (firsts_nil_inv _ _ E (Py.int_value ds)). simpl. left.
  - now intros ->.
Qed.

Lemma no_tag_within_limit text :
  finditer text = [] -> first_oversize (finditer text) = None.
Proof. now intros ->. Qed.

(** X2: an answer without any tag goes through Step 5 with its text
    unchanged: nothing is renumbered, no Citations block is appended, and
    the sources and the used chunk ids are reset to the empty list. *)
Theorem untagged_answer_is_kept
    (a : AnswerWithSources) (allowed_map : gmap N DocumentChunk)
    (Hnone : finditer (answer a) = []) :
  normalize_citations a allowed_map = Ok (set_answer a (answer a) [] []).
Proof.
  rewrite normalize_citations_run, (no_tag_within_limit _ Hnone). f_equal.
  unfold normalized.
  rewrite (proj2 (parse_nil_finditer _) Hnone).
  destruct (compact_renumbered (answer a) []) as [new_text id_map] eqn:E.
  assert (new_text = answer a) as ->.
  { change new_text with (new_text, id_map).1. rewrite <- E.
    apply compact_renumber_nil. }
  reflexivity.
Qed.

Lemma untagged_answer_witness :
  normalize_citations plain_answer (allowed_map_of [sample_chunk])
  = Ok (set_answer plain_answer (answer plain_answer) [] []).
Proof.
  apply (untagged_answer_is_kept plain_answer (allowed_map_of [sample_chunk])).
  vm_compute. reflexivity.
Defined.

Lemma NoDup_filter_in_range n (used : list N) :
  NoDup used -> (length (filter (in_range n) used) <= n)%nat.
Proof.
  intros Hnd.
  transitivity (length (one_to n)); [|now rewrite one_to_length].
  apply submseteq_length, NoDup_submseteq; [apply NoDup_filter, Hnd|].
  intros x [Hr _]%list_elem_of_filter. now apply elem_of_one_to.
Qed.

Lemma chunk_at_inj allowed id id' c c' :
  NoDup (map chunk_id allowed) ->
  chunk_at allowed id = Some c -> chunk_at allowed id' = Some c' ->
  chunk_id c = chunk_id c' -> id = id'.
Proof.
  unfold chunk_at. intros Hnd.
  destruct (N.eqb_spec id 0); [discriminate|].
  destruct (N.eqb_spec id' 0); [discriminate|].
  intros H1 H2 E.
  assert ((N.to_nat id - 1)%nat = (N.to_nat id' - 1)%nat) as Hpos.
  { eapply NoDup_lookup; [exact Hnd|..]; rewrite list_lookup_fmap.
    - rewrite H1. reflexivity.
    - rewrite H2. simpl. now rewrite E. }
  lia.
Qed.

Lemma NoDup_resolved_ids allowed (used : list N) :
  NoDup (map chunk_id allowed) -> NoDup used ->
  NoDup (map chunk_id (omap (chunk_at allowed) used)).
Proof.
  intros Hids Hnd. induction Hnd as [|id used Hid Hnd IH]; [constructor|].
  cbn [omap list_omap]. destruct (chunk_at allowed id) as [c|] eqn:Ec; [|done].
  cbn [map]. constructor; [|exact IH].
  intros (c' & E & (id' & Hid' & Ec')%list_elem_of_omap)%list_elem_of_fmap.
  assert (id = id') as ->
    by exact (chunk_at_inj allowed id id' c c' Hids Ec Ec' E).
  done.
Qed.

Lemma normalize_citations_ids a allowed :
  used_chunk_ids (normalized a (allowed_map_of allowed))
  = map chunk_id (omap (chunk_at allowed) (used_tags (answer a))).
Proof.
  unfold normalized, compact_renumbered. simpl. f_equal.
  unfold resolved_chunks. apply list_omap_ext, Forall_Forall2_diag.
  apply Forall_forall. intros. apply allowed_map_lookup.
Qed.

(** X3: the sources of the answer that Step 5 leaves, its own or, when
    it raises, that of the handler: one per distinct tag that refers to an
    evidence chunk, so no more than there are chunks and no more than there
    are distinct tags; [used_chunk_ids] lists their chunk ids in the same
    order, without repetition when the chunks' ids are distinct.  Step 5
    raises when [_parse_used_tags] does, on a tag of more than 4300
    digits. *)
Theorem sources_are_distinct_chunks
    (a : AnswerWithSources) (allowed : list DocumentChunk) :
  let result :=
    match normalize_citations a (allowed_map_of allowed) with
    | Ok result => result
    | Raise e => error_answer e
    end in
  (length (sources result) <= length allowed)%nat
  /\ match _parse_used_tags (answer a) with
     | Ok used => (length (sources result) <= length used)%nat
     | Raise e =>
         normalize_citations a (allowed_map_of allowed) = Raise e
         /\ tag_refused (answer a) e
     end
  /\ map src_chunk_id (sources result) = map Some (used_chunk_ids result)
  /\ (NoDup (map chunk_id allowed) -> NoDup (used_chunk_ids result)).
Proof.
  cbv zeta. rewrite normalize_citations_run, parse_used_tags_run.
  destruct (first_oversize (finditer (answer a))) as [ds|] eqn:E.
  { cbn [error_answer sources used_chunk_ids length map].
    split; [lia|]. split; [|split; [reflexivity|intros _; constructor]].
    split; [reflexivity|now apply first_oversize_refused]. }
  rewrite normalize_citations_sources, normalize_citations_ids, length_map.
  assert (NoDup (used_tags (answer a))) as Hnd
    by (rewrite parse_used_tags_firsts; apply NoDup_firsts).
  split; [|split; [|split]].
  - rewrite length_omap_chunk_at. now apply NoDup_filter_in_range.
  - rewrite length_omap_chunk_at. apply length_filter.
  - rewrite !map_map. reflexivity.
  - intros Hids. now apply NoDup_resolved_ids.
Qed.

(** an entry of the Citations block for the chunk [c], under the tag that
    the [k]-th used id was given *)
Definition citation_entry_of (allowed : list DocumentChunk) (used : list N)
    (entry : string) (c : DocumentChunk) : Prop :=
  exists k id,
    used !! k = Some id /\ chunk_at allowed id = Some c
    /\ entry = "[C" ++ Py.str (N.of_nat (S k)) ++ "] " ++ chunk_reference c.

Lemma citation_entries_from allowed (l : list N) (start : N) :
  Forall2 (fun entry c =>
             exists k id,
               l !! k = Some id /\ chunk_at allowed id = Some c
               /\ entry = "[C" ++ Py.str (start + N.of_nat k) ++ "] "
                          ++ chunk_reference c)
    (omap (fun '(new_id, old_id) =>
             c ← allowed_map_of allowed !! old_id;
             Some ("[C" ++ Py.str new_id ++ "] " ++ chunk_reference c))
          (Py.enumerate start l))
    (omap (chunk_at allowed) l).
Proof.
  revert start. induction l as [|id l IH]; intros start; [constructor|].
  cbn [Py.enumerate omap list_omap]. rewrite allowed_map_lookup.
  assert (Forall2 (fun entry c =>
             exists k id0,
               (id :: l) !! k = Some id0 /\ chunk_at allowed id0 = Some c
               /\ entry = "[C" ++ Py.str (start + N.of_nat k) ++ "] "
                          ++ chunk_reference c)
            (omap (fun '(new_id, old_id) =>
               c ← allowed_map_of allowed !! old_id;
               Some ("[C" ++ Py.str new_id ++ "] " ++ chunk_reference c))
               (Py.enumerate (N.succ start) l))
            (omap (chunk_at allowed) l)) as Hrest.
  { eapply Forall2_impl; [apply IH|]. intros e c (k & id0 & Hk & Hc & ->).
    exists (S k), id0. repeat split; [done..|]. do 3 f_equal. lia. }
  destruct (chunk_at allowed id) as [c|] eqn:Ec; cbn; [|exact Hrest].
  constructor; [|exact Hrest].
  exists 0%nat, id. repeat split; [done|]. do 3 f_equal. lia.
Qed.

Lemma citation_entries_match allowed used :
  Forall2 (citation_entry_of allowed used)
    (citation_entries (allowed_map_of allowed) used)
    (omap (chunk_at allowed) used).
Proof.
  eapply Forall2_impl; [apply (citation_entries_from allowed used 1)|].
  intros e c (k & id & Hk & Hc & ->). exists k, id.
  repeat split; [done..|]. do 3 f_equal. lia.
Qed.

Lemma omap_chunk_at_none allowed (used : list N) :
  Forall (fun id => ~ in_range (length allowed) id) used ->
  omap (chunk_at allowed) used = [].
Proof.
  induction 1 as [|id used Hid _ IH]; [reflexivity|].
  cbn [omap list_omap]. destruct (chunk_at allowed id) eqn:E; [|exact IH].
  exfalso. apply Hid, chunk_at_in_range. eauto.
Qed.

(** X4: the Citations block of an answer on which Step 5 returns:
    one entry per attached source, in the order of the sources, each under
    the number its tag was renumbered to; the block is appended whenever
    the answer had a tag, so an answer whose tags are all out of range ends
    in the bare heading.  On an answer with a tag of more than 4300 digits
    Step 5 raises the [ValueError] of [int] and no text is made. *)
Theorem citations_block_lists_the_sources
    (a : AnswerWithSources) (allowed : list DocumentChunk) :
  match _parse_used_tags (answer a) with
  | Raise e =>
      normalize_citations a (allowed_map_of allowed) = Raise e
      /\ tag_refused (answer a) e
  | Ok used =>
      exists new_text id_map result entries,
        _compact_renumber (answer a) used = Ok (new_text, id_map)
        /\ normalize_citations a (allowed_map_of allowed) = Ok result
        /\ Forall2 (citation_entry_of allowed used) entries
                   (omap (chunk_at allowed) used)
        /\ length entries = length (sources result)
        /\ answer result
           = match used with
             | [] => new_text
             | _ :: _ =>
                 new_text ++ newline
                 ++ Py.join newline ("" :: "**Citations**" :: entries)
             end
        /\ (used <> [] ->
            Forall (fun id => ~ in_range (length allowed) id) used ->
            answer result
            = new_text ++ newline ++ newline ++ "**Citations**")
  end.
Proof.
  rewrite parse_used_tags_run, normalize_citations_run.
  destruct (first_oversize (finditer (answer a))) as [ds|] eqn:E;
    [split; [reflexivity|now apply first_oversize_refused]|].
  set (used := used_tags (answer a)).
  set (new_text := (compact_renumbered (answer a) used).1).
  exists new_text, (renumber_mapping used),
    (normalized a (allowed_map_of allowed)),
    (citation_entries (allowed_map_of allowed) used).
  pose proof (citation_entries_match allowed used) as Hm.
  rewrite compact_renumber_run, E.
  split; [reflexivity|]. split; [reflexivity|].
  split; [exact Hm|]. split.
  { rewrite normalize_citations_sources, length_map.
    now apply Forall2_length in Hm. }
  pose proof (normalized_answer a (allowed_map_of allowed)) as Hans.
  cbv zeta in Hans. fold used new_text in Hans.
  split; [exact Hans|].
  intros Hne Hout. rewrite Hans.
  rewrite (omap_chunk_at_none _ _ Hout) in Hm.
  apply Forall2_nil_inv_r in Hm. rewrite Hm.
  destruct used; [done|]. reflexivity.
Qed.

Lemma insider_forms_cases (docset : gset string) :
  docset ∩ {[ "3"; "4"; "5" ]}
  = list_to_set (filter (fun f => f ∈ docset) ["4"; "3"; "5"]).
Proof.
  apply set_eq. intros x.
  rewrite elem_of_intersection, elem_of_list_to_set, list_elem_of_filter.
  set_solver.
Qed.

Lemma insider_req_priority (docset : gset string) :
  insider_req_of docset = filter (fun f => f ∈ docset) ["4"; "3"; "5"].
Proof.
  unfold insider_req_of. rewrite insider_forms_cases.
  rewrite !filter_cons, filter_nil.
  destruct (decide ("4" ∈ docset)), (decide ("3" ∈ docset)),
    (decide ("5" ∈ docset)); vm_compute; reflexivity.
Qed.

Lemma take2_companies analysis :
  take 2 (companies_of analysis) = companies_of analysis.
Proof. unfold companies_of. destruct (tickers analysis); now rewrite take_take. Qed.

(** the insider forms a query asks for, in the order the selector pulls
    them *)
Definition requested_insider_forms (analysis : QueryAnalysis) : list string :=
  filter (fun f => f ∈ docset_of analysis) ["4"; "3"; "5"].

Definition insider_rule_applies (analysis : QueryAnalysis) : Prop :=
  requested_insider_forms analysis <> []
  \/ Py.contains "insider" (keyword_text analysis) = true
  \/ Py.contains "trading" (keyword_text analysis) = true.

(** X5: the first rule of the selector: the insider forms asked for
    are pulled in the order 4, 3, 5 whatever order the query gives them in,
    form 4 stands in when the rule fires on a keyword only, and the targets
    are grouped by company. *)
Theorem insider_rule_pulls_forms_in_priority_order
    (analysis : QueryAnalysis) (allow_default : bool)
    (Happlies : insider_rule_applies analysis) :
  _determine_retrieval_strategy analysis allow_default
  = Ok {| s_description := "Insider trading targeted";
          s_reason := "explicit_form_or_keyword";
          s_targets :=
            flat_map
              (fun c =>
                 map (fun f => rule_target f [] c)
                     (match requested_insider_forms analysis with
                      | [] => ["4"]
                      | _ :: _ => requested_insider_forms analysis
                      end))
              (companies_of analysis) |}.
Proof.
  unfold _determine_retrieval_strategy, requested_insider_forms in *.
  rewrite insider_req_priority.
  rewrite take2_companies.
  assert (bool_decide
            (filter (fun f => f ∈ docset_of analysis) ["4"; "3"; "5"] <> [])
          || (Py.contains "insider" (keyword_text analysis)
              || Py.contains "trading" (keyword_text analysis)) = true) as ->.
  { destruct Happlies as [H|[H|H]].
    - now rewrite bool_decide_eq_true_2.
    - rewrite H. now rewrite orb_true_r.
    - rewrite H. now rewrite !orb_true_r. }
  reflexivity.
Qed.

Definition insider_forms_query : QueryAnalysis :=
  {| tickers := ["MSFT"];
     time_periods := [];
     document_types := ["5"; "10-K"; "4"];
     query_type := single_ticker;
     sectors := [];
     keywords := ["risk"];
     complexity_score := 3 # 10;
     suggested_tickers := [];
     selection_reason := "" |}.

Lemma insider_rule_witness :
  _determine_retrieval_strategy insider_forms_query false
  = Ok {| s_description := "Insider trading targeted";
          s_reason := "explicit_form_or_keyword";
          s_targets := [rule_target "4" [] "MSFT"; rule_target "5" [] "MSFT"] |}.
Proof.
  rewrite (insider_rule_pulls_forms_in_priority_order insider_forms_query false).
  - vm_compute. reflexivity.
  - left. vm_compute. discriminate.
Defined.

Lemma companies_of_length analysis : (length (companies_of analysis) <= 2)%nat.
Proof.
  unfold companies_of. destruct (tickers analysis); rewrite length_take; lia.
Qed.

Lemma insider_req_length docset : (length (insider_req_of docset) <= 3)%nat.
Proof.
  rewrite insider_req_priority.
  etrans; [apply length_filter|]. simpl. lia.
Qed.

Lemma length_flat_map_const {A B} (f : A -> list B) (l : list A) n :
  (forall x, length (f x) = n) -> length (flat_map f l) = (length l * n)%nat.
Proof.
  intros Hf. induction l as [|x l IH]; [reflexivity|].
  simpl. rewrite length_app, Hf, IH. lia.
Qed.

(** the forms and sections a target can carry *)
Definition plan_target (analysis : QueryAnalysis) (t : target) : Prop :=
  t_ticker t ∈ companies_of analysis
  /\ t_filing_type t ∈ ["3"; "4"; "5"; "10-K"; "10-Q"; "DEF 14A"]
  /\ (length (t_sections t) <= 1)%nat
  /\ (t_sections t <> [] -> t_filing_type t ∈ ["10-K"; "10-Q"]).

Lemma Forall_flat_map {A B} (P : B -> Prop) (f : A -> list B) (l : list A) :
  Forall (fun x => Forall P (f x)) l -> Forall P (flat_map f l).
Proof.
  induction 1 as [|x l Hx _ IH]; [constructor|].
  simpl. now apply Forall_app.
Qed.


Lemma selector_cases analysis allow_default :
  exists s,
    _determine_retrieval_strategy analysis allow_default = Ok s
    /\ (s_targets s
        = flat_map
            (fun c => map (fun f => rule_target f [] c)
                          (match requested_insider_forms analysis with
                           | [] => ["4"]
                           | _ :: _ => requested_insider_forms analysis
                           end))
            (companies_of analysis)
        \/ s_targets s = map (rule_target "10-K" ["1A"]) (companies_of analysis)
        \/ s_targets s
           = map (rule_target "10-Q" ["part1item2"]) (companies_of analysis)
        \/ s_targets s = map (rule_target "DEF 14A" []) (companies_of analysis)
        \/ s_targets s
           = map (rule_target "10-K" ["1A"]) (take 1 (companies_of analysis))
        \/ s_targets s = []).
Proof.
  pose proof (companies_of_nonempty analysis) as Hne.
  unfold _determine_retrieval_strategy.
  rewrite insider_req_priority, take2_companies.
  fold (requested_insider_forms analysis).
  destruct (companies_of analysis) as [|c cs] eqn:Ec; [done|].
  cbn [lookup list_lookup].
  repeat case_match; eexists; (split; [reflexivity|]); cbn [s_targets];
    auto 10.
Qed.

Lemma requested_insider_forms_facts analysis :
  (length (requested_insider_forms analysis) <= 3)%nat
  /\ Forall (fun f => f ∈ ["3"; "4"; "5"]) (requested_insider_forms analysis).
Proof.
  unfold requested_insider_forms. split.
  - etrans; [apply length_filter|]. simpl. lia.
  - apply Forall_forall. intros f [_ Hf]%list_elem_of_filter. set_solver.
Qed.

Lemma strategy_targets_length analysis allow_default s :
  _determine_retrieval_strategy analysis allow_default = Ok s ->
  (length (s_targets s) <= 6)%nat.
Proof.
  intros Hs0.
  destruct (selector_cases analysis allow_default) as (s' & Hs & Hcases).
  rewrite Hs0 in Hs. injection Hs as <-.
  pose proof (companies_of_length analysis) as Hc.
  destruct (requested_insider_forms_facts analysis) as [Hf _].
  destruct Hcases as [E|[E|[E|[E|[E|E]]]]]; rewrite E.
  - destruct (requested_insider_forms analysis) as [|f fs] eqn:Ef.
    + rewrite (length_flat_map_const _ _ 1%nat) by (intros; reflexivity).
      lia.
    + rewrite (length_flat_map_const _ _ (length (f :: fs)))
        by (intros; now rewrite length_map).
      nia.
  - rewrite length_map. lia.
  - rewrite length_map. lia.
  - rewrite length_map. lia.
  - rewrite length_map, length_take. lia.
  - simpl. lia.
Qed.

(** X6: the targets of any strategy: at most six of them, so a cap
    of six or more keeps them all; each names a selected company, one of
    six forms, and at most one section, present only with the forms that
    have an extractor, so taking [sections[:1]] changes nothing. *)
Theorem selector_targets_are_well_formed
    (analysis : QueryAnalysis) (allow_default : bool) :
  exists s,
    _determine_retrieval_strategy analysis allow_default = Ok s
    /\ (length (s_targets s) <= 6)%nat
    /\ (forall max_targets : Z,
          (6 <= max_targets)%Z ->
          Py.slice_to max_targets (s_targets s) = s_targets s)
    /\ Forall (plan_target analysis) (s_targets s)
    /\ Forall (fun t => take 1 (t_sections t) = t_sections t) (s_targets s).
Proof.
  destruct (selector_cases analysis allow_default) as (s & Hs & Hcases).
  exists s. split; [exact Hs|].
  pose proof (strategy_targets_length _ _ _ Hs) as Hsix.
  split; [exact Hsix|]. split.
  { intros k Hk. unfold Py.slice_to.
    destruct (Z.ltb_spec k 0); [lia|]. apply take_ge. lia. }
  destruct (requested_insider_forms_facts analysis) as [_ Hf].
  assert (Forall (plan_target analysis) (s_targets s)) as Hwf.
  { destruct Hcases as [E|[E|[E|[E|[E|E]]]]]; rewrite E.
    - apply Forall_flat_map, Forall_forall. intros c Hc.
      apply Forall_fmap, Forall_forall. intros f Hin.
      assert (f ∈ ["3"; "4"; "5"]) as Hform.
      { destruct (requested_insider_forms analysis) as [|f0 fs] eqn:Ef.
        - set_solver.
        - rewrite Forall_forall in Hf. now apply Hf. }
      unfold plan_target, rule_target; cbn. repeat split; [done| |lia|done].
      set_solver.
    - apply Forall_fmap, Forall_forall. intros c Hc.
      unfold plan_target, rule_target; cbn.
      repeat split; [done|set_solver|lia|set_solver].
    - apply Forall_fmap, Forall_forall. intros c Hc.
      unfold plan_target, rule_target; cbn.
      repeat split; [done|set_solver|lia|set_solver].
    - apply Forall_fmap, Forall_forall. intros c Hc.
      unfold plan_target, rule_target; cbn.
      repeat split; [done|set_solver|lia|done].
    - apply Forall_fmap, Forall_forall. intros c Hc.
      unfold plan_target, rule_target; cbn.
      repeat split; [|set_solver|lia|set_solver].
      destruct (companies_of analysis); set_solver.
    - constructor. }
  split; [exact Hwf|].
  eapply Forall_impl; [exact Hwf|]. intros t (_ & _ & Hlen & _).
  apply take_ge. exact Hlen.
Qed.

(** ** More on the targeted fetchers *)

(** [f'issuer.tradingSymbol:{ticker} AND documentType:{form_type} AND
    filedAt:[{date_from} TO *]'] *)
Definition insider_query (ticker form_type date_from : string) : string :=
  "issuer.tradingSymbol:" ++ ticker ++ " AND documentType:" ++ form_type
  ++ " AND filedAt:[" ++ date_from ++ " TO *]".

(** the floor that [_resolve_date_from] computes from [w] *)
Definition floor_in (analysis : QueryAnalysis) (w : World) : string :=
  match date_floor analysis with
  | Some d => d
  | None => utc_days_ago w 180
  end.

Lemma resolve_date_from_floor analysis w :
  _resolve_date_from analysis 180 w = (Ok (floor_in analysis w), w).
Proof.
  unfold _resolve_date_from, floor_in, date_floor.
  now destruct (List.find is_year (time_periods analysis)).
Qed.

Ltac requests_done :=
  eexists _, _; split; [reflexivity|]; split; [simpl; lia|];
  cbn [requests search_replies extract_replies insider_replies];
  rewrite <- ?app_assoc; cbn [app].

Lemma structured_fetch_requests ticker form_type sections analysis w :
  exists l w',
    _fetch_structured_targeted ticker form_type sections analysis w = (Ok l, w')
    /\ (length l <= 1)%nat
    /\ insider_replies w' = insider_replies w
    /\ search_replies w' = tail (search_replies w)
    /\ (requests w' = (requests w ++ [ReqSearch (search_query ticker form_type)])%list
        /\ extract_replies w' = extract_replies w /\ l = []
        \/ exists link sec rest,
             sections = sec :: rest
             /\ requests w'
                = (requests w ++ [ReqSearch (search_query ticker form_type);
                                  ReqExtract link sec])%list
             /\ extract_replies w' = tail (extract_replies w)
             /\ Forall (fun c => source_url c = link
                                 /\ section c = Some ("Item " ++ sec)) l).
Proof.
  unfold _fetch_structured_targeted. run_fetch.
  all: requests_done.
  all: split; [reflexivity|]; split; [reflexivity|].
  all: first [ left; split; [reflexivity|]; split; reflexivity
             | right; eexists _, _, _; split; [reflexivity|];
               split; [reflexivity|];
               split; [cbn [extract_replies] in *;
                       match goal with
                       | H : extract_replies _ = _ |- _ => now rewrite H
                       end|];
               repeat constructor ].
Qed.

Lemma prefix_str_le n s : (String.length (Py.prefix_str n s) <= n)%nat.
Proof. rewrite prefix_str_length. lia. Qed.

Lemma structured_fetch_chunks tk form_type sections analysis w :
  Forall (fun c =>
            ticker c = tk /\ filing_type c = form_type
            /\ (String.length (filing_date c) <= 10)%nat
            /\ (exists sec rest,
                  sections = sec :: rest
                  /\ section c = Some ("Item " ++ sec)
                  /\ chunk_id c = tk ++ "_" ++ form_type ++ "_" ++ sec
                                  ++ "_targeted")
            /\ Py.truthy (source_url c) = true
            /\ confidence_score c = 1%Q)
    (returned (_fetch_structured_targeted tk form_type sections analysis w)).
Proof.
  unfold returned, _fetch_structured_targeted. run_fetch.
  all: cbn [fst]; try apply Forall_nil_2.
  all: apply Forall_singleton;
    cbn [ticker filing_type filing_date section chunk_id source_url
         confidence_score].
  all: repeat split; try apply prefix_str_le; eauto.
  all: match goal with
       | H : negb (Py.truthy _) = false |- _ => now apply negb_false_iff in H
       end.
Qed.

Lemma general_fetch_requests tk form_type analysis w :
  exists l w',
    _fetch_general_targeted tk form_type analysis w = (Ok l, w')
    /\ (length l <= 1)%nat
    /\ requests w' = (requests w ++ [ReqSearch (search_query tk form_type)])%list
    /\ search_replies w' = tail (search_replies w)
    /\ extract_replies w' = extract_replies w
    /\ insider_replies w' = insider_replies w
    /\ Forall (fun c =>
                 ticker c = tk /\ filing_type c = form_type
                 /\ (String.length (filing_date c) <= 10)%nat
                 /\ section c = Some (_section_name form_type)
                 /\ chunk_id c = tk ++ "_" ++ form_type ++ "_targeted"
                 /\ confidence_score c = (8 # 10)%Q) l.
Proof.
  unfold _fetch_general_targeted. run_fetch.
  all: requests_done.
  all: repeat (split; [reflexivity|]).
  all: try apply Forall_nil_2.
  all: apply Forall_singleton;
    cbn [ticker filing_type filing_date section chunk_id source_url
         confidence_score].
  all: repeat split; apply prefix_str_le.
Qed.

Section MoreInsiderFacts.

Context {PF : PyFloat}.

Lemma insider_fetch_requests tk form_type analysis w :
  exists l w',
    _fetch_insider_targeted tk form_type analysis w = (Ok l, w')
    /\ (length l <= 1)%nat
    /\ requests w'
       = (requests w
          ++ [ReqInsider (insider_query tk form_type
                            (floor_in analysis w))])%list
    /\ insider_replies w' = tail (insider_replies w)
    /\ search_replies w' = search_replies w
    /\ extract_replies w' = extract_replies w
    /\ Forall (fun c =>
                 ticker c = tk /\ filing_type c = form_type
                 /\ (String.length (filing_date c) <= 10)%nat
                 /\ chunk_id c = tk ++ "_" ++ form_type ++ "_targeted"
                 /\ confidence_score c = 1%Q) l.
Proof.
  unfold _fetch_insider_targeted.
  unfold try_except. unfold mbind at 1, M_bind at 1.
  rewrite resolve_date_from_floor. fold (insider_query tk form_type
    (floor_in analysis w)).
  generalize (insider_query tk form_type (floor_in analysis w)) as q.
  intros q. run_fetch.
  all: repeat match goal with
       | |- context [match nd_of ?f with _ => _ end] =>
           destruct (nd_of f) eqn:?; cbv beta iota zeta
       end.
  all: repeat run_step.
  all: requests_done.
  all: repeat (split; [reflexivity|]).
  all: try apply Forall_nil_2.
  all: apply Forall_singleton;
    cbn [ticker filing_type filing_date section chunk_id source_url
         confidence_score].
  all: repeat split; apply prefix_str_le.
Qed.

(** X7: the requests of the three targeted fetchers, exactly: one
    insider query with the date floor; one search; one search followed by
    at most one extraction, of the first section.  None raises, and none
    consumes a response of an end point it does not call. *)
Theorem targeted_fetchers_log_one_call_per_end_point
    (tk form_type : string) (sections : list string)
    (analysis : QueryAnalysis) (w : World) :
  (exists l w',
     _fetch_insider_targeted tk form_type analysis w = (Ok l, w')
     /\ requests w'
        = (requests w
           ++ [ReqInsider (insider_query tk form_type
                             (floor_in analysis w))])%list
     /\ search_replies w' = search_replies w
     /\ extract_replies w' = extract_replies w)
  /\ (exists l w',
        _fetch_general_targeted tk form_type analysis w = (Ok l, w')
        /\ requests w'
           = (requests w ++ [ReqSearch (search_query tk form_type)])%list
        /\ extract_replies w' = extract_replies w
        /\ insider_replies w' = insider_replies w)
  /\ (exists l w',
        _fetch_structured_targeted tk form_type sections analysis w
        = (Ok l, w')
        /\ insider_replies w' = insider_replies w
        /\ (requests w'
            = (requests w ++ [ReqSearch (search_query tk form_type)])%list
            /\ extract_replies w' = extract_replies w /\ l = []
            \/ exists link sec rest,
                 sections = sec :: rest
                 /\ requests w'
                    = (requests w
                       ++ [ReqSearch (search_query tk form_type);
                           ReqExtract link sec])%list
                 /\ Forall (fun c => source_url c = link) l)).
Proof.
  split; [|split].
  - destruct (insider_fetch_requests tk form_type analysis w)
      as (l & w' & E & _ & Hr & _ & Hs & He & _). eauto 10.
  - destruct (general_fetch_requests tk form_type analysis w)
      as (l & w' & E & _ & Hr & _ & He & Hi & _). eauto 10.
  - destruct (structured_fetch_requests tk form_type sections analysis w)
      as (l & w' & E & _ & Hi & _ & Hcases).
    exists l, w'. split; [exact E|]. split; [exact Hi|].
    destruct Hcases as [H|(link & sec & rest & Hs & Hr & _ & Hl)];
      [now left|right].
    exists link, sec, rest. repeat split; [done..|].
    eapply Forall_impl; [exact Hl|]. now intros c [? _].
Qed.

(** X8: the metadata of the chunks of the targeted fetchers: ticker
    and form of the target, a date cut to ten characters, the chunk id
    built from the target alone (so two filings of one target share it),
    and the fixed confidence of the fetcher. *)
Theorem targeted_chunks_carry_their_target
    (tk form_type : string) (sections : list string)
    (analysis : QueryAnalysis) (w : World) :
  let carries (c : DocumentChunk) :=
    ticker c = tk /\ filing_type c = form_type
    /\ (String.length (filing_date c) <= 10)%nat in
  Forall (fun c => carries c
                   /\ chunk_id c = tk ++ "_" ++ form_type ++ "_targeted"
                   /\ confidence_score c = 1%Q)
    (returned (_fetch_insider_targeted tk form_type analysis w))
  /\ Forall (fun c => carries c
                      /\ chunk_id c = tk ++ "_" ++ form_type ++ "_targeted"
                      /\ section c = Some (_section_name form_type)
                      /\ confidence_score c = (8 # 10)%Q)
       (returned (_fetch_general_targeted tk form_type analysis w))
  /\ Forall (fun c => carries c
                      /\ (exists sec rest,
                            sections = sec :: rest
                            /\ section c = Some ("Item " ++ sec)
                            /\ chunk_id c = tk ++ "_" ++ form_type ++ "_"
                                            ++ sec ++ "_targeted")
                      /\ Py.truthy (source_url c) = true
                      /\ confidence_score c = 1%Q)
       (returned (_fetch_structured_targeted tk form_type sections
                    analysis w)).
Proof.
  intros carries. split; [|split].
  - destruct (insider_fetch_requests tk form_type analysis w)
      as (l & w' & E & _ & _ & _ & _ & _ & Hl).
    unfold returned. rewrite E. cbn [fst].
    eapply Forall_impl; [exact Hl|]. unfold carries. tauto.
  - destruct (general_fetch_requests tk form_type analysis w)
      as (l & w' & E & _ & _ & _ & _ & _ & Hl).
    unfold returned. rewrite E. cbn [fst].
    eapply Forall_impl; [exact Hl|]. unfold carries. tauto.
  - eapply Forall_impl;
      [apply (structured_fetch_chunks tk form_type sections analysis w)|].
    unfold carries. intros c (? & ? & ? & ? & ? & ?). tauto.
Qed.

End MoreInsiderFacts.

(** ** The fallback probe and the request budget *)

Lemma slice_to_le {A} (k : Z) (l : list A) :
  (length (Py.slice_to k l) <= length l)%nat.
Proof. unfold Py.slice_to. case_match; rewrite length_take; lia. Qed.

(** an implementation of the float interface on whole numbers, enough to
    run the fetchers on examples *)
Definition whole_floats : PyFloat :=
  {| float := Z;
     float_zero := 0%Z;
     num_truthy := fun s => negb (String.eqb s "0");
     float_of_num :=
       fun s => if Py.isdigit s then Some (Z.of_N (Py.int_value s)) else None;
     float_of_str :=
       fun s => if Py.isdigit s then Some (Z.of_N (Py.int_value s)) else None;
     fmul := Z.mul;
     fadd := Z.add;
     fpositive := fun x => (0 <? x)%Z;
     fmt_comma0 := fun x => Py.str (Z.to_N x);
     fmt_fixed2 := fun x => Py.str (Z.to_N x) ++ ".00" |}.

Section ProbeFacts.

Context {PF : PyFloat}.

Lemma per_target_results_length analysis ts w :
  (length (concat (per_target_results analysis ts w).1) <= length ts)%nat.
Proof.
  revert w. induction ts as [|t ts IH]; intros w; [simpl; lia|].
  cbn [per_target_results].
  destruct (fetch_target_spec analysis t w) as (l & w' & _ & E & Hl & _).
  rewrite E. cbn [snd]. specialize (IH w').
  destruct (per_target_results analysis ts w') as [rs w2].
  unfold returned. cbn [fst snd concat length] in *.
  rewrite length_app. lia.
Qed.

Lemma probe_fetch_requests analysis w :
  exists l w' extra,
    probe_fetch analysis w = (Ok l, w')
    /\ (length l <= 1)%nat
    /\ requests w'
       = (requests w
          ++ ReqSearch (search_query (probe_company analysis)
                          (probe_form analysis)) :: extra)%list
    /\ (extra = []
        \/ exists link,
             extra = [ReqExtract link
                        (if String.eqb (probe_form analysis) "10-K"
                         then "1A" else "part1item2")])
    /\ insider_replies w' = insider_replies w
    /\ Forall (fun c => ticker c = probe_company analysis
                        /\ filing_type c = probe_form analysis) l.
Proof.
  unfold probe_fetch. case_bool_decide.
  - pose proof (structured_fetch_chunks (probe_company analysis)
                  (probe_form analysis)
                  (if String.eqb (probe_form analysis) "10-K"
                   then ["1A"] else ["part1item2"]) analysis w) as Hmeta.
    destruct (structured_fetch_requests (probe_company analysis)
                (probe_form analysis)
                (if String.eqb (probe_form analysis) "10-K"
                 then ["1A"] else ["part1item2"]) analysis w)
      as (l & w' & E & Hl & Hi & _ & Hcases).
    unfold returned in Hmeta. rewrite E in *. cbn [fst] in Hmeta.
    assert (Forall (fun c => ticker c = probe_company analysis
                             /\ filing_type c = probe_form analysis) l)
      as Hl'.
    { eapply Forall_impl; [exact Hmeta|]. now intros c (? & ? & _). }
    destruct Hcases as [(Hr & _ & _)|(link & sec & rest & Hs & Hr & _)].
    + exists l, w', []. eauto 10.
    + exists l, w', [ReqExtract link sec]. repeat split; try done.
      right. exists link. destruct (String.eqb _ _); now injection Hs as <- _.
  - destruct (general_fetch_requests (probe_company analysis)
                (probe_form analysis) analysis w)
      as (l & w' & E & Hl & Hr & _ & _ & Hi & Hmeta).
    exists l, w', []. repeat split; try done; [now left|].
    eapply Forall_impl; [exact Hmeta|]. now intros c (? & ? & _).
Qed.

(** X9: the fallback probe: one search for one company and one form,
    at most one extraction after it, at most one chunk.  The insider end
    point is not used, whatever the form. *)
Theorem probe_searches_one_company_never_insider
    (analysis : QueryAnalysis) (w : World) :
  exists l w' extra,
    _fetch_general_small_probe analysis w = (Ok l, w')
    /\ (length l <= 1)%nat
    /\ requests w'
       = (requests w
          ++ ReqSearch (search_query (probe_company analysis)
                          (probe_form analysis)) :: extra)%list
    /\ (extra = []
        \/ exists link,
             extra = [ReqExtract link
                        (if String.eqb (probe_form analysis) "10-K"
                         then "1A" else "part1item2")])
    /\ insider_replies w' = insider_replies w
    /\ Forall (fun c => ticker c = probe_company analysis
                        /\ filing_type c = probe_form analysis) l.
Proof.
  rewrite probe_is_single_fetch.
  destruct (probe_fetch_requests analysis w)
    as (l & w' & extra & E & Hl & Hrest).
  exists l, w', extra. rewrite E. unfold returned. cbn [fst snd].
  rewrite take_ge by lia. auto.
Qed.

(** X10: the cost of a targeted retrieval: at most two requests per
    target and two for the probe, and at most one chunk per target, so
    never more than fourteen requests and six chunks. *)
Theorem targeted_retrieval_budget
    (analysis : QueryAnalysis) (allow_default : bool) (fallback : string)
    (max_targets : Z) (w : World) :
  exists l w' extra,
    fetch_targeted_filings analysis allow_default fallback max_targets w
    = (Ok l, w')
    /\ requests w' = (requests w ++ extra)%list
    /\ (length extra <= 14)%nat
    /\ (length l <= 6)%nat
    /\ ((0 <= max_targets)%Z ->
        (length extra <= 2 * Z.to_nat max_targets + 2)%nat
        /\ (length l <= Nat.max 1 (Z.to_nat max_targets))%nat).
Proof.
  destruct (strategy_never_raises analysis allow_default) as [s Hs].
  pose proof (strategy_targets_length _ _ _ Hs) as Hsix.
  unfold fetch_targeted_filings, lift. unfold mbind at 1, M_bind at 1.
  rewrite Hs. unfold mbind, M_bind. rewrite fetch_targets_spec.
  set (capped := Py.slice_to max_targets (s_targets s)).
  pose proof (slice_to_le max_targets (s_targets s)) as Hcap. fold capped in Hcap.
  assert ((0 <= max_targets)%Z -> (length capped <= Z.to_nat max_targets)%nat)
    as Hcap'.
  { intros Hk. now apply slice_to_length. }
  destruct (per_target_requests analysis capped w) as (extra & Hr & Hn).
  pose proof (per_target_results_length analysis capped w) as Hlen.
  destruct (per_target_results analysis capped w) as [rs w1].
  cbn [fst snd app] in *.
  destruct (concat rs) as [|c cs] eqn:Ec.
  - destruct (String.eqb fallback "general_small").
    + rewrite probe_is_single_fetch.
      destruct (probe_fetch_spec analysis w1)
        as (l & w2 & extra' & E & Hl & Hr' & Hn' & _).
      rewrite E. unfold returned. cbn [fst snd].
      exists (take 2 l), w2, (extra ++ extra')%list.
      split; [reflexivity|]. rewrite Hr', Hr, app_assoc.
      split; [reflexivity|]. rewrite length_app, length_take.
      repeat split; try lia. all: intros Hk; specialize (Hcap' Hk); lia.
    + exists [], w1, extra. split; [reflexivity|]. split; [exact Hr|].
      cbn [length]. repeat split; try lia.
      all: intros Hk; specialize (Hcap' Hk); lia.
  - exists (c :: cs), w1, extra. split; [reflexivity|]. split; [exact Hr|].
    repeat split; try lia. all: intros Hk; specialize (Hcap' Hk); lia.
Qed.

(** X11: a query that no rule matches has no target: the retrieval is
    the probe alone, or nothing. *)
Theorem unmatched_query_goes_straight_to_probe
    (analysis : QueryAnalysis) (fallback : string) (max_targets : Z)
    (w : World)
    (Hnone : explicit_rule_matches analysis = false)
    (Hsingle : query_type analysis <> multi_ticker_comparison) :
  fetch_targeted_filings analysis false fallback max_targets w
  = (if String.eqb fallback "general_small"
     then _fetch_general_small_probe analysis w
     else (Ok [], w)).
Proof.
  assert (_determine_retrieval_strategy analysis false
          = Ok {| s_description := "No matching rule";
                  s_reason := "no_match"; s_targets := [] |}) as Hs.
  { unfold explicit_rule_matches in Hnone.
    unfold _determine_retrieval_strategy.
    repeat match type of Hnone with
           | (_ || _) = false => apply orb_false_iff in Hnone as [Hnone ?]
           end.
    repeat match goal with H : (_ || _) = false |- _ =>
             apply orb_false_iff in H as [? ?] end.
    repeat match goal with H : ?b = false |- context [?b] => rewrite H end.
    cbn [orb]. destruct (query_type analysis); done. }
  unfold fetch_targeted_filings, lift. unfold mbind at 1, M_bind at 1.
  rewrite Hs. cbn [s_targets]. unfold Py.slice_to.
  rewrite !take_nil.
  destruct (max_targets <? 0)%Z, (String.eqb fallback "general_small");
    reflexivity.
Qed.

(** X12: on a 10-K query the probe is not a different attempt: it
    fetches the first target of the strategy again, with the same search
    and the same section. *)
Theorem probe_repeats_first_target
    (analysis : QueryAnalysis) (allow_default : bool)
    (c : string) (rest dts : list string)
    (Htickers : tickers analysis = c :: rest)
    (Htypes : document_types analysis = "10-K" :: dts)
    (Hno_insider : ~ insider_rule_applies analysis) :
  exists ts,
    _determine_retrieval_strategy analysis allow_default
    = Ok {| s_description := "10-K Risk factors (Item 1A)";
            s_reason := "explicit_form_or_keyword";
            s_targets := rule_target "10-K" ["1A"] c :: ts |}
    /\ forall w,
         _fetch_general_small_probe analysis w
         = fetch_target analysis (rule_target "10-K" ["1A"] c) w.
Proof.
  exists (map (rule_target "10-K" ["1A"]) (take 1 rest)). split.
  - unfold _determine_retrieval_strategy.
    rewrite insider_req_priority, take2_companies.
    fold (requested_insider_forms analysis).
    unfold insider_rule_applies in Hno_insider.
    destruct (requested_insider_forms analysis) as [|f fs] eqn:Ef;
      [|exfalso; apply Hno_insider; now left].
    destruct (Py.contains "insider" (keyword_text analysis)) eqn:E1;
      [exfalso; apply Hno_insider; auto|].
    destruct (Py.contains "trading" (keyword_text analysis)) eqn:E2;
      [exfalso; apply Hno_insider; auto|].
    rewrite bool_decide_eq_false_2 by (intros H; now apply H).
    cbn [orb].
    rewrite (bool_decide_eq_true_2 ("10-K" ∈ docset_of analysis)).
    2:{ unfold docset_of. rewrite Htypes. cbn [map].
        apply elem_of_list_to_set. left. }
    cbn [orb]. unfold companies_of. rewrite Htickers. reflexivity.
  - intros w. rewrite probe_is_single_fetch.
    assert (probe_fetch analysis = fetch_target analysis
                                     (rule_target "10-K" ["1A"] c)) as ->.
    { unfold probe_fetch, fetch_target, probe_company, probe_form.
      rewrite Htickers, Htypes. reflexivity. }
    destruct (fetch_target_spec analysis (rule_target "10-K" ["1A"] c) w)
      as (l & w' & _ & E & Hl & _).
    rewrite E. unfold returned. cbn [fst snd]. now rewrite take_ge by lia.
Qed.

End ProbeFacts.

(** a query that no rule of the selector matches *)
Definition revenue_query : QueryAnalysis :=
  {| tickers := ["MSFT"];
     time_periods := [];
     document_types := ["8-K"];
     query_type := single_ticker;
     sectors := [];
     keywords := ["revenue"];
     complexity_score := 3 # 10;
     suggested_tickers := [];
     selection_reason := "" |}.

Lemma unmatched_query_witness :
  explicit_rule_matches revenue_query = false
  /\ fetch_targeted_filings (PF := whole_floats) revenue_query false
       "general_small" 6 (extractor_world 300)
     = _fetch_general_small_probe revenue_query (extractor_world 300).
Proof.
  split; [vm_compute; reflexivity|].
  apply (unmatched_query_goes_straight_to_probe (PF := whole_floats)
           revenue_query "general_small" 6 (extractor_world 300));
    [vm_compute; reflexivity|discriminate].
Defined.

Lemma probe_repeats_first_target_witness :
  exists ts,
    _determine_retrieval_strategy risk_query true
    = Ok {| s_description := "10-K Risk factors (Item 1A)";
            s_reason := "explicit_form_or_keyword";
            s_targets := rule_target "10-K" ["1A"] "AAPL" :: ts |}
    /\ forall w,
         _fetch_general_small_probe risk_query w
         = fetch_target (PF := whole_floats) risk_query
             (rule_target "10-K" ["1A"] "AAPL") w.
Proof.
  apply (probe_repeats_first_target (PF := whole_floats) risk_query true
           "AAPL" [] []); [reflexivity|reflexivity|].
  intros [H|[H|H]]; vm_compute in H; [now apply H|discriminate..].
Defined.

(** ** More on the evidence cache and the selection of companies *)

Lemma append_cancel_r (s a b : string) : a ++ s = b ++ s -> a = b.
Proof.
  revert b. induction a as [|x a IH]; intros [|y b] H.
  - reflexivity.
  - apply (f_equal String.length) in H.
    rewrite append_nil_l, append_cons in H. cbn [String.length] in H.
    rewrite append_length in H. lia.
  - apply (f_equal String.length) in H.
    rewrite append_nil_l, append_cons in H. cbn [String.length] in H.
    rewrite append_length in H. lia.
  - rewrite !append_cons in H. injection H as -> H. f_equal. now apply IH.
Qed.

Lemma cache_key_inj dts df : Inj eq eq (fun company => cache_key company dts df).
Proof. intros c1 c2 H. unfold cache_key in H. now apply append_cancel_r in H. Qed.

Lemma default_document_types_cases analysis :
  _get_default_document_types analysis
  ∈ [["4"; "3"; "5"]; ["DEF 14A"]; ["8-K"]; ["10-K"]; ["10-Q"];
     ["10-K"; "10-Q"]].
Proof.
  unfold _get_default_document_types. repeat case_match; set_solver.
Qed.

Lemma filter_ext_in {A} (P Q : A -> Prop) `{!forall x, Decision (P x)}
    `{!forall x, Decision (Q x)} (l : list A) :
  (forall x, x ∈ l -> P x <-> Q x) -> filter P l = filter Q l.
Proof.
  induction l as [|x l IH]; intros Hext; [reflexivity|].
  rewrite !filter_cons.
  rewrite IH by (intros y Hy; apply Hext; now right).
  pose proof (Hext x ltac:(left)) as Hx.
  destruct (decide (P x)), (decide (Q x)); tauto || reflexivity.
Qed.

Section CacheFacts.

Variable Env : Type.
Variable query_analyzer_run : string -> Env -> result QueryAnalysis * Env.
Variable financial_analyst_run :
  string -> list DocumentChunk -> Env -> result AnswerWithSources * Env.
Variable resolve : string -> Env -> result (option string) * Env.
Variable fetch_filings :
  string -> list string -> option string -> Z -> Env
  -> result (list DocumentChunk) * Env.

(** a step from [st] to [st1] that keeps the cache entries of [st] and
    adds at most [n] fetch calls, each for one of [companies] with the
    document types [dts] and the floor [df] *)
Definition grows (st st1 : System Env) (n : nat) (companies : list string)
    (dts : list string) (df : option string) : Prop :=
  document_cache st ⊆ document_cache st1
  /\ exists extra,
       fetch_calls st1 = app (fetch_calls st) extra
       /\ (length extra <= n)%nat
       /\ Forall (fun call => call.1.1 ∈ companies
                              /\ call.1.2 = dts /\ call.2 = df) extra.

(** a step that leaves the cache and the log of fetch calls alone *)
Definition same_store (st st1 : System Env) : Prop :=
  document_cache st1 = document_cache st
  /\ fetch_calls st1 = fetch_calls st.

Lemma grows_refl st companies dts df : grows st st 0 companies dts df.
Proof.
  split; [done|]. exists []. now rewrite app_nil_r.
Qed.

Lemma grows_same st st1 st2 n companies dts df :
  same_store st st1 -> grows st1 st2 n companies dts df ->
  grows st st2 n companies dts df.
Proof.
  intros (Hc & Hf) (Hc2 & x & Hf2 & Hx). split; [now rewrite <- Hc|].
  exists x. now rewrite <- Hf.
Qed.

Lemma grows_same_r st st1 st2 n companies dts df :
  grows st st1 n companies dts df -> same_store st1 st2 ->
  grows st st2 n companies dts df.
Proof.
  intros (Hc2 & x & Hf2 & Hx) (Hc & Hf). split; [now rewrite Hc|].
  exists x. now rewrite Hf.
Qed.

Lemma grows_trans st st1 st2 n m cs1 cs2 dts df :
  grows st st1 n cs1 dts df -> grows st1 st2 m cs2 dts df ->
  grows st st2 (n + m) (app cs1 cs2) dts df.
Proof.
  intros (Hc1 & x1 & Hf1 & Hn1 & Hx1) (Hc2 & x2 & Hf2 & Hn2 & Hx2).
  split; [by etrans|]. exists (app x1 x2).
  rewrite Hf2, Hf1, app_assoc, length_app. split; [done|]. split; [lia|].
  apply Forall_app. split.
  - eapply Forall_impl; [exact Hx1|]. intros call (? & ? & ?).
    rewrite elem_of_app. auto.
  - eapply Forall_impl; [exact Hx2|]. intros call (? & ? & ?).
    rewrite elem_of_app. auto.
Qed.

Lemma retrieve_company_grows dts df all company st :
  grows st (retrieve_company Env fetch_filings dts df all company st).2
        1 [company] dts df.
Proof.
  destruct (document_cache st !! cache_key company dts df) as [cached|]
    eqn:Hkey.
  - rewrite (retrieve_company_hit _ _ _ _ _ _ _ cached) by exact Hkey.
    cbn [snd]. destruct (grows_refl st [company] dts df) as (? & x & ? & ? & ?).
    split; [done|]. exists x. repeat split; try done. lia.
  - rewrite retrieve_company_miss by exact Hkey.
    destruct (fetch_filings company dts df 3 (env st)) as [[[|c cs]|e] e'];
      cbv zeta; cbn [snd document_cache fetch_calls].
    all: split; [try done; by apply insert_subseteq|].
    all: exists [(company, dts, df)]; split; [reflexivity|];
      split; [simpl; lia|]; apply Forall_singleton; cbn;
      rewrite list_elem_of_singleton; done.
Qed.

Lemma retrieve_loop_grows dts df companies all st :
  grows st (retrieve_loop Env fetch_filings dts df companies all st).2
        (length companies) companies dts df.
Proof.
  revert all st. induction companies as [|c cs IH]; intros all st.
  - apply grows_refl.
  - cbn [retrieve_loop]. unfold mbind, QM_bind.
    pose proof (retrieve_company_grows dts df all c st) as Hstep.
    destruct (retrieve_company Env fetch_filings dts df all c st)
      as [[l|e] st1]; cbn [snd] in *.
    + apply (grows_trans _ _ _ 1 (length cs) [c] cs _ _ Hstep (IH l st1)).
    + destruct Hstep as (Hc & x & Hf & Hn & Hx). split; [done|].
      exists x. split; [done|]. split; [simpl; lia|].
      eapply Forall_impl; [exact Hx|]. intros call (Hin & ? & ?).
      split; [|done]. apply list_elem_of_singleton in Hin as ->. left.
Qed.

Lemma validate_tickers_same tickers st :
  same_store st (_validate_tickers Env resolve tickers st).2
  /\ forall l, (_validate_tickers Env resolve tickers st).1 = Ok l ->
               (length l <= length tickers)%nat.
Proof.
  revert st. induction tickers as [|t ts IH]; intros st.
  - cbn. split; [done|]. intros l [= <-]. simpl; lia.
  - cbn [_validate_tickers]. unfold mbind, QM_bind, call.
    destruct (resolve (Py.upper t) (env st)) as [[meta|e] e'] eqn:Er;
      [|cbn; done].
    match goal with |- context [_validate_tickers Env resolve ts ?s] =>
      set (st1 := s) end.
    destruct (IH st1) as [Hsame Hlen].
    destruct (_validate_tickers Env resolve ts st1) as [[others|e] st2];
      cbn [fst snd] in *.
    + split; [exact Hsame|]. intros l [= <-].
      specialize (Hlen others eq_refl). destruct meta; simpl; lia.
    + split; [exact Hsame|]. discriminate.
Qed.

Lemma same_store_trans st st1 st2 :
  same_store st st1 -> same_store st1 st2 -> same_store st st2.
Proof.
  intros (? & ?) (? & ?). split; congruence.
Qed.

Lemma determine_companies_same analysis top_k st :
  same_store st (_determine_companies Env resolve analysis top_k st).2
  /\ forall l, (_determine_companies Env resolve analysis top_k st).1 = Ok l ->
               (length l <= top_k)%nat.
Proof.
  unfold _determine_companies, mbind, QM_bind, mret, QM_ret.
  destruct (validate_tickers_same (tickers analysis) st) as [H1 _].
  destruct (_validate_tickers Env resolve (tickers analysis) st)
    as [[[|u us]|e] st1]; cbn [fst snd] in *.
  - destruct (validate_tickers_same (suggested_tickers analysis) st1)
      as [H2 _].
    destruct (_validate_tickers Env resolve (suggested_tickers analysis) st1)
      as [[[|s ss]|e] st2]; cbn [fst snd] in *.
    + match goal with |- context [_validate_tickers Env resolve ?p st2] =>
        destruct (validate_tickers_same p st2) as [H3 _];
        destruct (_validate_tickers Env resolve p st2) as [[pool|e] st3]
      end; cbn [fst snd] in *.
      * split; [eauto using same_store_trans|].
        intros l [= <-]. rewrite length_take. lia.
      * split; [eauto using same_store_trans|]. discriminate.
    + split; [eauto using same_store_trans|].
      intros l [= <-]. rewrite length_take. lia.
    + split; [eauto using same_store_trans|]. discriminate.
  - split; [done|]. intros l [= <-]. rewrite length_take. lia.
  - split; [done|]. discriminate.
Qed.

Lemma retrieve_loop_missing dts df companies all st :
  exists extra,
    missing_companies
      (retrieve_loop Env fetch_filings dts df companies all st).2
    = app (missing_companies st) extra
    /\ sublist extra companies.
Proof.
  revert all st. induction companies as [|c cs IH]; intros all st.
  - exists []. cbn. now rewrite app_nil_r.
  - cbn [retrieve_loop]. unfold mbind, QM_bind.
    assert (exists extra,
              missing_companies
                (retrieve_company Env fetch_filings dts df all c st).2
              = app (missing_companies st) extra
              /\ sublist extra [c]) as (x & Hx & Hsub).
    { destruct (document_cache st !! cache_key c dts df) as [cached|]
        eqn:Hkey.
      - rewrite (retrieve_company_hit _ _ _ _ _ _ _ cached) by exact Hkey.
        exists []. cbn. rewrite app_nil_r. split; [done|]. apply sublist_nil_l.
      - rewrite retrieve_company_miss by exact Hkey.
        destruct (fetch_filings c dts df 3 (env st)) as [[[|y ys]|e] e'];
          cbv zeta; cbn [snd missing_companies].
        + exists [c]. done.
        + exists []. rewrite app_nil_r. split; [done|]. apply sublist_nil_l.
        + exists []. rewrite app_nil_r. split; [done|]. apply sublist_nil_l. }
    destruct (retrieve_company Env fetch_filings dts df all c st)
      as [[l|e] st1]; cbn [snd] in *.
    + destruct (IH l st1) as (x' & Hx' & Hsub').
      exists (app x x'). rewrite Hx', Hx, app_assoc. split; [done|].
      now apply (sublist_app x [c] x' cs).
    + exists x. split; [done|].
      pose proof (sublist_app x [c] [] cs Hsub (sublist_nil_l cs)) as H.
      now rewrite app_nil_r in H.
Qed.

Lemma effective_types_nonempty analysis : effective_types analysis <> [].
Proof.
  unfold effective_types. destruct (document_types analysis); [|done].
  pose proof (default_document_types_cases analysis) as H.
  intros E. rewrite E in H. set_solver.
Qed.

Lemma retrieve_documents_grows companies analysis st :
  grows st (_retrieve_documents Env fetch_filings companies analysis st).2
        (length companies) companies (effective_types analysis)
        (date_floor analysis).
Proof.
  unfold _retrieve_documents, set_missing. unfold mbind at 1, QM_bind at 1.
  fold (effective_types analysis).
  apply (grows_same st {| document_cache := document_cache st;
                          missing_companies := [];
                          env := env st;
                          fetch_calls := fetch_calls st |});
    [now unfold same_store|apply retrieve_loop_grows].
Qed.

(** X13: [_retrieve_documents] only adds: the cache after it extends
    the cache before it, the fetcher is called at most once per company,
    each time with the effective document types, which are never empty,
    and the missing list is rebuilt from the companies of this call. *)
Theorem retrieval_only_adds
    (companies : list string) (analysis : QueryAnalysis) (st : System Env) :
  let st1 :=
    (_retrieve_documents Env fetch_filings companies analysis st).2 in
  document_cache st ⊆ document_cache st1
  /\ (exists extra,
        fetch_calls st1 = app (fetch_calls st) extra
        /\ (length extra <= length companies)%nat
        /\ Forall (fun call => call.1.1 ∈ companies
                               /\ call.1.2 = effective_types analysis
                               /\ call.1.2 <> []
                               /\ call.2 = date_floor analysis) extra)
  /\ sublist (missing_companies st1) companies.
Proof.
  intros st1.
  destruct (retrieve_documents_grows companies analysis st)
    as (Hc & x & Hf & Hn & Hx).
  split; [exact Hc|]. split.
  - exists x. split; [exact Hf|]. split; [exact Hn|].
    eapply Forall_impl; [exact Hx|]. intros call (? & Hd & ?).
    repeat split; try done. rewrite Hd. apply effective_types_nonempty.
  - unfold st1, _retrieve_documents, set_missing.
    unfold mbind at 1, QM_bind at 1.
    match goal with |- context [retrieve_loop Env fetch_filings ?d ?f ?c ?a ?s] =>
      destruct (retrieve_loop_missing d f c a s) as (x' & Hx' & Hsub)
    end.
    rewrite Hx'. exact Hsub.
Qed.

Lemma retrieve_loop_exact dts df companies all st chunks st1 :
  NoDup companies ->
  retrieve_loop Env fetch_filings dts df companies all st = (Ok chunks, st1) ->
  chunks
  = app all (flat_map (fun c => default []
                         (document_cache st1 !! cache_key c dts df))
               companies)
  /\ missing_companies st1
     = app (missing_companies st)
           (filter (fun c => document_cache st1 !! cache_key c dts df = None)
                   companies)
  /\ fetch_calls st1
     = app (fetch_calls st)
           (map (fun c => (c, dts, df))
              (filter (fun c => document_cache st !! cache_key c dts df = None)
                      companies))
  /\ (forall k, k ∉ map (fun c => cache_key c dts df) companies ->
                document_cache st1 !! k = document_cache st !! k).
Proof.
  intros Hnd. revert all st.
  induction Hnd as [|c cs Hc Hnd IH]; intros all st Hrun.
  - cbn in Hrun. injection Hrun as <- <-. cbn. now rewrite !app_nil_r.
  - cbn [retrieve_loop] in Hrun. unfold mbind, QM_bind in Hrun.
    assert (cache_key c dts df ∉ map (fun c => cache_key c dts df) cs)
      as Hfresh.
    { intros (c' & E & Hin)%list_elem_of_fmap.
      apply cache_key_inj in E as <-. contradiction. }
    assert (forall c', c' ∈ cs -> cache_key c' dts df <> cache_key c dts df)
      as Hne.
    { intros c' Hin E. apply cache_key_inj in E as ->. contradiction. }
    rewrite !filter_cons. cbn [flat_map map].
    destruct (document_cache st !! cache_key c dts df) as [cached|] eqn:Hkey.
    + rewrite (retrieve_company_hit _ _ _ _ _ _ _ cached) in Hrun
        by exact Hkey.
      destruct (IH _ _ Hrun) as (Hch & Hm & Hf & Hframe).
      rewrite (Hframe _ Hfresh), Hkey. cbn [default].
      rewrite decide_False by done.
      split; [now rewrite Hch, app_assoc|]. split; [exact Hm|].
      split; [exact Hf|].
      intros k Hk. apply Hframe. intros Hin. apply Hk. now right.
    + rewrite retrieve_company_miss in Hrun by exact Hkey.
      destruct (fetch_filings c dts df 3 (env st)) as [[[|y ys]|e] e'];
        cbv zeta in Hrun; [| |discriminate].
      * destruct (IH _ _ Hrun) as (Hch & Hm & Hf & Hframe).
        cbn [document_cache missing_companies fetch_calls] in *.
        rewrite (Hframe _ Hfresh), Hkey. cbn [default].
        rewrite !decide_True by done. cbn [map].
        split; [exact Hch|]. split; [now rewrite Hm, <- app_assoc|].
        split; [now rewrite Hf, <- app_assoc|].
        intros k Hk. apply Hframe. intros Hin. apply Hk. now right.
      * destruct (IH _ _ Hrun) as (Hch & Hm & Hf & Hframe).
        cbn [document_cache missing_companies fetch_calls] in *.
        rewrite (Hframe _ Hfresh), lookup_insert_eq. cbn [default].
        rewrite decide_False by done. rewrite decide_True by done.
        cbn [map].
        split; [now rewrite Hch, app_assoc|]. split; [exact Hm|].
        split.
        { rewrite Hf, <- app_assoc. cbn [app]. do 3 f_equal.
          apply filter_ext_in. intros c' Hin.
          now rewrite lookup_insert_ne by (symmetry; now apply Hne). }
        intros k Hk. rewrite Hframe by (intros Hin; apply Hk; now right).
        apply lookup_insert_ne. intros <-. apply Hk. left.
Qed.

(** X14: the outcome of a retrieval for distinct companies, read off
    the cache: the evidence is what the cache holds for them afterwards,
    the missing ones are those it holds nothing for, and the fetcher was
    called for those it held nothing for beforehand. *)
Theorem retrieval_of_distinct_companies
    (companies : list string) (analysis : QueryAnalysis)
    (st st1 : System Env) (chunks : list DocumentChunk)
    (Hdistinct : NoDup companies)
    (Hrun : _retrieve_documents Env fetch_filings companies analysis st
            = (Ok chunks, st1)) :
  let key c :=
    cache_key c (effective_types analysis) (date_floor analysis) in
  chunks
  = flat_map (fun c => default [] (document_cache st1 !! key c)) companies
  /\ missing_companies st1
     = filter (fun c => document_cache st1 !! key c = None) companies
  /\ fetch_calls st1
     = app (fetch_calls st)
           (map (fun c => (c, effective_types analysis, date_floor analysis))
              (filter (fun c => document_cache st !! key c = None)
                      companies))
  /\ (forall k, k ∉ map key companies ->
                document_cache st1 !! k = document_cache st !! k).
Proof.
  intros key. unfold _retrieve_documents, set_missing in Hrun.
  unfold mbind at 1, QM_bind at 1 in Hrun.
  fold (effective_types analysis) in Hrun.
  destruct (retrieve_loop_exact _ _ _ _ _ _ _ Hdistinct Hrun)
    as (Hch & Hm & Hf & Hframe).
  cbn [document_cache missing_companies fetch_calls app] in *.
  done.
Qed.

(** X15: a question costs at most three fetches (the three companies
    that [_determine_companies] keeps), all with one list of document
    types and one date floor, and the cache only grows, also when the
    question ends in the handler. *)
Theorem question_makes_at_most_three_fetches
    (question : string) (st : System Env) :
  let st1 :=
    (answer_question Env query_analyzer_run financial_analyst_run resolve
       fetch_filings question st).2 in
  document_cache st ⊆ document_cache st1
  /\ exists extra dts df,
       fetch_calls st1 = app (fetch_calls st) extra
       /\ (length extra <= 3)%nat
       /\ dts <> []
       /\ Forall (fun call => call.1.2 = dts /\ call.2 = df) extra.
Proof.
  intros st1.
  assert (exists companies dts df,
            dts <> [] /\ grows st st1 3 companies dts df)
    as (companies & dts & df & Hdts & Hc & x & Hf & Hn & Hx).
  { assert (forall s, same_store st s ->
              exists companies dts df,
                dts <> [] /\ grows st s 3 companies dts df) as Hsame.
    { intros s Hs. exists [], ["10-K"], None. split; [done|].
      eapply grows_same_r; [|exact Hs].
      destruct (grows_refl st [] ["10-K"] None) as (? & x & ? & ? & ?).
      split; [done|]. exists x. repeat split; try done. lia. }
    unfold st1, answer_question.
    assert (forall r : result AnswerWithSources * System Env,
              (let (r0, st') := r in
               match r0 with
               | Ok a => (a, st')
               | Raise e => (error_answer e, st')
               end).2 = r.2) as -> by (now intros [[?|?] ?]).
    unfold question_flow. unfold mbind at 1, QM_bind at 1. unfold call at 1.
    destruct (query_analyzer_run question (env st)) as [[analysis|e] e1];
      [|apply Hsame; now unfold same_store].
    cbv beta iota. unfold mbind at 1, QM_bind at 1.
    match goal with |- context [_determine_companies Env resolve analysis 3 ?s] =>
      set (s1 := s) end.
    assert (same_store st s1) as Hs1 by now unfold same_store.
    destruct (determine_companies_same analysis 3 s1) as [Hs2 Hlen].
    destruct (_determine_companies Env resolve analysis 3 s1)
      as [[companies|e] s2]; cbn [fst snd] in *;
      [|apply Hsame; eauto using same_store_trans].
    specialize (Hlen companies eq_refl).
    unfold mbind at 1, QM_bind at 1.
    pose proof (retrieve_documents_grows companies analysis s2) as Hg.
    exists companies, (effective_types analysis), (date_floor analysis).
    split; [apply effective_types_nonempty|].
    assert (grows st
              (_retrieve_documents Env fetch_filings companies analysis s2).2
              3 companies (effective_types analysis) (date_floor analysis))
      as Hg3.
    { eapply grows_same; [eauto using same_store_trans|].
      destruct Hg as (? & x & ? & ? & ?). split; [done|].
      exists x. repeat split; try done. lia. }
    destruct (_retrieve_documents Env fetch_filings companies analysis s2)
      as [[chunks|e] s3]; cbn [snd] in *; [|exact Hg3].
    unfold mbind at 1, QM_bind at 1. unfold call at 1.
    destruct (financial_analyst_run _ chunks (env s3)) as [[a|e] e4];
      cbn [snd]; [|eapply grows_same_r; [exact Hg3|now unfold same_store]].
    unfold mbind, QM_bind, get_missing, QM_lift. cbv beta iota.
    match goal with
    | |- context [normalize_citations ?a0 ?m] =>
        destruct (normalize_citations a0 m)
    end; cbn [snd];
      (eapply grows_same_r; [exact Hg3|now unfold same_store]). }
  split; [exact Hc|]. exists x, dts, df. repeat split; try done.
  eapply Forall_impl; [exact Hx|]. now intros call (_ & ? & ?).
Qed.

End CacheFacts.

(** ** The date floor *)

Lemma find_first {A} (p : A -> bool) (l : list A) :
  match List.find p l with
  | Some x =>
      exists before after,
        l = (before ++ x :: after)%list
        /\ p x = true /\ Forall (fun y => p y = false) before
  | None => Forall (fun y => p y = false) l
  end.
Proof.
  induction l as [|y l IH]; [constructor|]. cbn [List.find].
  destruct (p y) eqn:Hy.
  - exists [], l. auto.
  - destruct (List.find p l) as [x|].
    + destruct IH as (before & after & -> & Hx & Hb).
      exists (y :: before), after. auto.
    + now constructor.
Qed.

Lemma is_year_length p : is_year p = true -> String.length p = 4%nat.
Proof.
  unfold is_year. intros [_ H]%andb_true_iff. now apply Nat.eqb_eq in H.
Qed.

(** X17: the date floor: the first period that is a four-digit year,
    as January 1st of that year, in the retriever and in the cache key
    alike; without one the retriever falls back on a window of days and
    the cache key on the word [recent]. *)
Theorem date_floor_is_first_year_period
    (analysis : QueryAnalysis) (days : Z) (w : World) :
  _resolve_date_from analysis days w
  = (Ok (default (utc_days_ago w days) (date_floor analysis)), w)
  /\ match date_floor analysis with
     | Some d =>
         exists year before after,
           time_periods analysis = (before ++ year :: after)%list
           /\ Forall (fun p => is_year p = false) before
           /\ Py.isdigit year = true
           /\ d = year ++ "-01-01"
           /\ String.length d = 10%nat
           /\ forall company dts,
                cache_key company dts (Some d)
                = company ++ "_" ++ Py.join "-" dts ++ "_" ++ d
     | None =>
         Forall (fun p => is_year p = false) (time_periods analysis)
         /\ forall company dts,
              cache_key company dts None
              = company ++ "_" ++ Py.join "-" dts ++ "_recent"
     end.
Proof.
  unfold _resolve_date_from, date_floor.
  pose proof (find_first is_year (time_periods analysis)) as H.
  destruct (List.find is_year (time_periods analysis)) as [year|].
  - split; [reflexivity|].
    destruct H as (before & after & E & Hy & Hb).
    exists year, before, after. pose proof (is_year_length _ Hy) as Hlen.
    repeat split; try done.
    + unfold is_year in Hy. now apply andb_true_iff in Hy as [? _].
    + rewrite append_length, Hlen. reflexivity.
    + intros company dts. unfold cache_key, Py.or_str.
      destruct year; [discriminate|reflexivity].
  - split; [reflexivity|]. split; [exact H|]. reflexivity.
Qed.

(** ** The prompt and the map of allowed sources *)

Lemma allowed_lines_lookup chunks start k :
  map (fun '(i, chunk) => "- [C" ++ Py.str i ++ "] " ++ chunk_reference chunk)
      (Py.enumerate start chunks) !! k
  = (fun c => "- [C" ++ Py.str (start + N.of_nat k) ++ "] "
              ++ chunk_reference c) <$> chunks !! k.
Proof.
  revert start k. induction chunks as [|c l IH]; intros start [|k];
    cbn [Py.enumerate map]; try reflexivity.
  - cbn. now rewrite N.add_0_r.
  - rewrite !lookup_cons. rewrite (IH (N.succ start) k).
    destruct (l !! k); [|reflexivity]. cbn. do 4 f_equal. lia.
Qed.

Lemma finditer_prompt_line i ref :
  finditer ("- [C" ++ Py.str i ++ "] " ++ ref)
  = Py.str i :: finditer (" " ++ ref).
Proof.
  assert ("- [C" ++ Py.str i ++ "] " ++ ref
          = String "-" (String " " (group0 (Py.str i) ++ (" " ++ ref)))) as ->.
  { unfold group0. rewrite !append_assoc, !append_cons, !append_nil_l.
    reflexivity. }
  rewrite finditer_cons. cbn [match_tag].
  rewrite finditer_cons. cbn [match_tag].
  apply finditer_group0, str_numeral.
Qed.

(** X18: the prompt and the map agree: line [k] of the allowed
    sources is numbered with the key under which the map holds the chunk
    of that line; the first tag of the line is that key, and
    [_parse_used_tags] reads it back first unless [int] refuses a tag of
    the line. *)
Theorem prompt_lines_number_the_allowed_map
    (chunks : list DocumentChunk) (k : nat) :
  length (allowed_lines_of chunks) = length chunks
  /\ allowed_map_of chunks !! 0%N = None
  /\ match chunks !! k with
     | Some c =>
         let line :=
           "- [C" ++ Py.str (N.of_nat (S k)) ++ "] " ++ chunk_reference c in
         allowed_lines_of chunks !! k = Some line
         /\ allowed_map_of chunks !! N.of_nat (S k) = Some c
         /\ head (finditer line) = Some (Py.str (N.of_nat (S k)))
         /\ match _parse_used_tags line with
            | Ok ids => head ids = Some (N.of_nat (S k))
            | Raise e => tag_refused line e
            end
     | None =>
         allowed_lines_of chunks !! k = None
         /\ allowed_map_of chunks !! N.of_nat (S k) = None
     end.
Proof.
  assert (forall {A} (l : list A) start,
            length (Py.enumerate start l) = length l) as Hlen.
  { intros A l. induction l as [|x l IH]; intros start; [reflexivity|].
    cbn. now rewrite IH. }
  split; [unfold allowed_lines_of; now rewrite length_map, Hlen|].
  split; [now rewrite allowed_map_lookup|].
  assert (chunk_at chunks (N.of_nat (S k)) = chunks !! k) as Hat.
  { unfold chunk_at. destruct (N.eqb_spec (N.of_nat (S k)) 0); [lia|].
    f_equal. lia. }
  unfold allowed_lines_of. rewrite allowed_lines_lookup, allowed_map_lookup, Hat.
  replace (1 + N.of_nat k)%N with (N.of_nat (S k)) by lia.
  destruct (chunks !! k) as [c|]; [|done].
  cbv zeta. split; [reflexivity|]. split; [reflexivity|].
  split; [now rewrite finditer_prompt_line|].
  rewrite parse_used_tags_run.
  destruct (first_oversize (finditer _)) as [ds|] eqn:E;
    [now apply first_oversize_refused|].
  rewrite parse_used_tags_firsts, finditer_prompt_line.
  cbn [map firsts]. rewrite int_str.
  destruct (decide _) as [Hin|_]; [set_solver|reflexivity].
Qed.

(** ** The evidence cache on two companies *)

Definition after_two_companies : System nat :=
  (_retrieve_documents nat counting_fetch ["AAPL"; "MSFT"] risk_query
     fresh_system).2.

Lemma retrieval_of_two_companies :
  missing_companies after_two_companies
  = filter (fun c => document_cache after_two_companies
                       !! cache_key c (effective_types risk_query)
                            (date_floor risk_query) = None)
           ["AAPL"; "MSFT"]
  /\ fetch_calls after_two_companies
     = [("AAPL", ["10-K"], None); ("MSFT", ["10-K"], None)].
Proof.
  assert (NoDup ["AAPL"; "MSFT"]) as Hnd.
  { apply NoDup_cons. split; [set_solver|]. apply NoDup_singleton. }
  assert (_retrieve_documents nat counting_fetch ["AAPL"; "MSFT"] risk_query
            fresh_system
          = (Ok [sample_chunk], after_two_companies)) as Hrun
    by (vm_compute; reflexivity).
  destruct (retrieval_of_distinct_companies nat counting_fetch
              ["AAPL"; "MSFT"] risk_query fresh_system after_two_companies
              [sample_chunk] Hnd Hrun) as (_ & Hm & Hf & _).
  split; [exact Hm|]. rewrite Hf. vm_compute. reflexivity.
Defined.

(** ** The selection of companies *)

Section CompanySelection.

Variable Env : Type.
Variable resolve : string -> Env -> result (option string) * Env.

(** a registry that answers from a fixed table and keeps its state *)
Definition answers_from (table : string -> option string) : Prop :=
  forall t e, resolve t e = (Ok (table t), e).

(** the tickers of a list that the table knows, as the registry spells
    them *)
Definition known (table : string -> option string) (tickers : list string)
  : list string :=
  omap (fun t => table (Py.upper t)) tickers.

Lemma validate_tickers_known table tickers st :
  answers_from table ->
  _validate_tickers Env resolve tickers st = (Ok (known table tickers), st).
Proof.
  intros Hres. induction tickers as [|t ts IH]; [reflexivity|].
  cbn [_validate_tickers]. unfold mbind, QM_bind, call.
  rewrite Hres. rewrite system_eta, IH. unfold mret, QM_ret, known.
  cbn [omap list_omap]. now destruct (table (Py.upper t)).
Qed.

(** X16: the selection of companies against a registry that answers
    from a table, for tickers whose upper case is within U+0000..U+00FF:
    the user's tickers win if any of them is known, else the suggested
    ones, else the pool; the list is cut to [top_k] after the unknown
    tickers are dropped. *)
Theorem companies_come_from_the_first_known_list
    (table : string -> option string) (analysis : QueryAnalysis)
    (top_k : nat) (st : System Env)
    (Hres : answers_from table)
    (Hupper : Forall (fun t => Py.upper_exact t = true)
                (app (tickers analysis) (suggested_tickers analysis))) :
  exists companies,
    _determine_companies Env resolve analysis top_k st = (Ok companies, st)
    /\ (length companies <= top_k)%nat
    /\ (known table (tickers analysis) <> [] ->
        companies = take top_k (known table (tickers analysis)))
    /\ (known table (tickers analysis) = [] ->
        known table (suggested_tickers analysis) <> [] ->
        companies = take top_k (known table (suggested_tickers analysis)))
    /\ (known table (tickers analysis) = [] ->
        known table (suggested_tickers analysis) = [] ->
        companies
        = take top_k
            (omap table
                  ["AAPL"; "MSFT"; "JPM"; "GOOGL"; "AMZN"; "META"; "NVDA"])).
Proof.
  unfold _determine_companies, mbind, QM_bind.
  rewrite (validate_tickers_known table) by exact Hres.
  destruct (known table (tickers analysis)) as [|u us] eqn:Eu.
  - rewrite (validate_tickers_known table) by exact Hres.
    destruct (known table (suggested_tickers analysis)) as [|s ss] eqn:Es.
    + rewrite (validate_tickers_known table) by exact Hres.
      eexists. split; [reflexivity|]. rewrite length_take.
      repeat split; try done; lia.
    + eexists. split; [reflexivity|]. rewrite length_take.
      repeat split; try done; lia.
  - eexists. split; [reflexivity|]. rewrite length_take.
    repeat split; try done; lia.
Qed.

End CompanySelection.

(** a registry that knows two tickers *)
Definition two_ticker_table (t : string) : option string :=
  if String.eqb t "AAPL" then Some "AAPL"
  else if String.eqb t "MSFT" then Some "MSFT" else None.

Definition table_resolver (t : string) (e : unit)
  : result (option string) * unit := (Ok (two_ticker_table t), e).

Definition lower_case_query : QueryAnalysis :=
  {| tickers := ["tsla"; "msft"];
     time_periods := [];
     document_types := [];
     query_type := single_ticker;
     sectors := [];
     keywords := [];
     complexity_score := 3 # 10;
     suggested_tickers := ["AAPL"];
     selection_reason := "" |}.

Lemma company_selection_witness :
  _determine_companies unit table_resolver lower_case_query 3 idle_system
  = (Ok ["MSFT"], idle_system).
Proof.
  destruct (companies_come_from_the_first_known_list unit table_resolver
              two_ticker_table lower_case_query 3 idle_system
              ltac:(intros t e; reflexivity)
              ltac:(repeat constructor))
    as (companies & Hrun & _ & Huser & _).
  rewrite Hrun, (Huser ltac:(vm_compute; discriminate)). reflexivity.
Defined.

(** * data_retriever.py: the retrieval by form type

    [fetch_filings] and the fetchers it calls, which [_retrieve_documents]
    runs for every company that the cache does not hold. *)

(** ** The provider as these fetchers read it *)

(** One item of ["filings"] in a search response: the keys of [filing]
    and the two more that are read here. *)
Record listing := {
  entry : filing;
  accessionNo : jfield string;
  cik : jfield string
}.

Record tx_coding := { coding_code : jfield string }.

(** one item of the ["transactions"] of a non-derivative table *)
Record transaction := {
  tr_amounts : jfield amounts;
  tr_coding : jfield tx_coding;
  transactionDate : jfield string;
  securityTitle : jfield string
}.

(** a table of a report, with items of type [A] *)
Record tx_table (A : Type) := { transactions : jfield (list A) }.
Arguments transactions {A} _.

(** One item of ["transactions"] in an insider-trading response.  The
    items of the derivative table are not read, only counted;
    [rep_other_keys] tells whether the object has keys besides the ones
    listed. *)
Record report := {
  rep_reportingOwner : jfield owner;
  rep_filedAt : jfield string;
  documentType : jfield string;
  periodOfReport : jfield string;
  rep_nonDerivativeTable : jfield (tx_table transaction);
  derivativeTable : jfield (tx_table unit);
  accessionNumber : jfield string;
  rep_linkToFilingDetails : jfield string;
  rep_other_keys : bool
}.

(** a request with the part of its payload that depends on the call: the
    query string and the ["size"] asked for *)
Inductive api_call :=
| Search (q : string) (size : Z)
| Extract (url item : string)
| Insider (q : string) (size : string).

(** The provider during one run, as in [World]: the responses still to
    come for each end point and the calls made so far. *)
Record Archive := {
  search_results : list (reply (list listing));
  extract_results : list (reply string);
  insider_results : list (reply (list report));
  calls : list api_call
}.

(** computations that read the provider and may raise *)
Definition G (A : Type) : Type := Archive -> result A * Archive.

Global Instance G_ret : MRet G := fun A a w => (Ok a, w).
Global Instance G_bind : MBind G := fun A B f m w =>
  match m w with
  | (Ok a, w') => f a w'
  | (Raise e, w') => (Raise e, w')
  end.

Definition G_lift {A} (r : result A) : G A := fun w => (r, w).

(** [try: body except Exception as e: handler] *)
Definition G_try {A} (body : G A) (handler : PyExc -> G A) : G A := fun w =>
  match body w with
  | (Ok a, w') => (Ok a, w')
  | (Raise e, w') => handler e w'
  end.

(** [requests.post(self.search_url, json=payload, timeout=30)] *)
Definition search (q : string) (size : Z) : G (Z * option (list listing)) :=
  fun w =>
  let w' reps := {| search_results := reps;
                    extract_results := extract_results w;
                    insider_results := insider_results w;
                    calls := (calls w ++ [Search q size])%list |} in
  match search_results w with
  | Reply status body :: reps => (Ok (status, body), w' reps)
  | NoReply e :: reps => (Raise e, w' reps)
  | [] => (Raise connection_error, w' [])
  end.

(** [requests.get(full_url, timeout=60)] *)
Definition extract (url item : string) : G (Z * option string) := fun w =>
  let w' reps := {| search_results := search_results w;
                    extract_results := reps;
                    insider_results := insider_results w;
                    calls := (calls w ++ [Extract url item])%list |} in
  match extract_results w with
  | Reply status body :: reps => (Ok (status, body), w' reps)
  | NoReply e :: reps => (Raise e, w' reps)
  | [] => (Raise connection_error, w' [])
  end.

(** [requests.post(self.insider_api_url, json=payload, ...)] *)
Definition insider (q size : string) : G (Z * option (list report)) :=
  fun w =>
  let w' reps := {| search_results := search_results w;
                    extract_results := extract_results w;
                    insider_results := reps;
                    calls := (calls w ++ [Insider q size])%list |} in
  match insider_results w with
  | Reply status body :: reps => (Ok (status, body), w' reps)
  | NoReply e :: reps => (Raise e, w' reps)
  | [] => (Raise connection_error, w' [])
  end.

(** [r.json()] and the list under the key the code reads; [None] is a body
    that is not such an object *)
Definition read_json {A} (body : option A) : result A :=
  match body with
  | Some a => Ok a
  | None => Raise {| exc_type := "ValueError"; exc_msg := "malformed body" |}
  end.

(** [x[:10]] where [x] is a string or [None] *)
Definition first_ten (x : option string) : result string :=
  match x with
  | Some s => Ok (Py.prefix_str 10 s)
  | None => Raise type_error
  end.

(** a [str] field of a pydantic model given a string or [None] *)
Definition as_str (x : option string) : result string :=
  match x with
  | Some s => Ok s
  | None => Raise validation_error
  end.

(** [k in d] *)
Definition has_key {A} (f : jfield A) : bool :=
  match f with Missing => false | _ => true end.

(** ['Item' in None], with the message of CPython up to 3.13 *)
Definition not_iterable_error : PyExc :=
  {| exc_type := "TypeError";
     exc_msg := "argument of type 'NoneType' is not iterable" |}.

(** [f' AND filedAt:[{date_from} TO *]'] if [date_from] else nothing *)
Definition date_clause (date_from : option string) : string :=
  match date_from with
  | Some d => if Py.truthy d then " AND filedAt:[" ++ d ++ " TO *]" else ""
  | None => ""
  end.

(** [str(n)] for an integer *)
Definition str_int (n : Z) : string := pretty n.

(** ** The fetcher of 8-K, DEF 14A and other forms *)

(** the body of the [try] of [_get_filing_summary] *)
Definition summary_lines (f : listing) (form_type : string)
  : result (list string) :=
  let company_name := get_or "Unknown Company" (companyName (entry f)) in
  match first_ten (get_or "Unknown" (filedAt (entry f))) with
  | Raise e => Raise e
  | Ok filing_date =>
      let description :=
        get_or (form_type ++ " filing") (description (entry f)) in
      let lines :=
        [form_type ++ " Filing Summary";
         "Company: " ++ fmt company_name;
         "Filing Date: " ++ filing_date;
         "Description: " ++ fmt description;
         ""] in
      let by_form : result (list string) :=
        if String.eqb form_type "8-K" then
          let lines :=
            app lines ["This is a Current Report (8-K) that discloses material corporate events."] in
          match description with
          | None => Raise not_iterable_error
          | Some d =>
              Ok (if Py.contains "Item" d
                  then app lines ["Items reported are indicated in the description above."]
                  else lines)
          end
        else if String.eqb form_type "DEF 14A" then
          Ok (app lines ["This is a Definitive Proxy Statement, typically containing:";
                        "- Executive compensation information";
                        "- Board of directors information";
                        "- Shareholder voting matters"])
        else if bool_decide (form_type ∈ ["3"; "4"; "5"]) then
          Ok (app lines ["This is a Form " ++ form_type
                        ++ " insider trading report.";
                        "Contains information about securities transactions by company insiders."])
        else Ok lines in
      match by_form with
      | Raise e => Raise e
      | Ok lines =>
          let lines :=
            if has_key (cik f)
            then app lines ["Company CIK: " ++ fmt (get (cik f))]
            else lines in
          let lines :=
            if has_key (linkToFilingDetails (entry f))
            then app lines ["Filing URL: "
                            ++ fmt (get (linkToFilingDetails (entry f)))]
            else lines in
          Ok lines
      end
  end.

Definition _get_filing_summary (f : listing) (form_type : string) : string :=
  match summary_lines f form_type with
  | Ok lines => Py.join newline lines
  | Raise e =>
      form_type ++ " filing summary - Processing error: "
      ++ Py.prefix_str 100 (exc_msg e)
  end.

(** the body of the [try] inside the loop of [_fetch_general_filings]: the
    chunk that is appended, if any *)
Definition general_chunk (ticker form_type : string) (f : listing)
  : result (option DocumentChunk) :=
  let content := _get_filing_summary f form_type in
  if Py.truthy content && (50 <? String.length content)%nat then
    match first_ten (get_or "" (filedAt (entry f))) with
    | Raise e => Raise e
    | Ok filing_date =>
        match as_str (get_or "" (linkToFilingDetails (entry f))) with
        | Raise e => Raise e
        | Ok url =>
            Ok (Some {| content := content;
                        ticker := ticker;
                        filing_type := form_type;
                        filing_date := filing_date;
                        section := Some (_section_name form_type);
                        chunk_id := ticker ++ "_" ++ form_type ++ "_"
                                    ++ fmt (get_or "unknown" (accessionNo f));
                        source_url := url;
                        page_number := None;
                        confidence_score := 8 # 10 |})
        end
    end
  else Ok None.

(** one turn of a loop whose body is [try: ... chunks.append(c) except
    Exception: continue] *)
Definition append_or_continue {A} (chunk_of : A -> result (option DocumentChunk))
    (chunks : list DocumentChunk) (x : A) : list DocumentChunk :=
  match chunk_of x with
  | Ok (Some c) => (chunks ++ [c])%list
  | Ok None | Raise _ => chunks
  end.

(** In the body below every statement that can raise into the outer
    [except] comes before the loop, where [chunks] is still empty. *)
Definition _fetch_general_filings (ticker form_type : string)
    (date_from : option string) (limit : Z) : G (list DocumentChunk) :=
  G_try
    (let query := search_query ticker form_type ++ date_clause date_from in
     '(status, body) ← search query limit;
     if negb (status =? 200)%Z then mret [] else
     filings ← G_lift (read_json body);
     mret (foldl (append_or_continue (general_chunk ticker form_type))
                 [] filings))
    (fun _ => mret []).

(** ** The fetcher of 10-K and 10-Q *)

Definition _get_extraction_items (form_type : string) : list string :=
  if String.eqb form_type "10-K" then ["1"; "1A"; "7"]
  else if String.eqb form_type "10-Q" then ["part1item2"]
  else [].

Definition _call_item_extractor (filing_url item_code : string) : G string :=
  G_try
    ('(status, body) ← extract filing_url item_code;
     if (status =? 200)%Z then mret (Py.strip (default "" body))
     else mret "")
    (fun _ => mret "").

(** Inside [_fetch_structured_filings]: the provider together with the local
    list [chunks], which the [except] clause returns as the loop left it. *)
Record Frame := { chunks : list DocumentChunk; provider : Archive }.

Definition F (A : Type) : Type := Frame -> result A * Frame.

Global Instance F_ret : MRet F := fun A a fr => (Ok a, fr).
Global Instance F_bind : MBind F := fun A B f m fr =>
  match m fr with
  | (Ok a, fr') => f a fr'
  | (Raise e, fr') => (Raise e, fr')
  end.

Definition ask {A} (g : G A) : F A := fun fr =>
  let '(r, w') := g (provider fr) in
  (r, {| chunks := chunks fr; provider := w' |}).

Definition F_lift {A} (r : result A) : F A := fun fr => (r, fr).

(** [chunks.append(c)] *)
Definition append_chunk (c : DocumentChunk) : F unit := fun fr =>
  (Ok tt, {| chunks := (chunks fr ++ [c])%list; provider := provider fr |}).

(** [for x in l: body] *)
Fixpoint for_each {A} (body : A -> F unit) (l : list A) : F unit :=
  match l with
  | [] => mret tt
  | x :: l' => _ ← body x; for_each body l'
  end.

(** [chunks = []; try: body except Exception: pass; return chunks] *)
Definition returning_chunks (body : F unit) : G (list DocumentChunk) := fun w =>
  let '(_, fr) := body {| chunks := []; provider := w |} in
  (Ok (chunks fr), provider fr).

(** the body of the loop over [items] *)
Definition structured_item (ticker form_type : string) (f : listing)
    (link item_code : string) : F unit :=
  content ← ask (_call_item_extractor link item_code);
  if Py.truthy content && (200 <? String.length content)%nat then
    filing_date ← F_lift (first_ten (get_or "" (filedAt (entry f))));
    append_chunk {| content := content;
                    ticker := ticker;
                    filing_type := form_type;
                    filing_date := filing_date;
                    section := Some ("Item " ++ item_code);
                    chunk_id := ticker ++ "_" ++ form_type ++ "_"
                                ++ fmt (get_or "unknown" (accessionNo f))
                                ++ "_" ++ item_code;
                    source_url := link;
                    page_number := None;
                    confidence_score := 1 |}
  else mret tt.

(** the body of the loop over [filings] *)
Definition structured_filing (ticker form_type : string)
    (items : list string) (f : listing) : F unit :=
  match link_of (entry f) with
  | Some link =>
      if Py.truthy link
      then for_each (structured_item ticker form_type f link) items
      else mret tt
  | None => mret tt
  end.

Definition _fetch_structured_filings (ticker form_type : string)
    (date_from : option string) (limit : Z) : G (list DocumentChunk) :=
  returning_chunks
    (let query := search_query ticker form_type ++ date_clause date_from in
     '(status, body) ← ask (search query limit);
     if negb (status =? 200)%Z then mret tt else
     filings ← F_lift (read_json body);
     match filings with
     | [] => mret tt
     | _ :: _ =>
         let items := _get_extraction_items form_type in
         for_each (structured_filing ticker form_type items) filings
     end).

(** ** The fetcher of forms 3, 4 and 5 *)

Section ByForm.

Context {PF : PyFloat}.

(** [str(hash(content))] *)
Variable hash_str : string -> string.

(** the exception that [float(x)] raises when it does *)
Variable conversion_error : jscalar -> PyExc.

(** [float(amounts.get(key, 0) or 0)] *)
Definition float_of_field (x : jfield jscalar) : result float :=
  match x with
  | Val v =>
      match to_float x with
      | Some v' => Ok v'
      | None => Raise (conversion_error v)
      end
  | _ => Ok float_zero
  end.

(** [not filing] *)
Definition is_empty_report (r : report) : bool :=
  negb (rep_other_keys r)
  && negb (has_key (rep_reportingOwner r) || has_key (rep_filedAt r)
           || has_key (documentType r) || has_key (periodOfReport r)
           || has_key (rep_nonDerivativeTable r)
           || has_key (derivativeTable r) || has_key (accessionNumber r)
           || has_key (rep_linkToFilingDetails r)).

(** the name printed for the reporting person *)
Definition person_name_of (r : report) : option string :=
  match rep_reportingOwner r with
  | Val o => get_or "Unknown Person" (owner_name o)
  | _ => Some "Unknown Person"
  end.

(** [(filing.get(table) or {}).get('transactions', [])]; [None] is
    Python's [None] *)
Definition table_transactions {A} (t : jfield (tx_table A))
  : option (list A) :=
  match t with
  | Val tbl => get_or [] (transactions tbl)
  | _ => Some []
  end.

(** the body of the [try] in the loop over [nd], on
    [(lines, total_value, count)] *)
Definition transaction_lines (st : list string * float * nat)
    (t : transaction) : result (list string * float * nat) :=
  let '(lines, total_value, count) := st in
  let amt :=
    match tr_amounts t with
    | Val a => a
    | _ => {| shares := Missing; pricePerShare := Missing;
              acquiredDisposedCode := Missing |}
    end in
  match float_of_field (shares amt) with
  | Raise e => Raise e
  | Ok sh =>
      match float_of_field (pricePerShare amt) with
      | Raise e => Raise e
      | Ok px =>
          let tx_val := fmul sh px in
          let total_value := fadd total_value tx_val in
          let count := S count in
          let code :=
            match tr_coding t with
            | Val c => get_or "Unknown" (coding_code c)
            | _ => Some "Unknown"
            end in
          let action := format_action amt in
          let date := Py.prefix_str 10 (default "" (get (transactionDate t))) in
          let sec_title := get_or "Common Stock" (securityTitle t) in
          let lines :=
            app lines ["  - " ++ date ++ ": " ++ fmt action ++ " "
                       ++ fmt_comma0 sh ++ " " ++ fmt sec_title ++ " @ $"
                       ++ fmt_fixed2 px ++ " (Code: " ++ fmt code ++ ")"]
          in
          let lines :=
            if fpositive tx_val
            then app lines ["    Transaction Value: $"
                            ++ fmt_comma0 tx_val]
            else lines in
          Ok (lines, total_value, count)
      end
  end.

(** one turn of the loop over [nd] *)
Definition transaction_step (st : list string * float * nat)
    (t : transaction) : list string * float * nat :=
  match transaction_lines st t with
  | Ok st' => st'
  | Raise e =>
      let '(lines, total_value, count) := st in
      (app lines ["  - Transaction processing error: "
                  ++ Py.prefix_str 50 (exc_msg e)],
       total_value, count)
  end.

(** the body of the [try] of [_format_insider_filing] *)
Definition report_lines (r : report) (ticker : string)
  : result (list string) :=
  let person_name := person_name_of r in
  match first_ten (get_or "Unknown" (rep_filedAt r)) with
  | Raise e => Raise e
  | Ok filing_date =>
      let document_type := get_or "Unknown" (documentType r) in
      match first_ten (get_or "Unknown" (periodOfReport r)) with
      | Raise e => Raise e
      | Ok period_of_report =>
          let lines :=
            ["SEC Form " ++ fmt document_type ++ " - Insider Trading Report";
             "Company: " ++ ticker;
             "Reporting Person: " ++ fmt person_name;
             "Filing Date: " ++ filing_date;
             "Period of Report: " ++ period_of_report;
             ""] in
          let lines :=
            match table_transactions (rep_nonDerivativeTable r) with
            | Some (t :: nd) =>
                let lines :=
                  app lines ["Non-Derivative Securities Transactions:"] in
                let '(lines, total_value, count) :=
                  foldl transaction_step (lines, float_zero, 0%nat) (t :: nd) in
                if (0 <? count)%nat then
                  app lines [""; "Transaction Summary:";
                             "  - Number of Transactions: "
                             ++ Py.str (N.of_nat count);
                             "  - Total Transaction Value: $"
                             ++ fmt_comma0 total_value;
                             ""]
                else lines
            | _ => lines
            end in
          let lines :=
            match table_transactions (derivativeTable r) with
            | Some (_ :: _) =>
                app lines ["Note: This filing also includes derivative securities transactions."]
            | _ => lines
            end in
          Ok lines
      end
  end.

Definition _format_insider_filing (r : report) (ticker : string) : string :=
  if is_empty_report r then "" else
  match report_lines r ticker with
  | Ok lines => Py.join newline lines
  | Raise e =>
      "Insider filing for " ++ ticker ++ " - Content processing error: "
      ++ Py.prefix_str 100 (exc_msg e)
  end.

(** the body of the [try] in the loop of [_process_insider_filings] *)
Definition insider_chunk (ticker form_type : string) (r : report)
  : result (option DocumentChunk) :=
  let content := _format_insider_filing r ticker in
  if Py.truthy content && (50 <? String.length content)%nat then
    let person_name := person_name_of r in
    match first_ten (get_or "" (rep_filedAt r)) with
    | Raise e => Raise e
    | Ok filing_date =>
        let accession :=
          get_or (Py.prefix_str 8 (hash_str content)) (accessionNumber r) in
        match as_str (get_or "" (rep_linkToFilingDetails r)) with
        | Raise e => Raise e
        | Ok url =>
            Ok (Some {| content := content;
                        ticker := ticker;
                        filing_type := form_type;
                        filing_date := filing_date;
                        section := Some ("Insider Filing - "
                                         ++ fmt person_name);
                        chunk_id := ticker ++ "_" ++ form_type ++ "_"
                                    ++ fmt accession;
                        source_url := url;
                        page_number := None;
                        confidence_score := 1 |})
        end
    end
  else Ok None.

Definition _process_insider_filings (filings : list report)
    (ticker form_type : string) : list DocumentChunk :=
  foldl (append_or_continue (insider_chunk ticker form_type)) []
        (take 5 filings).

Definition _fetch_insider_filings (ticker form_type : string)
    (date_from : option string) (limit : Z) : G (list DocumentChunk) :=
  G_try
    (let query_string :=
       "issuer.tradingSymbol:" ++ ticker ++ " AND documentType:" ++ form_type
       ++ date_clause date_from in
     '(status, body) ← insider query_string (str_int (Z.min limit 10));
     if (status =? 200)%Z then
       transactions ← G_lift (read_json body);
       match transactions with
       | _ :: _ =>
           mret (_process_insider_filings transactions ticker form_type)
       | [] => mret []
       end
     else _fetch_general_filings ticker form_type date_from limit)
    (fun _ => _fetch_general_filings ticker form_type date_from limit).

(** the body of the loop of [fetch_filings] *)
Definition fetch_form (ticker : string) (date_from : option string)
    (limit : Z) (form : string) : G (list DocumentChunk) :=
  if bool_decide (form ∈ ["3"; "4"; "5"]) then
    _fetch_insider_filings ticker form date_from limit
  else if bool_decide (form ∈ ["10-K"; "10-Q"]) then
    _fetch_structured_filings ticker form date_from limit
  else _fetch_general_filings ticker form date_from limit.

Fixpoint fetch_forms (ticker : string) (date_from : option string)
    (limit : Z) (forms : list string) (all_chunks : list DocumentChunk)
  : G (list DocumentChunk) :=
  match forms with
  | [] => mret all_chunks
  | form :: rest =>
      chunks ← fetch_form ticker date_from limit form;
      fetch_forms ticker date_from limit rest (all_chunks ++ chunks)%list
  end.

Definition fetch_filings (ticker : string) (filing_types : list string)
    (date_from : option string) (limit : Z) : G (list DocumentChunk) :=
  fetch_forms ticker date_from limit filing_types [].

End ByForm.

(** ** Properties of the retrieval by form type *)

(** the sum of the lengths of the strings of a list *)
Fixpoint total_length (l : list string) : nat :=
  match l with
  | [] => 0
  | x :: l' => String.length x + total_length l'
  end.

Lemma join_length sep l :
  String.length (Py.join sep l)
  = (total_length l + (length l - 1) * String.length sep)%nat.
Proof.
  induction l as [|x [|y l] IH]; [reflexivity|simpl; lia|].
  change (Py.join sep (x :: y :: l)) with (x ++ sep ++ Py.join sep (y :: l)).
  rewrite !append_length, IH. cbn [total_length length]. lia.
Qed.

Lemma total_length_app l1 l2 :
  total_length (app l1 l2) = (total_length l1 + total_length l2)%nat.
Proof. induction l1 as [|x l1 IH]; simpl; lia. Qed.

Lemma join_newline_app_length l1 l2 :
  (String.length (Py.join newline l1)
   <= String.length (Py.join newline (app l1 l2)))%nat.
Proof.
  rewrite !join_length, total_length_app, length_app.
  unfold newline. cbn [String.length]. lia.
Qed.

Lemma summary_lines_raise f form_type e :
  summary_lines f form_type = Raise e ->
  e = type_error \/ e = not_iterable_error.
Proof.
  unfold summary_lines, first_ten.
  destruct (get_or "Unknown" (filedAt (entry f))); [|intros [= <-]; auto].
  cbv zeta. repeat case_match; try discriminate; intros [= <-];
    simplify_eq; auto.
Qed.

Lemma summary_lines_base f form_type lines :
  summary_lines f form_type = Ok lines ->
  exists company filed desc more,
    lines = app [form_type ++ " Filing Summary";
                 "Company: " ++ company;
                 "Filing Date: " ++ filed;
                 "Description: " ++ desc;
                 ""] more.
Proof.
  unfold summary_lines, first_ten.
  destruct (get_or "Unknown" (filedAt (entry f))) as [filed|];
    [|discriminate].
  cbv zeta. intros H.
  repeat case_match; try discriminate; simplify_eq;
    rewrite <- ?app_assoc; eexists _, _, _, _; reflexivity.
Qed.

Lemma filing_summary_length f form_type :
  (50 < String.length (_get_filing_summary f form_type))%nat.
Proof.
  unfold _get_filing_summary.
  destruct (summary_lines f form_type) as [lines|e] eqn:E.
  - apply summary_lines_base in E as (company & filed & desc & more & ->).
    eapply Nat.lt_le_trans; [|apply join_newline_app_length].
    rewrite join_length. cbn [total_length length].
    rewrite !append_length. unfold newline. cbn [String.length]. lia.
  - apply summary_lines_raise in E as [-> | ->];
      rewrite !append_length; cbn; lia.
Qed.

(** *** The fetcher of other forms *)

Definition is_null {A} (f : jfield A) : bool :=
  match f with Null => true | _ => false end.

(** a listing whose date and link to the filing details are not [null] *)
Definition usable (f : listing) : bool :=
  negb (is_null (filedAt (entry f)))
  && negb (is_null (linkToFilingDetails (entry f))).

(** the provider after a call to the search end point *)
Definition after_search (w : Archive) (q : string) (size : Z) : Archive :=
  {| search_results := tail (search_results w);
     extract_results := extract_results w;
     insider_results := insider_results w;
     calls := (calls w ++ [Search q size])%list |}.

(** the provider after a call to the insider end point *)
Definition after_insider (w : Archive) (q size : string) : Archive :=
  {| search_results := search_results w;
     extract_results := extract_results w;
     insider_results := tail (insider_results w);
     calls := (calls w ++ [Insider q size])%list |}.

(** the chunks made of the listings of a search response *)
Definition general_chunks (ticker form_type : string)
    (filings : list listing) : list DocumentChunk :=
  foldl (append_or_continue (general_chunk ticker form_type)) [] filings.

(** what is in a chunk of [_fetch_general_filings] besides its content *)
Definition general_metadata (tk form_type : string) (c : DocumentChunk)
  : Prop :=
  ticker c = tk /\ filing_type c = form_type
  /\ (String.length (filing_date c) <= 10)%nat
  /\ section c = Some (_section_name form_type)
  /\ confidence_score c = (8 # 10)%Q.

Lemma general_chunk_cases tk form_type f :
  match general_chunk tk form_type f with
  | Ok (Some c) =>
      usable f = true
      /\ content c = _get_filing_summary f form_type
      /\ general_metadata tk form_type c
  | Ok None => False
  | Raise _ => usable f = false
  end.
Proof.
  unfold general_chunk, usable, first_ten, as_str, general_metadata.
  pose proof (filing_summary_length f form_type) as Hlen.
  assert (Py.truthy (_get_filing_summary f form_type) = true) as ->
    by (destruct (_get_filing_summary f form_type); [simpl in Hlen; lia|done]).
  apply Nat.ltb_lt in Hlen as ->. cbn [andb].
  destruct (filedAt (entry f)) as [| |filed],
    (linkToFilingDetails (entry f)) as [| |url];
    cbn [get_or is_null negb andb content ticker filing_type filing_date
         section confidence_score]; try reflexivity.
  all: repeat split; apply prefix_str_le.
Qed.

Lemma foldl_append_or_continue {A}
    (g : A -> result (option DocumentChunk)) acc l :
  foldl (append_or_continue g) acc l
  = (acc ++ omap (fun x => match g x with
                           | Ok (Some c) => Some c
                           | _ => None
                           end) l)%list.
Proof.
  revert acc. induction l as [|x l IH]; intros acc; cbn [foldl].
  - now rewrite app_nil_r.
  - rewrite IH. unfold append_or_continue. cbn [omap list_omap].
    destruct (g x) as [[c|]|e]; [now rewrite <- app_assoc|done..].
Qed.

Lemma general_chunks_cons tk form_type f filings :
  general_chunks tk form_type (f :: filings)
  = match general_chunk tk form_type f with
    | Ok (Some c) => c :: general_chunks tk form_type filings
    | _ => general_chunks tk form_type filings
    end.
Proof.
  unfold general_chunks. rewrite !foldl_append_or_continue.
  cbn [omap list_omap app].
  destruct (general_chunk tk form_type f) as [[c|]|e]; reflexivity.
Qed.

Lemma general_filings_run tk form_type date_from limit w :
  _fetch_general_filings tk form_type date_from limit w
  = (Ok (match search_results w with
         | Reply status (Some filings) :: _ =>
             if (status =? 200)%Z
             then general_chunks tk form_type filings else []
         | _ => []
         end),
     after_search w (search_query tk form_type ++ date_clause date_from)
                  limit).
Proof.
  unfold _fetch_general_filings, G_try, mbind, G_bind, search, after_search.
  destruct (search_results w) as [|[e|status body] reps]; cbn [tail];
    try reflexivity.
  destruct (status =? 200)%Z; cbn [negb]; [|destruct body; reflexivity].
  unfold G_lift, read_json. destruct body; reflexivity.
Qed.

Lemma general_chunks_spec tk form_type filings :
  map content (general_chunks tk form_type filings)
  = map (fun f => _get_filing_summary f form_type) (filter usable filings)
  /\ Forall (general_metadata tk form_type)
            (general_chunks tk form_type filings).
Proof.
  induction filings as [|f filings [IHc IHm]]; [now split|].
  rewrite general_chunks_cons, filter_cons.
  pose proof (general_chunk_cases tk form_type f) as Hf.
  destruct (general_chunk tk form_type f) as [[c|]|e]; [|done|].
  - destruct Hf as (Hu & Hc & Hm). rewrite decide_True by (now rewrite Hu).
    cbn [map]. rewrite Hc, IHc. split; [done|]. now constructor.
  - rewrite decide_False by (now rewrite Hf). done.
Qed.

Lemma general_filings_metadata tk form_type date_from limit w :
  Forall (general_metadata tk form_type)
    (match (_fetch_general_filings tk form_type date_from limit w).1 with
     | Ok l => l
     | Raise _ => []
     end).
Proof.
  rewrite general_filings_run. cbn [fst].
  destruct (search_results w) as [|[e|status [filings|]] reps];
    try constructor.
  destruct (status =? 200)%Z; [apply general_chunks_spec|constructor].
Qed.

(** X19: [_fetch_general_filings]: one search, and one chunk for every
    listing of a 200 response that has a date and a link which are not
    [null].  The guard on the length of the summary is never the reason a
    listing is dropped: a summary has more than 50 characters, also
    when it is the text of an error. *)
Theorem every_dated_listing_becomes_a_chunk
    (tk form_type : string) (date_from : option string) (limit : Z)
    (w : Archive) :
  exists l,
    _fetch_general_filings tk form_type date_from limit w
    = (Ok l, after_search w (search_query tk form_type
                             ++ date_clause date_from) limit)
    /\ (forall f, (50 < String.length (_get_filing_summary f form_type))%nat)
    /\ match search_results w with
       | Reply status (Some filings) :: _ =>
           if (status =? 200)%Z
           then map content l
                = map (fun f => _get_filing_summary f form_type)
                      (filter usable filings)
           else l = []
       | _ => l = []
       end
    /\ Forall (general_metadata tk form_type) l.
Proof.
  rewrite general_filings_run. eexists. split; [reflexivity|].
  split; [intros f; apply filing_summary_length|].
  pose proof (general_chunks_spec tk form_type) as Hchunks.
  destruct (search_results w) as [|[e|status [filings|]] reps];
    try (split; [reflexivity|constructor]).
  destruct (status =? 200)%Z; [apply Hchunks|split; [reflexivity|constructor]].
Qed.

(** X20: a [null] description: for form 8-K the summary is the message
    of the [TypeError] that the test ['Item' in description] raises, and
    this message is what the chunk holds as evidence; for the other forms
    the description is printed as [None]. *)
Theorem null_description_becomes_evidence
    (tk : string) (f : listing) (filed url : string)
    (Hdesc : description (entry f) = Null)
    (Hfiled : filedAt (entry f) = Val filed)
    (Hurl : linkToFilingDetails (entry f) = Val url) :
  general_chunk tk "8-K" f
  = Ok (Some {| content :=
                  "8-K filing summary - Processing error: "
                  ++ "argument of type 'NoneType' is not iterable";
                ticker := tk;
                filing_type := "8-K";
                filing_date := Py.prefix_str 10 filed;
                section := Some "Material Event";
                chunk_id := tk ++ "_8-K_"
                            ++ fmt (get_or "unknown" (accessionNo f));
                source_url := url;
                page_number := None;
                confidence_score := 8 # 10 |})
  /\ forall form_type,
       form_type <> "8-K" ->
       exists more,
         _get_filing_summary f form_type
         = Py.join newline
             (app [form_type ++ " Filing Summary";
                   "Company: "
                   ++ fmt (get_or "Unknown Company" (companyName (entry f)));
                   "Filing Date: " ++ Py.prefix_str 10 filed;
                   "Description: None"; ""] more).
Proof.
  split.
  - unfold general_chunk, _get_filing_summary, summary_lines, first_ten, as_str.
    rewrite Hdesc, Hfiled, Hurl. reflexivity.
  - intros form_type Hform.
    unfold _get_filing_summary, summary_lines, first_ten.
    rewrite Hdesc, Hfiled. cbn [get_or fmt default].
    apply String.eqb_neq in Hform. rewrite Hform.
    repeat case_match; simplify_eq; rewrite <- ?app_assoc; eexists;
      reflexivity.
Qed.

(** an 8-K listing with everything but a description *)
Definition undescribed_listing : listing :=
  {| entry := {| linkToHtml := Val "https://www.sec.gov/a8k.htm";
                 linkToTxt := Missing;
                 filedAt := Val "2024-08-01T16:05:00-04:00";
                 companyName := Val "Apple Inc.";
                 description := Null;
                 linkToFilingDetails := Val "https://www.sec.gov/a8k-index.htm" |};
     accessionNo := Val "0000320193-24-000081";
     cik := Val "320193" |}.

Lemma null_description_witness :
  option_map content
    (match general_chunk "AAPL" "8-K" undescribed_listing with
     | Ok c => c
     | Raise _ => None
     end)
  = Some "8-K filing summary - Processing error: argument of type 'NoneType' is not iterable".
Proof.
  destruct (null_description_becomes_evidence "AAPL" undescribed_listing
              "2024-08-01T16:05:00-04:00" "https://www.sec.gov/a8k-index.htm"
              eq_refl eq_refl eq_refl) as [-> _].
  reflexivity.
Defined.

(** *** The fetcher of forms 3, 4 and 5 *)

Section ByFormFacts.

Context {PF : PyFloat}.
Variable hash_str : string -> string.
Variable conversion_error : jscalar -> PyExc.

(** the transactions whose two amounts convert to floats *)
Definition convertible (t : transaction) : bool :=
  let amt :=
    match tr_amounts t with
    | Val a => a
    | _ => {| shares := Missing; pricePerShare := Missing;
              acquiredDisposedCode := Missing |}
    end in
  match float_of_field conversion_error (shares amt),
        float_of_field conversion_error (pricePerShare amt) with
  | Ok _, Ok _ => true
  | _, _ => false
  end.

Lemma transaction_step_cases lines total count t :
  exists more total',
    transaction_step conversion_error (lines, total, count) t
    = (app lines more, total',
       if convertible t then S count else count)
    /\ (1 <= length more <= 2)%nat
    /\ (convertible t = false ->
        total' = total
        /\ exists e,
             more = ["  - Transaction processing error: "
                     ++ Py.prefix_str 50 (exc_msg e)]).
Proof.
  unfold transaction_step, transaction_lines, convertible.
  destruct (float_of_field conversion_error (shares _)) as [sh|e].
  - destruct (float_of_field conversion_error (pricePerShare _)) as [px|e].
    + cbv zeta. destruct (fpositive (fmul sh px)).
      * rewrite <- app_assoc. eexists _, _. split; [reflexivity|].
        split; [simpl; lia|discriminate].
      * eexists _, _. split; [reflexivity|]. split; [simpl; lia|discriminate].
    + eexists _, _. split; [reflexivity|]. split; [simpl; lia|]. eauto.
  - eexists _, _. split; [reflexivity|]. split; [simpl; lia|]. eauto.
Qed.

Lemma transaction_steps lines total count nd :
  exists more total',
    foldl (transaction_step conversion_error) (lines, total, count) nd
    = (app lines more, total', (count + length (filter convertible nd))%nat)
    /\ (length nd <= length more <= 2 * length nd)%nat.
Proof.
  revert lines total count.
  induction nd as [|t nd IH]; intros lines total count.
  - exists [], total. cbn. rewrite app_nil_r, Nat.add_0_r. split; [done|lia].
  - cbn [foldl].
    destruct (transaction_step_cases lines total count t)
      as (m1 & t1 & -> & Hm1 & _).
    destruct (IH (app lines m1) t1 (if convertible t then S count else count))
      as (m2 & t2 & -> & Hm2).
    exists (app m1 m2), t2. rewrite <- app_assoc, length_app, filter_cons.
    split; [|cbn [length]; lia].
    f_equal. destruct (convertible t) eqn:E.
    + rewrite decide_True by done. cbn [length]. lia.
    + rewrite decide_False by (cbn; tauto). lia.
Qed.

Lemma report_lines_raise r tk e : report_lines conversion_error r tk = Raise e -> e = type_error.
Proof.
  unfold report_lines, first_ten.
  destruct (get_or "Unknown" (rep_filedAt r)); [|now intros [= <-]].
  destruct (get_or "Unknown" (periodOfReport r)); [|now intros [= <-]].
  discriminate.
Qed.

Lemma report_lines_base r tk lines :
  report_lines conversion_error r tk = Ok lines ->
  exists form person filed period more,
    lines = app ["SEC Form " ++ form ++ " - Insider Trading Report";
                 "Company: " ++ tk;
                 "Reporting Person: " ++ person;
                 "Filing Date: " ++ filed;
                 "Period of Report: " ++ period;
                 ""] more.
Proof.
  unfold report_lines, first_ten.
  destruct (get_or "Unknown" (rep_filedAt r)) as [filed|]; [|discriminate].
  destruct (get_or "Unknown" (periodOfReport r)) as [period|];
    [|discriminate].
  cbv zeta. intros H.
  assert (forall x y : list string, Ok x = Ok y -> x = y) as Hinj
    by (now intros ? ? [=]).
  apply Hinj in H. subst lines. clear Hinj.
  destruct (table_transactions (rep_nonDerivativeTable r)) as [[|t nd]|].
  2:{ match goal with
      | |- context [foldl (transaction_step conversion_error)
                          (?l, ?z, ?c) ?txs] =>
          destruct (transaction_steps l z c txs) as (m & t' & -> & _)
      end.
      destruct (0 <? _)%nat;
        destruct (table_transactions (derivativeTable r)) as [[|? ?]|];
        rewrite <- ?app_assoc; eexists _, _, _, _, _; reflexivity. }
  all: destruct (table_transactions (derivativeTable r)) as [[|? ?]|];
    eexists _, _, _, _, _; reflexivity.
Qed.

Lemma format_insider_length r tk :
  is_empty_report r = false ->
  (50 < String.length (_format_insider_filing conversion_error r tk))%nat.
Proof.
  intros Hne. unfold _format_insider_filing. rewrite Hne.
  destruct (report_lines conversion_error r tk) as [lines|e] eqn:E.
  - apply report_lines_base in E
      as (form & person & filed & period & more & ->).
    eapply Nat.lt_le_trans; [|apply join_newline_app_length].
    rewrite join_length. cbn [total_length length].
    rewrite !append_length. unfold newline. cbn [String.length]. lia.
  - apply report_lines_raise in E as ->.
    rewrite !append_length. cbn. lia.
Qed.

(** a report that [_process_insider_filings] turns into a chunk *)
Definition usable_report (r : report) : bool :=
  negb (is_empty_report r)
  && negb (is_null (rep_filedAt r))
  && negb (is_null (rep_linkToFilingDetails r)).

(** what is in a chunk of [_process_insider_filings] besides its content *)
Definition insider_metadata (tk form_type : string) (c : DocumentChunk)
  : Prop :=
  ticker c = tk /\ filing_type c = form_type
  /\ (String.length (filing_date c) <= 10)%nat
  /\ confidence_score c = 1%Q.

Lemma insider_chunk_cases tk form_type r :
  match insider_chunk hash_str conversion_error tk form_type r with
  | Ok (Some c) =>
      usable_report r = true
      /\ content c = _format_insider_filing conversion_error r tk
      /\ insider_metadata tk form_type c
  | Ok None => is_empty_report r = true
  | Raise _ => usable_report r = false
  end.
Proof.
  unfold insider_chunk, usable_report, insider_metadata.
  destruct (is_empty_report r) eqn:Hne.
  - unfold _format_insider_filing. rewrite Hne. reflexivity.
  - pose proof (format_insider_length r tk Hne) as Hlen.
    assert (Py.truthy (_format_insider_filing conversion_error r tk) = true)
      as ->.
    { destruct (_format_insider_filing conversion_error r tk);
        [simpl in Hlen; lia|done]. }
    apply Nat.ltb_lt in Hlen as ->. cbn [andb negb].
    unfold first_ten, as_str.
    destruct (rep_filedAt r) as [| |filed],
      (rep_linkToFilingDetails r) as [| |url];
      cbn [get_or is_null negb andb content ticker filing_type filing_date
           section confidence_score]; try reflexivity.
    all: repeat split; apply prefix_str_le.
Qed.

Lemma process_insider_chunks tk form_type filings :
  let chunks :=
    _process_insider_filings hash_str conversion_error filings tk form_type in
  map content chunks
  = map (fun r => _format_insider_filing conversion_error r tk)
        (filter usable_report (take 5 filings))
  /\ Forall (insider_metadata tk form_type) chunks.
Proof.
  unfold _process_insider_filings. rewrite foldl_append_or_continue.
  cbn [app]. induction (take 5 filings) as [|r l [IHc IHm]]; [now split|].
  cbn [omap list_omap]. rewrite filter_cons.
  pose proof (insider_chunk_cases tk form_type r) as Hr.
  destruct (insider_chunk hash_str conversion_error tk form_type r)
    as [[c|]|e].
  - destruct Hr as (Hu & Hc & Hm). rewrite decide_True by (now rewrite Hu).
    cbn [map]. rewrite Hc. split; [now f_equal|now constructor].
  - rewrite decide_False; [done|].
    unfold usable_report. rewrite Hr. cbn. tauto.
  - rewrite decide_False by (now rewrite Hr). done.
Qed.

Lemma insider_filings_run tk form_type date_from limit w :
  let q := "issuer.tradingSymbol:" ++ tk ++ " AND documentType:" ++ form_type
           ++ date_clause date_from in
  let w1 := after_insider w q (str_int (Z.min limit 10)) in
  _fetch_insider_filings hash_str conversion_error tk form_type date_from
    limit w
  = match insider_results w with
    | Reply status (Some transactions) :: _ =>
        if (status =? 200)%Z
        then (Ok (_process_insider_filings hash_str conversion_error
                    transactions tk form_type), w1)
        else _fetch_general_filings tk form_type date_from limit w1
    | _ => _fetch_general_filings tk form_type date_from limit w1
    end.
Proof.
  intros q w1.
  unfold _fetch_insider_filings, G_try, mbind, G_bind, insider.
  fold q. unfold w1, after_insider.
  destruct (insider_results w) as [|[e|status body] reps]; cbn [tail];
    try reflexivity.
  destruct (status =? 200)%Z.
  - unfold G_lift, read_json. destruct body as [[|t txs]|]; reflexivity.
  - rewrite general_filings_run. destruct body; reflexivity.
Qed.

Lemma process_insider_length tk form_type filings :
  (length (_process_insider_filings hash_str conversion_error filings
             tk form_type) <= 5)%nat
  /\ (length (_process_insider_filings hash_str conversion_error filings
                tk form_type) <= length filings)%nat.
Proof.
  destruct (process_insider_chunks tk form_type filings) as [Hc _].
  apply (f_equal length) in Hc. rewrite !length_map in Hc. rewrite Hc.
  pose proof (length_filter usable_report (take 5 filings)) as Hf.
  rewrite length_take in Hf. lia.
Qed.

(** X21: [_fetch_insider_filings]: the general search is the fallback
    for a failed request, a status other than 200 and an unreadable body,
    and only for these: a 200 response without transactions gives no chunk
    and no second request.  Otherwise the chunks come from the first five
    reports. *)
Theorem insider_fallback_only_on_failure
    (tk form_type : string) (date_from : option string) (limit : Z)
    (w : Archive) :
  let q := "issuer.tradingSymbol:" ++ tk ++ " AND documentType:" ++ form_type
           ++ date_clause date_from in
  let w1 := after_insider w q (str_int (Z.min limit 10)) in
  let run :=
    _fetch_insider_filings hash_str conversion_error tk form_type date_from
      limit w in
  let answered :=
    match insider_results w with
    | Reply status (Some transactions) :: _ =>
        if (status =? 200)%Z then Some transactions else None
    | _ => None
    end in
  match answered with
  | Some transactions =>
      exists l,
        run = (Ok l, w1)
        /\ (length l <= 5)%nat
        /\ map content l
           = map (fun r => _format_insider_filing conversion_error r tk)
                 (filter usable_report (take 5 transactions))
        /\ Forall (insider_metadata tk form_type) l
  | None =>
      run = _fetch_general_filings tk form_type date_from limit w1
      /\ calls run.2
         = (calls w
            ++ [Insider q (str_int (Z.min limit 10));
                Search (search_query tk form_type ++ date_clause date_from)
                       limit])%list
      /\ Forall (general_metadata tk form_type)
                (match run.1 with Ok l => l | Raise _ => [] end)
  end.
Proof.
  intros q w1 run answered. unfold run, answered.
  rewrite insider_filings_run. fold q w1.
  assert (_fetch_general_filings tk form_type date_from limit w1
          = _fetch_general_filings tk form_type date_from limit w1
            /\ calls (_fetch_general_filings tk form_type date_from limit w1).2
               = (calls w
                  ++ [Insider q (str_int (Z.min limit 10));
                      Search (search_query tk form_type
                              ++ date_clause date_from) limit])%list
            /\ Forall (general_metadata tk form_type)
                 (match (_fetch_general_filings tk form_type date_from limit
                           w1).1 with
                  | Ok l => l
                  | Raise _ => []
                  end)) as Hfallback.
  { split; [reflexivity|]. split; [|apply general_filings_metadata].
    rewrite general_filings_run.
    cbn [fst snd after_search calls w1 after_insider].
    now rewrite <- app_assoc. }
  destruct (insider_results w) as [|[e|status [transactions|]] reps];
    try exact Hfallback.
  destruct (status =? 200)%Z; [|exact Hfallback].
  eexists. split; [reflexivity|].
  destruct (process_insider_chunks tk form_type transactions) as [Hc Hm].
  split; [apply process_insider_length|]. split; [exact Hc|exact Hm].
Qed.

(** X22: a [null] period of report: the formatted report is the message
    of the exception, it passes the length guard, and the chunk made of it
    carries the confidence 1.0 of insider evidence. *)
Theorem null_period_becomes_evidence
    (tk form_type : string) (r : report) (filed url : string)
    (Hperiod : periodOfReport r = Null)
    (Hfiled : rep_filedAt r = Val filed)
    (Hurl : rep_linkToFilingDetails r = Val url) :
  exists id,
    insider_chunk hash_str conversion_error tk form_type r
    = Ok (Some {| content :=
                    "Insider filing for " ++ tk
                    ++ " - Content processing error: "
                    ++ "'NoneType' object is not subscriptable";
                  ticker := tk;
                  filing_type := form_type;
                  filing_date := Py.prefix_str 10 filed;
                  section := Some ("Insider Filing - "
                                   ++ fmt (person_name_of r));
                  chunk_id := tk ++ "_" ++ form_type ++ "_" ++ id;
                  source_url := url;
                  page_number := None;
                  confidence_score := 1 |}).
Proof.
  assert (is_empty_report r = false) as Hne.
  { unfold is_empty_report. rewrite Hperiod. cbn [has_key].
    now rewrite !orb_true_r, andb_false_r. }
  assert (_format_insider_filing conversion_error r tk
          = "Insider filing for " ++ tk ++ " - Content processing error: "
            ++ "'NoneType' object is not subscriptable") as Hc.
  { unfold _format_insider_filing, report_lines, first_ten.
    rewrite Hne, Hfiled, Hperiod. reflexivity. }
  pose proof (format_insider_length r tk Hne) as Hlen.
  unfold insider_chunk, first_ten, as_str.
  rewrite Hfiled, Hurl. cbn [get_or].
  apply Nat.ltb_lt in Hlen. rewrite Hlen. rewrite Hc in *.
  rewrite append_cons. cbn [Py.truthy andb].
  eexists. reflexivity.
Qed.

End ByFormFacts.

(** *** The fetcher of 10-K and 10-Q *)

Lemma call_item_extractor_run url item w :
  _call_item_extractor url item w
  = (Ok (match extract_results w with
         | Reply status body :: _ =>
             if (status =? 200)%Z then Py.strip (default "" body) else ""
         | _ => ""
         end),
     {| search_results := search_results w;
        extract_results := tail (extract_results w);
        insider_results := insider_results w;
        calls := (calls w ++ [Extract url item])%list |}).
Proof.
  unfold _call_item_extractor, G_try, mbind, G_bind, extract.
  destruct (extract_results w) as [|[e|status body] reps]; try reflexivity.
  cbn [tail]. destruct (status =? 200)%Z; reflexivity.
Qed.

(** a chunk of [_fetch_structured_filings], made from one of the
    responses [used] of the extractor *)
Definition structured_chunk (items : list string) (tk form_type : string)
    (used : list (reply string)) (c : DocumentChunk) : Prop :=
  ticker c = tk /\ filing_type c = form_type
  /\ (200 < String.length (content c))%nat
  /\ (exists body,
        Reply 200 body ∈ used /\ content c = Py.strip (default "" body))
  /\ (exists item, item ∈ items /\ section c = Some ("Item " ++ item))
  /\ (String.length (filing_date c) <= 10)%nat
  /\ Py.truthy (source_url c) = true
  /\ confidence_score c = 1%Q.

(** a stretch of the loop of [_fetch_structured_filings] from the frame
    [fr] to the frame [fr']: at most [n] calls, all to the extractor *)
Definition extracted (items : list string) (tk form_type : string) (n : nat)
    (fr fr' : Frame) : Prop :=
  search_results (provider fr') = search_results (provider fr)
  /\ insider_results (provider fr') = insider_results (provider fr)
  /\ exists extra new used,
       calls (provider fr') = (calls (provider fr) ++ extra)%list
       /\ chunks fr' = (chunks fr ++ new)%list
       /\ extract_results (provider fr)
          = (used ++ extract_results (provider fr'))%list
       /\ (length extra <= n)%nat
       /\ (length new <= length extra)%nat
       /\ Forall (fun c => exists url item,
                             c = Extract url item /\ item ∈ items) extra
       /\ Forall (structured_chunk items tk form_type used) new.

Lemma structured_chunk_mono items tk form_type used used' c :
  used ⊆ used' ->
  structured_chunk items tk form_type used c ->
  structured_chunk items tk form_type used' c.
Proof.
  intros Hsub (H1 & H2 & H3 & (body & Hin & Hb) & H5 & H6 & H7 & H8).
  repeat split; try done. exists body. split; [now apply Hsub|done].
Qed.

Lemma extracted_refl items tk form_type fr :
  extracted items tk form_type 0 fr fr.
Proof.
  split; [done|]. split; [done|]. exists [], [], [].
  rewrite !app_nil_r. repeat split; try done; constructor.
Qed.

Lemma extracted_weaken items tk form_type n m fr fr' :
  (n <= m)%nat -> extracted items tk form_type n fr fr' ->
  extracted items tk form_type m fr fr'.
Proof.
  intros Hnm (Hs & Hi & extra & new & used & Hc & Hch & Hu & Hn & Hrest).
  split; [done|]. split; [done|]. exists extra, new, used.
  repeat split; try tauto. lia.
Qed.

Lemma extracted_trans items tk form_type n m fr1 fr2 fr3 :
  extracted items tk form_type n fr1 fr2 ->
  extracted items tk form_type m fr2 fr3 ->
  extracted items tk form_type (n + m) fr1 fr3.
Proof.
  intros (Hs1 & Hi1 & x1 & c1 & u1 & Hc1 & Hch1 & Hu1 & Hn1 & Hl1 & Hx1 & Hk1)
         (Hs2 & Hi2 & x2 & c2 & u2 & Hc2 & Hch2 & Hu2 & Hn2 & Hl2 & Hx2 & Hk2).
  split; [congruence|]. split; [congruence|].
  exists (x1 ++ x2)%list, (c1 ++ c2)%list, (u1 ++ u2)%list.
  rewrite Hc2, Hc1, Hch2, Hch1, Hu1, Hu2, !app_assoc, !length_app.
  repeat split; try done; try lia.
  - apply Forall_app. split; [done|done].
  - apply Forall_app. split.
    + eapply Forall_impl; [exact Hk1|]. intros c.
      apply structured_chunk_mono. set_solver.
    + eapply Forall_impl; [exact Hk2|]. intros c.
      apply structured_chunk_mono. set_solver.
Qed.

Lemma structured_item_extracted items tk form_type f link item fr :
  item ∈ items -> Py.truthy link = true ->
  extracted items tk form_type 1 fr
            (structured_item tk form_type f link item fr).2.
Proof.
  intros Hitem Hlink.
  unfold structured_item. unfold mbind at 1, F_bind at 1. unfold ask.
  rewrite call_item_extractor_run.
  set (text := match extract_results (provider fr) with
                  | Reply status body :: _ =>
                      if (status =? 200)%Z then Py.strip (default "" body)
                      else ""
                  | _ => ""
                  end).
  assert (exists used,
            extract_results (provider fr)
            = (used ++ tail (extract_results (provider fr)))%list
            /\ (Py.truthy text = true ->
                exists body, Reply 200 body ∈ used
                             /\ text = Py.strip (default "" body)))
    as (used & Hused & Hbody).
  { unfold text.
    destruct (extract_results (provider fr)) as [|[e|status body] reps].
    - exists []. split; [done|]. discriminate.
    - exists [NoReply e]. split; [done|]. discriminate.
    - exists [Reply status body]. split; [done|].
      destruct (Z.eqb_spec status 200) as [->|_]; [|discriminate].
      intros _. exists body. split; [left|done]. }
  assert (forall new,
            (length new <= 1)%nat ->
            Forall (structured_chunk items tk form_type used) new ->
            extracted items tk form_type 1 fr
              {| chunks := (chunks fr ++ new)%list;
                 provider :=
                   {| search_results := search_results (provider fr);
                      extract_results := tail (extract_results (provider fr));
                      insider_results := insider_results (provider fr);
                      calls := (calls (provider fr)
                                ++ [Extract link item])%list |} |}) as Hdone.
  { intros new Hlen Hnew. split; [done|]. split; [done|].
    exists [Extract link item], new, used. cbn [provider chunks calls
      extract_results length]. repeat split; try done.
    apply Forall_singleton. eauto. }
  destruct (Py.truthy text && (200 <? String.length text)%nat)
    eqn:Hguard; cbv beta iota.
  - apply andb_true_iff in Hguard as [Ht Hl]. apply Nat.ltb_lt in Hl.
    destruct (Hbody Ht) as (body & Hin & Hc).
    unfold mbind, F_bind, F_lift, first_ten.
    destruct (get_or "" (filedAt (entry f))) as [filed|].
    + unfold append_chunk. cbn [chunks provider snd].
      apply Hdone; [simpl; lia|]. apply Forall_singleton.
      unfold structured_chunk.
      cbn [content ticker filing_type filing_date section source_url
           confidence_score].
      repeat split; try done; [eauto|eauto|apply prefix_str_le].
    + cbn [snd]. specialize (Hdone [] ltac:(simpl; lia) ltac:(constructor)).
      now rewrite app_nil_r in Hdone.
  - unfold mret, F_ret. cbn [snd].
    specialize (Hdone [] ltac:(simpl; lia) ltac:(constructor)).
    now rewrite app_nil_r in Hdone.
Qed.

Lemma for_each_extracted {A} (body : A -> F unit) items tk form_type n l fr :
  (forall x fr0, x ∈ l ->
                 extracted items tk form_type n fr0 (body x fr0).2) ->
  extracted items tk form_type (n * length l) fr (for_each body l fr).2.
Proof.
  revert fr. induction l as [|x l IH]; intros fr Hbody.
  - cbn. rewrite Nat.mul_0_r. apply extracted_refl.
  - cbn [for_each length]. unfold mbind, F_bind.
    pose proof (Hbody x fr ltac:(left)) as Hx.
    destruct (body x fr) as [[[]|e] fr1]; cbn [snd] in *.
    + replace (n * S (length l))%nat with (n + n * length l)%nat by lia.
      eapply extracted_trans; [exact Hx|].
      apply IH. intros y fr0 Hy. apply Hbody. now right.
    + eapply extracted_weaken; [|exact Hx]. lia.
Qed.

Lemma structured_filing_extracted items tk form_type f fr :
  extracted items tk form_type (length items) fr
            (structured_filing tk form_type items f fr).2.
Proof.
  unfold structured_filing.
  destruct (link_of (entry f)) as [link|];
    [|eapply extracted_weaken; [|apply extracted_refl]; lia].
  destruct (Py.truthy link) eqn:Hlink;
    [|eapply extracted_weaken; [|apply extracted_refl]; lia].
  pose proof (for_each_extracted (structured_item tk form_type f link)
                items tk form_type 1 items fr) as H.
  rewrite Nat.mul_1_l in H. apply H.
  intros item fr0 Hin. now apply structured_item_extracted.
Qed.

Lemma extraction_items_cases form_type :
  (length (_get_extraction_items form_type) <= 3)%nat
  /\ (form_type ∉ ["10-K"; "10-Q"] -> _get_extraction_items form_type = []).
Proof.
  unfold _get_extraction_items.
  destruct (String.eqb_spec form_type "10-K") as [->|H1];
    [split; [simpl; lia|set_solver]|].
  destruct (String.eqb_spec form_type "10-Q") as [->|H2];
    [split; [simpl; lia|set_solver]|].
  split; [simpl; lia|done].
Qed.

Lemma structured_filings_run tk form_type date_from limit w :
  let items := _get_extraction_items form_type in
  let q := search_query tk form_type ++ date_clause date_from in
  exists l w' extra used,
    _fetch_structured_filings tk form_type date_from limit w = (Ok l, w')
    /\ calls w' = (calls w ++ Search q limit :: extra)%list
    /\ Forall (fun c => exists url item,
                          c = Extract url item /\ item ∈ items) extra
    /\ insider_results w' = insider_results w
    /\ extract_results w = (used ++ extract_results w')%list
    /\ (length l <= length extra)%nat
    /\ Forall (structured_chunk items tk form_type used) l
    /\ match search_results w with
       | Reply status (Some filings) :: _ =>
           if (status =? 200)%Z
           then (length extra <= length items * length filings)%nat
           else extra = []
       | _ => extra = []
       end.
Proof.
  intros items q.
  unfold _fetch_structured_filings, returning_chunks. fold q items.
  unfold mbind at 1, F_bind at 1. unfold ask, search.
  cbn [provider chunks].
  assert (forall reps,
            exists l w' extra used,
              (Ok l, w')
              = (Ok (@nil DocumentChunk),
                 {| search_results := reps;
                    extract_results := extract_results w;
                    insider_results := insider_results w;
                    calls := (calls w ++ [Search q limit])%list |})
              /\ calls w' = (calls w ++ Search q limit :: extra)%list
              /\ Forall (fun c => exists url item,
                                    c = Extract url item /\ item ∈ items)
                        extra
              /\ insider_results w' = insider_results w
              /\ extract_results w = (used ++ extract_results w')%list
              /\ (length l <= length extra)%nat
              /\ Forall (structured_chunk items tk form_type used) l
              /\ extra = []) as Hnone.
  { intros reps. eexists _, _, [], []. split; [reflexivity|].
    cbn [calls insider_results extract_results app length].
    repeat split; try done; constructor. }
  destruct (search_results w) as [|[e|status body] reps].
  - destruct (Hnone []) as (l & w' & extra & used & E & ? & ? & ? & ? & ? & ? & ->).
    injection E as -> ->. eexists _, _, [], used. cbn [chunks provider].
    repeat split; try done.
  - destruct (Hnone reps) as (l & w' & extra & used & E & ? & ? & ? & ? & ? & ? & ->).
    injection E as -> ->. eexists _, _, [], used. cbn [chunks provider].
    repeat split; try done.
  - destruct (Z.eqb_spec status 200) as [->|Hst]; cbn [negb].
    2:{ destruct (Hnone reps)
          as (l & w' & extra & used & E & ? & ? & ? & ? & ? & ? & ->).
        injection E as -> ->. eexists _, _, [], used.
        unfold mret, F_ret. cbn [chunks provider].
        destruct body; repeat split; try done. }
    unfold mbind, F_bind, F_lift, read_json.
    destruct body as [filings|].
    2:{ destruct (Hnone reps)
          as (l & w' & extra & used & E & ? & ? & ? & ? & ? & ? & ->).
        injection E as -> ->. eexists _, _, [], used.
        cbn [chunks provider]. repeat split; try done. }
    set (fr0 := {| chunks := [];
                   provider :=
                     {| search_results := reps;
                        extract_results := extract_results w;
                        insider_results := insider_results w;
                        calls := (calls w ++ [Search q limit])%list |} |}).
    assert (extracted items tk form_type (length items * length filings) fr0
              (match filings with
               | [] => mret tt
               | _ :: _ =>
                   for_each (structured_filing tk form_type items) filings
               end fr0).2) as Hloop.
    { destruct filings as [|f filings];
        [cbn; rewrite Nat.mul_0_r; apply extracted_refl|].
      apply for_each_extracted. intros x fr _.
      apply structured_filing_extracted. }
    destruct (match filings with
              | [] => mret tt
              | _ :: _ =>
                  for_each (structured_filing tk form_type items) filings
              end fr0) as [r fr1].
    cbn [snd] in Hloop.
    destruct Hloop as (_ & Hi & extra & new & used & Hc & Hch & Hu & Hn & Hl
                       & Hx & Hk).
    exists (chunks fr1), (provider fr1), extra, used.
    unfold fr0 in *.
    cbn [chunks provider calls insider_results extract_results] in *.
    rewrite Hch. cbn [app].
    split; [reflexivity|].
    split; [rewrite Hc, <- app_assoc; reflexivity|].
    repeat split; done.
Qed.

(** X24: [_fetch_structured_filings]: after the search every request
    goes to the extractor, for an item of the form, at most three per
    listing.  A chunk is the stripped text of one extractor response with
    status 200, kept whole, and only if it has more than 200 characters. *)
Theorem structured_filings_extract_every_item
    (tk form_type : string) (date_from : option string) (limit : Z)
    (w : Archive) :
  let items := _get_extraction_items form_type in
  let q := search_query tk form_type ++ date_clause date_from in
  exists l w' extra used,
    _fetch_structured_filings tk form_type date_from limit w = (Ok l, w')
    /\ calls w' = (calls w ++ Search q limit :: extra)%list
    /\ Forall (fun c => exists url item,
                          c = Extract url item /\ item ∈ items) extra
    /\ insider_results w' = insider_results w
    /\ extract_results w = (used ++ extract_results w')%list
    /\ (length l <= length extra)%nat
    /\ Forall (structured_chunk items tk form_type used) l
    /\ match search_results w with
       | Reply status (Some filings) :: _ =>
           if (status =? 200)%Z
           then (length extra <= 3 * length filings)%nat
           else extra = []
       | _ => extra = []
       end
    /\ (form_type ∉ ["10-K"; "10-Q"] -> extra = [] /\ l = []).
Proof.
  intros items q.
  destruct (structured_filings_run tk form_type date_from limit w)
    as (l & w' & extra & used & E & Hc & Hx & Hi & Hu & Hl & Hk & Hn).
  destruct (extraction_items_cases form_type) as [Hthree Hother].
  fold items in Hthree, Hother, Hx, Hk, Hn.
  exists l, w', extra, used. repeat (split; [done|]). split.
  - destruct (search_results w) as [|[e|status [filings|]] reps]; try done.
    destruct (status =? 200)%Z; [|done].
    etrans; [exact Hn|]. apply Nat.mul_le_mono_r. exact Hthree.
  - intros Hform. rewrite (Hother Hform) in Hx.
    assert (extra = []) as ->.
    { destruct extra as [|c extra]; [done|].
      apply Forall_cons_1 in Hx as [(url & item & _ & Hin) _]. set_solver. }
    split; [done|]. destruct l; [done|simpl in Hl; lia].
Qed.

(** X25: a [null] date in the first listing: the [TypeError] of
    [filing.get("filedAt", "")[:10]] ends the whole loop of
    [_fetch_structured_filings] after the first extraction, while the loop
    of [_fetch_general_filings] only skips the listing. *)
Theorem null_date_stops_the_extraction
    (tk : string) (date_from : option string) (limit : Z) (w : Archive)
    (f : listing) (rest : list listing)
    (reps : list (reply (list listing))) (link : string)
    (body : option string) (xs : list (reply string))
    (Hsearch : search_results w = Reply 200 (Some (f :: rest)) :: reps)
    (Hlink : link_of (entry f) = Some link)
    (Htruthy : Py.truthy link = true)
    (Hdate : filedAt (entry f) = Null)
    (Hextract : extract_results w = Reply 200 body :: xs)
    (Hlong : (200 < String.length (Py.strip (default "" body)))%nat) :
  _fetch_structured_filings tk "10-K" date_from limit w
  = (Ok [],
     {| search_results := reps;
        extract_results := xs;
        insider_results := insider_results w;
        calls := (calls w
                  ++ [Search (search_query tk "10-K" ++ date_clause date_from)
                             limit;
                      Extract link "1"])%list |})
  /\ general_chunks tk "8-K" (f :: rest) = general_chunks tk "8-K" rest.
Proof.
  split.
  - unfold _fetch_structured_filings, returning_chunks.
    unfold mbind at 1, F_bind at 1. unfold ask, search.
    cbn [provider chunks]. rewrite Hsearch. cbn [Z.eqb Pos.eqb negb].
    unfold mbind at 1, F_bind at 1. unfold F_lift, read_json.
    cbn [_get_extraction_items String.eqb Ascii.eqb Bool.eqb for_each].
    change (_get_extraction_items "10-K") with ["1"; "1A"; "7"].
    cbn [for_each]. unfold mbind at 1, F_bind at 1.
    unfold structured_filing at 1. rewrite Hlink, Htruthy.
    cbn [for_each]. unfold mbind at 1, F_bind at 1.
    unfold structured_item at 1. unfold mbind at 1, F_bind at 1.
    unfold ask. rewrite call_item_extractor_run.
    cbn [provider extract_results]. rewrite Hextract.
    cbn [Z.eqb Pos.eqb tail].
    assert (Py.truthy (Py.strip (default "" body)) = true) as ->
      by (destruct (Py.strip (default "" body)); [simpl in Hlong; lia|done]).
    apply Nat.ltb_lt in Hlong as ->. cbn [andb].
    unfold mbind, F_bind, F_lift, first_ten. rewrite Hdate.
    cbn [get_or chunks provider calls search_results insider_results].
    now rewrite <- app_assoc.
  - rewrite general_chunks_cons.
    pose proof (general_chunk_cases tk "8-K" f) as Hf.
    destruct (general_chunk tk "8-K" f) as [[c|]|e]; [|done..].
    destruct Hf as [Hu _]. unfold usable in Hu. now rewrite Hdate in Hu.
Qed.

(** a 10-K listing without a date, and one with every key *)
Definition undated_listing : listing :=
  {| entry := {| linkToHtml := Val "https://www.sec.gov/b10k.htm";
                 linkToTxt := Missing;
                 filedAt := Null;
                 companyName := Val "Apple Inc.";
                 description := Val "Form 10-K - Annual report";
                 linkToFilingDetails := Val "https://www.sec.gov/b10k-index.htm" |};
     accessionNo := Val "0000320193-24-000123";
     cik := Val "320193" |}.

Definition dated_listing : listing :=
  {| entry := sample_filing;
     accessionNo := Val "0000320193-23-000106";
     cik := Val "320193" |}.

Definition undated_archive : Archive :=
  {| search_results := [Reply 200 (Some [undated_listing; dated_listing])];
     extract_results := [Reply 200 (Some (repeat_char "x" 300));
                         Reply 200 (Some (repeat_char "y" 300))];
     insider_results := [];
     calls := [] |}.

Lemma null_date_witness :
  _fetch_structured_filings "AAPL" "10-K" (Some "2023-01-01") 3 undated_archive
  = (Ok [],
     {| search_results := [];
        extract_results := [Reply 200 (Some (repeat_char "y" 300))];
        insider_results := [];
        calls := [Search ("ticker:AAPL AND formType:" ++ dquote ++ "10-K"
                          ++ dquote ++ " AND filedAt:[2023-01-01 TO *]") 3;
                  Extract "https://www.sec.gov/b10k.htm" "1"] |}).
Proof.
  apply (null_date_stops_the_extraction "AAPL" (Some "2023-01-01") 3
           undated_archive undated_listing [dated_listing] []
           "https://www.sec.gov/b10k.htm" (Some (repeat_char "x" 300))
           [Reply 200 (Some (repeat_char "y" 300))]);
    try reflexivity.
  vm_compute. lia.
Defined.

(** *** The loop over the form types *)

(** the payload of a call made with [limit] *)
Definition sized (limit : Z) (c : api_call) : Prop :=
  match c with
  | Search _ size => size = limit
  | Insider _ size => size = str_int (Z.min limit 10)
  | Extract _ item => item ∈ ["1"; "1A"; "7"; "part1item2"]
  end.

(** a chunk made for the ticker [tk] and the form [form_type] *)
Definition by_form_chunk (tk form_type : string) (c : DocumentChunk) : Prop :=
  ticker c = tk /\ filing_type c = form_type
  /\ (String.length (filing_date c) <= 10)%nat
  /\ (confidence_score c = 1%Q \/ confidence_score c = (8 # 10)%Q).

Section FetchFilingsFacts.

Context {PF : PyFloat}.
Variable hash_str : string -> string.
Variable conversion_error : jscalar -> PyExc.

Lemma general_filings_spec tk form_type date_from limit w :
  exists l w' extra,
    _fetch_general_filings tk form_type date_from limit w = (Ok l, w')
    /\ calls w' = (calls w ++ extra)%list
    /\ (1 <= length extra)%nat
    /\ Forall (sized limit) extra
    /\ Forall (by_form_chunk tk form_type) l.
Proof.
  pose proof (general_filings_metadata tk form_type date_from limit w) as Hm.
  rewrite general_filings_run in *. cbn [fst] in Hm.
  eexists _, _, [_]. split; [reflexivity|]. split; [reflexivity|].
  split; [simpl; lia|]. split; [now apply Forall_singleton|].
  eapply Forall_impl; [exact Hm|].
  intros c (? & ? & ? & _ & ?). unfold by_form_chunk. auto.
Qed.

Lemma structured_filings_spec tk form_type date_from limit w :
  exists l w' extra,
    _fetch_structured_filings tk form_type date_from limit w = (Ok l, w')
    /\ calls w' = (calls w ++ extra)%list
    /\ (1 <= length extra)%nat
    /\ Forall (sized limit) extra
    /\ Forall (by_form_chunk tk form_type) l.
Proof.
  destruct (structured_filings_run tk form_type date_from limit w)
    as (l & w' & extra & used & E & Hc & Hx & _ & _ & _ & Hk & _).
  exists l, w', (Search (search_query tk form_type ++ date_clause date_from)
                        limit :: extra).
  split; [exact E|]. split; [exact Hc|]. split; [simpl; lia|]. split.
  - constructor; [reflexivity|].
    eapply Forall_impl; [exact Hx|]. intros c (url & item & -> & Hin).
    unfold sized, _get_extraction_items in *.
    repeat case_match; set_solver.
  - eapply Forall_impl; [exact Hk|].
    intros c (? & ? & _ & _ & _ & ? & _ & ?). unfold by_form_chunk. auto.
Qed.

Lemma insider_filings_spec tk form_type date_from limit w :
  exists l w' extra,
    _fetch_insider_filings hash_str conversion_error tk form_type date_from
      limit w = (Ok l, w')
    /\ calls w' = (calls w ++ extra)%list
    /\ (1 <= length extra)%nat
    /\ Forall (sized limit) extra
    /\ Forall (by_form_chunk tk form_type) l.
Proof.
  rewrite insider_filings_run.
  set (q := "issuer.tradingSymbol:" ++ tk ++ " AND documentType:"
            ++ form_type ++ date_clause date_from).
  set (w1 := after_insider w q (str_int (Z.min limit 10))).
  assert (exists l w' extra,
            _fetch_general_filings tk form_type date_from limit w1 = (Ok l, w')
            /\ calls w' = (calls w ++ extra)%list
            /\ (1 <= length extra)%nat
            /\ Forall (sized limit) extra
            /\ Forall (by_form_chunk tk form_type) l) as Hfallback.
  { destruct (general_filings_spec tk form_type date_from limit w1)
      as (l & w' & extra & E & Hc & Hn & Hs & Hm).
    exists l, w', (Insider q (str_int (Z.min limit 10)) :: extra).
    split; [exact E|]. split.
    { rewrite Hc. unfold w1, after_insider. cbn [calls].
      now rewrite <- app_assoc. }
    split; [simpl; lia|]. split; [|exact Hm].
    constructor; [reflexivity|exact Hs]. }
  destruct (insider_results w) as [|[e|status [transactions|]] reps];
    try exact Hfallback.
  destruct (status =? 200)%Z; [|exact Hfallback].
  destruct (process_insider_chunks hash_str conversion_error tk form_type
              transactions) as [_ Hm].
  eexists _, _, [_]. split; [reflexivity|]. split; [reflexivity|].
  split; [simpl; lia|]. split; [now apply Forall_singleton|].
  eapply Forall_impl; [exact Hm|].
  intros c (? & ? & ? & ?). unfold by_form_chunk. auto.
Qed.

Lemma fetch_form_spec tk date_from limit form w :
  exists l w' extra,
    fetch_form hash_str conversion_error tk date_from limit form w
    = (Ok l, w')
    /\ calls w' = (calls w ++ extra)%list
    /\ (1 <= length extra)%nat
    /\ Forall (sized limit) extra
    /\ Forall (by_form_chunk tk form) l.
Proof.
  unfold fetch_form. repeat case_bool_decide.
  - apply insider_filings_spec.
  - apply structured_filings_spec.
  - apply general_filings_spec.
Qed.

Lemma fetch_forms_spec tk date_from limit forms all w :
  exists l w' extra,
    fetch_forms hash_str conversion_error tk date_from limit forms all w
    = (Ok (all ++ l)%list, w')
    /\ calls w' = (calls w ++ extra)%list
    /\ (length forms <= length extra)%nat
    /\ Forall (sized limit) extra
    /\ Forall (fun c => exists form,
                          form ∈ forms /\ by_form_chunk tk form c) l.
Proof.
  revert all w. induction forms as [|form forms IH]; intros all w.
  - exists [], w, []. cbn. rewrite !app_nil_r.
    repeat split; try done; constructor.
  - cbn [fetch_forms]. unfold mbind, G_bind.
    destruct (fetch_form_spec tk date_from limit form w)
      as (l1 & w1 & x1 & -> & Hc1 & Hn1 & Hs1 & Hm1).
    destruct (IH (all ++ l1)%list w1)
      as (l2 & w2 & x2 & -> & Hc2 & Hn2 & Hs2 & Hm2).
    exists (l1 ++ l2)%list, w2, (x1 ++ x2)%list.
    rewrite Hc2, Hc1, !app_assoc, length_app. cbn [length].
    repeat split; try done; try lia.
    + now apply Forall_app.
    + apply Forall_app. split.
      * eapply Forall_impl; [exact Hm1|]. intros c Hc. exists form.
        split; [left|done].
      * eapply Forall_impl; [exact Hm2|]. intros c (f & Hin & Hc).
        exists f. split; [now right|done].
Qed.

(** X26: [fetch_filings] as a whole: it returns whatever the provider
    does, with chunks of the ticker and the forms asked for, after at least
    one request per form, each sized by [limit]. *)
Theorem fetch_filings_never_raises
    (tk : string) (filing_types : list string) (date_from : option string)
    (limit : Z) (w : Archive) :
  exists l w' extra,
    fetch_filings hash_str conversion_error tk filing_types date_from limit w
    = (Ok l, w')
    /\ calls w' = (calls w ++ extra)%list
    /\ (length filing_types <= length extra)%nat
    /\ Forall (sized limit) extra
    /\ Forall (fun c => ticker c = tk /\ filing_type c ∈ filing_types
                        /\ (String.length (filing_date c) <= 10)%nat
                        /\ (confidence_score c = 1%Q
                            \/ confidence_score c = (8 # 10)%Q)) l
    /\ (filing_types = [] -> l = [] /\ w' = w).
Proof.
  unfold fetch_filings.
  destruct (fetch_forms_spec tk date_from limit filing_types [] w)
    as (l & w' & extra & E & Hc & Hn & Hs & Hm).
  exists l, w', extra. cbn [app] in E.
  split; [exact E|]. split; [exact Hc|]. split; [exact Hn|].
  split; [exact Hs|]. split.
  - eapply Forall_impl; [exact Hm|].
    intros c (form & Hin & ? & Hf & ? & ?). rewrite Hf. auto.
  - intros ->. cbn in E. injection E as <- <-. done.
Qed.

End FetchFilingsFacts.

(** *** The report of an insider filing *)

Section ReportFacts.

Context {PF : PyFloat}.
Variable conversion_error : jscalar -> PyExc.

(** X23: the report of the non-derivative transactions: every
    transaction gives one or two lines, but the summary counts only those
    whose two amounts converted, and is printed only if there is one. *)
Theorem transaction_summary_counts_converted
    (r : report) (tk filed period : string) (t : transaction)
    (nd : list transaction)
    (Hfiled : rep_filedAt r = Val filed)
    (Hperiod : periodOfReport r = Val period)
    (Hnd : table_transactions (rep_nonDerivativeTable r) = Some (t :: nd)) :
  let k := length (filter (convertible conversion_error) (t :: nd)) in
  exists head body total tail,
    _format_insider_filing conversion_error r tk
    = Py.join newline
        (app head
           ("Non-Derivative Securities Transactions:"
            :: app body
                 (app (if (0 <? k)%nat
                       then [""; "Transaction Summary:";
                             "  - Number of Transactions: "
                             ++ Py.str (N.of_nat k);
                             "  - Total Transaction Value: $"
                             ++ fmt_comma0 total;
                             ""]
                       else [])
                      tail)))
    /\ head = ["SEC Form " ++ fmt (get_or "Unknown" (documentType r))
               ++ " - Insider Trading Report";
               "Company: " ++ tk;
               "Reporting Person: " ++ fmt (person_name_of r);
               "Filing Date: " ++ Py.prefix_str 10 filed;
               "Period of Report: " ++ Py.prefix_str 10 period;
               ""]
    /\ (length (t :: nd) <= length body <= 2 * length (t :: nd))%nat
    /\ (tail = []
        \/ tail = ["Note: This filing also includes derivative securities transactions."]).
Proof.
  intros k.
  assert (is_empty_report r = false) as Hne.
  { unfold is_empty_report. rewrite Hfiled. cbn [has_key].
    now rewrite !orb_true_r, andb_false_r. }
  unfold _format_insider_filing, report_lines, first_ten.
  rewrite Hne, Hfiled, Hperiod, Hnd. cbn [get_or].
  match goal with
  | |- context [foldl (transaction_step conversion_error)
                      (?l, ?z, ?c) ?txs] =>
      destruct (transaction_steps conversion_error l z c txs)
        as (body & total & -> & Hbody)
  end.
  cbn [Nat.add]. fold k.
  destruct (table_transactions (derivativeTable r)) as [[|? ?]|];
    [eexists _, body, total, []
    |eexists _, body, total,
       ["Note: This filing also includes derivative securities transactions."]
    |eexists _, body, total, []];
    (split; [|split; [reflexivity|split; [exact Hbody|auto]]]);
    destruct (0 <? k)%nat; rewrite <- ?app_assoc; cbn [app];
    rewrite ?app_nil_r; reflexivity.
Qed.

End ReportFacts.

(** the exception of [float(x)] on a scalar that is not a number *)
Definition plain_conversion_error (x : jscalar) : PyExc :=
  {| exc_type := "ValueError";
     exc_msg := "could not convert string to float: "
                ++ match x with JStr s => "'" ++ s ++ "'" | JNum l => l end |}.

(** a hash that is the same for every string *)
Definition plain_hash (_ : string) : string := "-1234567890123456789".

(** a Form 4 report whose period is [null] *)
Definition unperiodic_report : report :=
  {| rep_reportingOwner := Val {| owner_name := Val "COOK TIMOTHY D" |};
     rep_filedAt := Val "2024-04-03T18:30:12-04:00";
     documentType := Val "4";
     periodOfReport := Null;
     rep_nonDerivativeTable := Missing;
     derivativeTable := Missing;
     accessionNumber := Val "0000320193-24-000043";
     rep_linkToFilingDetails := Val "https://www.sec.gov/form4.xml";
     rep_other_keys := true |}.

Lemma null_period_witness :
  exists id,
    insider_chunk (PF := whole_floats) plain_hash plain_conversion_error
      "AAPL" "4" unperiodic_report
    = Ok (Some {| content :=
                    "Insider filing for AAPL - Content processing error: "
                    ++ "'NoneType' object is not subscriptable";
                  ticker := "AAPL";
                  filing_type := "4";
                  filing_date := "2024-04-03";
                  section := Some "Insider Filing - COOK TIMOTHY D";
                  chunk_id := "AAPL_4_" ++ id;
                  source_url := "https://www.sec.gov/form4.xml";
                  page_number := None;
                  confidence_score := 1 |}).
Proof.
  apply (null_period_becomes_evidence (PF := whole_floats) plain_hash
           plain_conversion_error "AAPL" "4" unperiodic_report
           "2024-04-03T18:30:12-04:00" "https://www.sec.gov/form4.xml");
    reflexivity.
Defined.

(** a sale of 100 shares at 150, and a transaction whose number of shares
    is not a number *)
Definition sale_of_100 : transaction :=
  {| tr_amounts := Val {| shares := Val (JNum "100");
                          pricePerShare := Val (JNum "150");
                          acquiredDisposedCode := Val "D" |};
     tr_coding := Val {| coding_code := Val "S" |};
     transactionDate := Val "2024-04-01";
     securityTitle := Val "Common Stock" |}.

Definition unreadable_sale : transaction :=
  {| tr_amounts := Val {| shares := Val (JStr "n/a");
                          pricePerShare := Val (JNum "150");
                          acquiredDisposedCode := Val "D" |};
     tr_coding := Missing;
     transactionDate := Null;
     securityTitle := Missing |}.

Definition two_sales_report : report :=
  {| rep_reportingOwner := Val {| owner_name := Val "COOK TIMOTHY D" |};
     rep_filedAt := Val "2024-04-03T18:30:12-04:00";
     documentType := Val "4";
     periodOfReport := Val "2024-04-01";
     rep_nonDerivativeTable :=
       Val {| transactions := Val [sale_of_100; unreadable_sale] |};
     derivativeTable := Missing;
     accessionNumber := Val "0000320193-24-000043";
     rep_linkToFilingDetails := Val "https://www.sec.gov/form4.xml";
     rep_other_keys := true |}.

Lemma transaction_summary_witness :
  exists head body total tail,
    _format_insider_filing (PF := whole_floats) plain_conversion_error
      two_sales_report "AAPL"
    = Py.join newline
        (app head
           ("Non-Derivative Securities Transactions:"
            :: app body
                 (app [""; "Transaction Summary:";
                       "  - Number of Transactions: 1";
                       "  - Total Transaction Value: $"
                       ++ fmt_comma0 (PyFloat := whole_floats) total;
                       ""]
                      tail)))
    /\ (2 <= length body <= 4)%nat.
Proof.
  destruct (transaction_summary_counts_converted (PF := whole_floats)
              plain_conversion_error two_sales_report "AAPL"
              "2024-04-03T18:30:12-04:00" "2024-04-01" sale_of_100
              [unreadable_sale] eq_refl eq_refl eq_refl)
    as (head & body & total & tail & E & _ & Hbody & _).
  exists head, body, total, tail. split; [exact E|exact Hbody].
Defined.

(** *** The evidence cache in front of the retriever *)

Section WithTheRetriever.

Context {PF : PyFloat}.
Variable hash_str : string -> string.
Variable conversion_error : jscalar -> PyExc.

(** [self.data_retriever.fetch_filings] as the collaborator of the
    question flow *)
Definition retriever : string -> list string -> option string -> Z
                       -> Archive -> result (list DocumentChunk) * Archive :=
  fetch_filings hash_str conversion_error.

(** from [st] to [st1], [n] fetches for [dts] were made *)
Definition asked (dts : list string) (n : nat) (st st1 : System Archive)
  : Prop :=
  length (fetch_calls st1) = (length (fetch_calls st) + n)%nat
  /\ exists extra,
       calls (env st1) = (calls (env st) ++ extra)%list
       /\ Forall (sized 3) extra
       /\ (length dts * n <= length extra)%nat.

Lemma asked_trans dts n m st st1 st2 :
  asked dts n st st1 -> asked dts m st1 st2 -> asked dts (n + m) st st2.
Proof.
  intros (Hf1 & x1 & Hc1 & Hs1 & Hn1) (Hf2 & x2 & Hc2 & Hs2 & Hn2).
  split; [lia|]. exists (x1 ++ x2)%list.
  rewrite Hc2, Hc1, app_assoc, length_app.
  split; [done|]. split; [now apply Forall_app|nia].
Qed.

Lemma retrieve_company_with_retriever dts df all company st :
  exists chunks st1 n,
    retrieve_company Archive retriever dts df all company st = (Ok chunks, st1)
    /\ (n <= 1)%nat /\ asked dts n st st1.
Proof.
  destruct (document_cache st !! cache_key company dts df) as [cached|]
    eqn:Hkey.
  - rewrite (retrieve_company_hit _ _ _ _ _ _ _ cached) by exact Hkey.
    eexists _, _, 0%nat. split; [reflexivity|]. split; [lia|].
    split; [lia|]. exists []. rewrite app_nil_r.
    split; [done|]. split; [constructor|simpl; lia].
  - rewrite retrieve_company_miss by exact Hkey. unfold retriever.
    unfold fetch_filings.
    destruct (fetch_forms_spec hash_str conversion_error company df 3 dts []
                (env st))
      as (l & w' & extra & -> & Hc & Hn & Hs & _).
    cbn [app].
    destruct l as [|c l]; cbv zeta; eexists _, _, 1%nat;
      (split; [reflexivity|]); (split; [lia|]);
      (split; [cbn [fetch_calls]; rewrite length_app; simpl; lia|]);
      exists extra; cbn [env]; (split; [exact Hc|]);
      (split; [exact Hs|lia]).
Qed.

Lemma retrieve_loop_with_retriever dts df companies all st :
  exists chunks st1 n,
    retrieve_loop Archive retriever dts df companies all st = (Ok chunks, st1)
    /\ (n <= length companies)%nat /\ asked dts n st st1.
Proof.
  revert all st. induction companies as [|c cs IH]; intros all st.
  - eexists _, _, 0%nat. split; [reflexivity|]. split; [simpl; lia|].
    split; [lia|]. exists []. rewrite app_nil_r.
    split; [done|]. split; [constructor|simpl; lia].
  - cbn [retrieve_loop]. unfold mbind.
    destruct (retrieve_company_with_retriever dts df all c st)
      as (l & st1 & n & E & Hn & Hasked).
    unfold QM_bind. rewrite E.
    destruct (IH l st1) as (chunks & st2 & m & -> & Hm & Hasked').
    eexists _, _, (n + m)%nat. split; [reflexivity|].
    split; [simpl; lia|]. eapply asked_trans; eassumption.
Qed.

(** X27: [_retrieve_documents] in front of [fetch_filings]: no
    exception of the provider reaches the question flow, and all requests
    are made with [limit=3]. *)
Theorem retrieval_with_the_retriever
    (companies : list string) (analysis : QueryAnalysis)
    (st : System Archive) :
  exists chunks st1 extra,
    _retrieve_documents Archive retriever companies analysis st
    = (Ok chunks, st1)
    /\ calls (env st1) = (calls (env st) ++ extra)%list
    /\ Forall (sized 3) extra
    /\ (length (fetch_calls st1) - length (fetch_calls st)
        <= length companies)%nat
    /\ (length (effective_types analysis)
        * (length (fetch_calls st1) - length (fetch_calls st))
        <= length extra)%nat.
Proof.
  unfold _retrieve_documents, set_missing. unfold mbind at 1.
  unfold QM_bind at 1. fold (effective_types analysis).
  match goal with
  | |- context [retrieve_loop Archive retriever ?d ?f ?c ?a ?s] =>
      destruct (retrieve_loop_with_retriever d f c a s)
        as (chunks & st1 & n & -> & Hn & Hf & extra & Hc & Hs & He)
  end.
  cbn [fetch_calls env] in *.
  exists chunks, st1, extra. split; [reflexivity|].
  split; [exact Hc|]. split; [exact Hs|].
  replace (length (fetch_calls st1) - length (fetch_calls st))%nat with n
    by lia.
  split; [exact Hn|exact He].
Qed.

End WithTheRetriever.

(** *** The first request of a retrieval *)

(** the call that opens the fetch of one form *)
Definition first_call (tk : string) (date_from : option string) (limit : Z)
    (form : string) : api_call :=
  if bool_decide (form ∈ ["3"; "4"; "5"]) then
    Insider ("issuer.tradingSymbol:" ++ tk ++ " AND documentType:" ++ form
             ++ date_clause date_from)
            (str_int (Z.min limit 10))
  else Search (search_query tk form ++ date_clause date_from) limit.

Section FirstRequest.

Context {PF : PyFloat}.
Variable hash_str : string -> string.
Variable conversion_error : jscalar -> PyExc.

Lemma fetch_form_first_call tk date_from limit form w :
  exists l w' rest,
    fetch_form hash_str conversion_error tk date_from limit form w
    = (Ok l, w')
    /\ calls w' = (calls w ++ first_call tk date_from limit form :: rest)%list.
Proof.
  unfold fetch_form, first_call. repeat case_bool_decide.
  - rewrite insider_filings_run.
    set (w1 := after_insider w _ _).
    assert (exists l w' rest,
              _fetch_general_filings tk form date_from limit w1 = (Ok l, w')
              /\ calls w' = (calls w1 ++ rest)%list) as (l & w' & rest & E & Hc).
    { rewrite general_filings_run. eexists _, _, [_].
      split; reflexivity. }
    destruct (insider_results w) as [|[e|status [transactions|]] reps];
      try (exists l, w', rest; split; [exact E|];
           rewrite Hc; unfold w1, after_insider; cbn [calls];
           now rewrite <- app_assoc).
    destruct (status =? 200)%Z.
    + eexists _, _, []. split; reflexivity.
    + exists l, w', rest. split; [exact E|].
      rewrite Hc. unfold w1, after_insider. cbn [calls].
      now rewrite <- app_assoc.
  - destruct (structured_filings_run tk form date_from limit w)
      as (l & w' & extra & used & E & Hc & _).
    exists l, w', extra. split; [exact E|exact Hc].
  - rewrite general_filings_run. eexists _, _, []. split; reflexivity.
Qed.

Lemma fetch_filings_first_call tk date_from limit form forms w :
  exists l w' rest,
    fetch_filings hash_str conversion_error tk (form :: forms) date_from
      limit w = (Ok l, w')
    /\ calls w' = (calls w ++ first_call tk date_from limit form :: rest)%list.
Proof.
  unfold fetch_filings. cbn [fetch_forms]. unfold mbind, G_bind.
  destruct (fetch_form_first_call tk date_from limit form w)
    as (l1 & w1 & r1 & -> & Hc1).
  destruct (fetch_forms_spec hash_str conversion_error tk date_from limit
              forms ([] ++ l1)%list w1) as (l2 & w2 & r2 & -> & Hc2 & _).
  eexists _, _, (r1 ++ r2)%list. split; [reflexivity|].
  rewrite Hc2, Hc1, <- app_assoc. reflexivity.
Qed.

(** the keywords for which [_get_default_document_types] answers with the
    insider forms *)
Definition insider_keywords (analysis : QueryAnalysis) : bool :=
  existsb (fun k => Py.contains k (Py.lower (Py.join " " (keywords analysis))))
          ["insider"; "trading"; "purchase"; "sale"].

(** X28: from the keywords of a question to the end point that is asked
    first: the first effective document type and the date floor fix the
    first request, and without document types the default list starts
    with form 4 exactly for the insider keywords. *)
Theorem first_request_follows_the_first_form
    (company : string) (analysis : QueryAnalysis) (st : System Archive)
    (Hmiss : document_cache st
               !! cache_key company (effective_types analysis)
                    (date_floor analysis) = None) :
  exists form forms chunks st1 rest,
    effective_types analysis = form :: forms
    /\ _retrieve_documents Archive (retriever hash_str conversion_error)
         [company] analysis st = (Ok chunks, st1)
    /\ calls (env st1)
       = (calls (env st)
          ++ first_call company (date_floor analysis) 3 form :: rest)%list
    /\ (document_types analysis = [] ->
        if insider_keywords analysis
        then form = "4" /\ forms = ["3"; "5"]
        else form ∈ ["DEF 14A"; "8-K"; "10-K"; "10-Q"]
             /\ forall tk df limit,
                  first_call tk df limit form
                  = Search (search_query tk form ++ date_clause df) limit).
Proof.
  rewrite retrieve_single, retrieve_company_miss by exact Hmiss.
  clear Hmiss.
  destruct (effective_types analysis) as [|form forms] eqn:Etypes;
    [now apply effective_types_nonempty in Etypes|].
  cbn [env document_cache missing_companies fetch_calls]. unfold retriever.
  destruct (fetch_filings_first_call company (date_floor analysis) 3 form
              forms (env st)) as (l & w' & rest & -> & Hc).
  exists form, forms.
  assert (document_types analysis = [] ->
          if insider_keywords analysis
          then form = "4" /\ forms = ["3"; "5"]
          else form ∈ ["DEF 14A"; "8-K"; "10-K"; "10-Q"]
               /\ forall tk df limit,
                    first_call tk df limit form
                    = Search (search_query tk form ++ date_clause df) limit)
    as Hdefault.
  { intros Hnone. unfold effective_types in Etypes. rewrite Hnone in Etypes.
    unfold _get_default_document_types in Etypes.
    fold (insider_keywords analysis) in Etypes.
    destruct (insider_keywords analysis); [now injection Etypes as <- <-|].
    repeat case_match; injection Etypes as <- <-;
      (split; [set_solver|intros; reflexivity]). }
  destruct l as [|c l]; cbv zeta; eexists _, _, rest;
    (split; [reflexivity|]); (split; [reflexivity|]);
    (split; [exact Hc|exact Hdefault]).
Qed.

End FirstRequest.

(** a question about insider sales since 2024, and a provider that knows
    of none *)
Definition insider_sales_query : QueryAnalysis :=
  {| tickers := ["AAPL"];
     time_periods := ["last year"; "2024"];
     document_types := [];
     query_type := single_ticker;
     sectors := [];
     keywords := ["Insider"; "sales"];
     complexity_score := 3 # 10;
     suggested_tickers := [];
     selection_reason := "" |}.

Definition quiet_archive : Archive :=
  {| search_results := [];
     extract_results := [];
     insider_results := [Reply 200 (Some [])];
     calls := [] |}.

Definition quiet_system : System Archive :=
  {| document_cache := ∅; missing_companies := []; env := quiet_archive;
     fetch_calls := [] |}.

Lemma first_request_witness :
  exists chunks st1 rest,
    _retrieve_documents Archive
      (retriever (PF := whole_floats) plain_hash plain_conversion_error)
      ["AAPL"] insider_sales_query quiet_system = (Ok chunks, st1)
    /\ calls (env st1)
       = Insider "issuer.tradingSymbol:AAPL AND documentType:4 AND filedAt:[2024-01-01 TO *]"
                 "3" :: rest.
Proof.
  destruct (first_request_follows_the_first_form (PF := whole_floats)
              plain_hash plain_conversion_error "AAPL" insider_sales_query
              quiet_system (lookup_empty _))
    as (form & forms & chunks & st1 & rest & _ & Hrun & Hcalls & Hdefault).
  destruct (Hdefault eq_refl) as [-> _].
  exists chunks, st1, rest. split; [exact Hrun|exact Hcalls].
Defined.

(** * company_resolver.py: the name index and [resolve] *)

(** [s.endswith(suffix)] *)
Fixpoint endswith (s suffix : string) : bool :=
  String.eqb s suffix
  || match s with
     | String _ s' => endswith s' suffix
     | EmptyString => false
     end.

(** [s.replace(old, new)] for a non-empty [old], read from the left;
    [skip] counts the characters of the last match still to be passed *)
Fixpoint replace_from (old new : string) (skip : nat) (s : string) : string :=
  match s with
  | EmptyString => ""
  | String c s' =>
      match skip with
      | S k => replace_from old new k s'
      | O =>
          if String.prefix old s
          then new ++ replace_from old new (String.length old - 1) s'
          else String c (replace_from old new 0 s')
      end
  end.

Definition str_replace (old new s : string) : string :=
  replace_from old new 0 s.

(** one value of [company_tickers.json], at the keys the index reads *)
Record company_row := {
  row_ticker : jfield string;
  row_title : jfield string
}.

(** [None.upper()] *)
Definition attribute_error : PyExc :=
  {| exc_type := "AttributeError";
     exc_msg := "'NoneType' object has no attribute 'upper'" |}.

Definition name_suffixes : list string :=
  [" inc."; " inc"; " corp."; " corp"; " ltd."; " ltd"].

(** one turn of the loop over the suffixes *)
Definition index_short (name ticker : string) (index : gmap string string)
    (suffix : string) : gmap string string :=
  if endswith name suffix
  then <[Py.strip (str_replace suffix "" name) := ticker]> index
  else index.

(** one turn of the loop over the rows *)
Definition index_row (index : gmap string string) (row : company_row)
  : result (gmap string string) :=
  match get_or "" (row_ticker row) with
  | None => Raise attribute_error
  | Some t =>
      let ticker := Py.upper t in
      match get_or "" (row_title row) with
      | Some title =>
          if negb (Py.truthy ticker) || negb (Py.truthy title) then Ok index
          else
            let name := Py.strip (Py.lower title) in
            Ok (foldl (index_short name ticker) (<[name := ticker]> index)
                      name_suffixes)
      | None => Ok index
      end
  end.

Fixpoint index_rows (index : gmap string string) (rows : list company_row)
  : result (gmap string string) :=
  match rows with
  | [] => Ok index
  | row :: rest =>
      match index_row index row with
      | Ok index' => index_rows index' rest
      | Raise e => Raise e
      end
  end.

(** the rows are the values of [self.company_data] in the order of the
    file *)
Definition _build_name_index (company_data : list company_row)
  : result (gmap string string) :=
  index_rows ∅ company_data.

(** the attributes of a [CompanyMeta] *)
Record CompanyMeta := {
  meta_ticker : string;
  meta_cik : string;
  meta_name : option string;
  meta_sic : option string
}.

Section Resolve.

(** The state of the resolver (its cache, the clock, the cache file) and
    [_resolve_by_ticker], a step on it that may raise. *)
Variable Registry : Type.
Variable _resolve_by_ticker :
  string -> Registry -> result (option CompanyMeta) * Registry.

Definition resolve (name_to_ticker : gmap string string)
    (identifier : string) (st : Registry)
  : result (option CompanyMeta) * Registry :=
  let identifier := Py.strip identifier in
  match _resolve_by_ticker (Py.upper identifier) st with
  | (Raise e, st') => (Raise e, st')
  | (Ok (Some meta), st') => (Ok (Some meta), st')
  | (Ok None, st') =>
      match name_to_ticker !! Py.lower identifier with
      | Some alt =>
          if Py.truthy alt then _resolve_by_ticker alt st'
          else (Ok None, st')
      | None => (Ok None, st')
      end
  end.

End Resolve.

(** ** Properties *)

(** the key under which a title is indexed *)
Definition name_key (title : string) : string := Py.strip (Py.lower title).

(** a row that the index skips *)
Definition skipped (row : company_row) : bool :=
  match row_ticker row, row_title row with
  | Val t, Val title => negb (Py.truthy t) || negb (Py.truthy title)
  | Val t, Missing => true
  | Val t, Null => true
  | Missing, _ => true
  | Null, _ => false
  end.

(** the entries of [index'] are those of [index] and ones for [ticker] *)
Definition adds_for (ticker : string) (index index' : gmap string string)
  : Prop :=
  forall k v, index' !! k = Some v -> index !! k = Some v \/ v = ticker.

Lemma index_shorts name ticker index suffixes :
  let index' := foldl (index_short name ticker) index suffixes in
  adds_for ticker index index'
  /\ (forall k, index !! k = Some ticker -> index' !! k = Some ticker)
  /\ (forall suffix,
        suffix ∈ suffixes -> endswith name suffix = true ->
        index' !! Py.strip (str_replace suffix "" name) = Some ticker).
Proof.
  revert index. induction suffixes as [|s l IH]; intros index; cbn [foldl].
  - split; [intros k v; auto|]. split; [auto|]. intros suffix Hin. set_solver.
  - destruct (IH (index_short name ticker index s)) as (Hadd & Hkeep & Hnew).
    assert (adds_for ticker index (index_short name ticker index s)) as Hadd0.
    { unfold index_short. intros k v. destruct (endswith name s); [|auto].
      destruct (decide (k = Py.strip (str_replace s "" name))) as [->|Hk].
      - rewrite lookup_insert_eq. intros [= <-]. auto.
      - rewrite lookup_insert_ne by done. auto. }
    assert (forall k, index !! k = Some ticker ->
                      index_short name ticker index s !! k = Some ticker)
      as Hkeep0.
    { unfold index_short. intros k Hk. destruct (endswith name s); [|done].
      destruct (decide (k = Py.strip (str_replace s "" name))) as [->|Hne].
      - now rewrite lookup_insert_eq.
      - now rewrite lookup_insert_ne. }
    split; [|split].
    + intros k v Hv. destruct (Hadd k v Hv) as [H|H]; [|auto].
      apply Hadd0 in H. exact H.
    + intros k Hk. apply Hkeep, Hkeep0, Hk.
    + intros suffix [->|Hin]%elem_of_cons Hends; [|now apply Hnew].
      apply Hkeep. unfold index_short. rewrite Hends.
      apply lookup_insert_eq.
Qed.

Lemma index_shorts_keys name ticker suffixes index k :
  is_Some (index !! k) ->
  is_Some (foldl (index_short name ticker) index suffixes !! k).
Proof.
  revert index. induction suffixes as [|s l IH]; intros index Hk; [exact Hk|].
  cbn [foldl]. apply IH. unfold index_short.
  destruct (endswith name s); [|exact Hk].
  apply lookup_insert_is_Some'. now right.
Qed.

Lemma upper_truthy t : Py.truthy (Py.upper t) = Py.truthy t.
Proof.
  destruct t as [|c t]; [reflexivity|]. cbn [Py.upper].
  unfold Py.upper_char. repeat case_match; reflexivity.
Qed.

Lemma index_row_cases index row :
  match index_row index row with
  | Raise e => e = attribute_error /\ row_ticker row = Null
  | Ok index' =>
      row_ticker row <> Null
      /\ (forall k, is_Some (index !! k) -> is_Some (index' !! k))
      /\ if skipped row then index' = index
         else exists t title,
             row_ticker row = Val t /\ row_title row = Val title
             /\ Py.truthy (Py.upper t) = true
             /\ adds_for (Py.upper t) index index'
             /\ index' !! name_key title = Some (Py.upper t)
             /\ forall suffix,
                  suffix ∈ name_suffixes ->
                  endswith (name_key title) suffix = true ->
                  index' !! Py.strip (str_replace suffix "" (name_key title))
                  = Some (Py.upper t)
  end.
Proof.
  unfold index_row, skipped.
  destruct (row_ticker row) as [| |t]; cbn [get_or]; [|done|].
  - cbn [Py.upper Py.truthy negb orb].
    destruct (get_or "" (row_title row)); repeat split; try done.
    all: now destruct (row_title row).
  - destruct (row_title row) as [| |title]; cbn [get_or];
      [rewrite orb_true_r|..]; try (repeat split; done).
    rewrite <- (upper_truthy t).
    destruct (negb (Py.truthy (Py.upper t)) || negb (Py.truthy title))
      eqn:Hskip; [repeat split; done|].
    apply orb_false_iff in Hskip as [Ht _]. apply negb_false_iff in Ht.
    fold (name_key title).
    destruct (index_shorts (name_key title) (Py.upper t)
                (<[name_key title := Py.upper t]> index) name_suffixes)
      as (Hadd & Hkeep & Hnew).
    split; [done|]. split.
    + intros k Hk. apply index_shorts_keys.
      apply lookup_insert_is_Some'. now right.
    + exists t, title. repeat split; try done.
      * intros k v Hv. destruct (Hadd k v Hv) as [H|H]; [|auto].
        destruct (decide (k = name_key title)) as [->|Hne].
        -- rewrite lookup_insert_eq in H. injection H as <-. auto.
        -- rewrite lookup_insert_ne in H by done. auto.
      * apply Hkeep, lookup_insert_eq.
Qed.

(** what the rows [rows] make of the index [index] *)
Definition indexed (rows : list company_row) (index index' : gmap string string)
  : Prop :=
  Forall (fun row => row_ticker row <> Null) rows
  /\ (forall k, is_Some (index !! k) -> is_Some (index' !! k))
  /\ (forall row,
        row ∈ rows -> skipped row = false ->
        exists t title,
          row_ticker row = Val t /\ row_title row = Val title
          /\ is_Some (index' !! name_key title)
          /\ forall suffix,
               suffix ∈ name_suffixes ->
               endswith (name_key title) suffix = true ->
               is_Some (index' !! Py.strip (str_replace suffix ""
                                              (name_key title))))
  /\ (forall name tk,
        index' !! name = Some tk ->
        index !! name = Some tk
        \/ exists row t,
             row ∈ rows /\ skipped row = false /\ row_ticker row = Val t
             /\ tk = Py.upper t /\ Py.truthy tk = true).

Lemma index_rows_cases rows index :
  match index_rows index rows with
  | Raise e =>
      e = attribute_error /\ exists row, row ∈ rows /\ row_ticker row = Null
  | Ok index' => indexed rows index index'
  end.
Proof.
  revert index. induction rows as [|row rows IH]; intros index.
  - cbn. split; [constructor|]. split; [auto|]. split; [set_solver|auto].
  - cbn [index_rows]. pose proof (index_row_cases index row) as Hrow.
    destruct (index_row index row) as [index1|e].
    2:{ destruct Hrow as [-> Hnull]. split; [done|]. exists row.
        split; [left|done]. }
    specialize (IH index1).
    destruct (index_rows index1 rows) as [index2|e].
    2:{ destruct IH as (-> & r & Hin & Hnull). split; [done|].
        exists r. split; [now right|done]. }
    destruct Hrow as (Hnn & Hkeys & Hrow).
    destruct IH as (Hall & Hkeys' & Hrows & Hfrom).
    split; [now constructor|]. split; [auto|]. split.
    + intros r [->|Hin]%elem_of_cons Hskip; [|now apply Hrows].
      rewrite Hskip in Hrow.
      destruct Hrow as (t & title & Ht & Htitle & _ & _ & Hname & Hshort).
      exists t, title. repeat split; try done.
      * apply Hkeys'. rewrite Hname. eauto.
      * intros suffix Hin Hends. apply Hkeys'.
        rewrite (Hshort suffix Hin Hends). eauto.
    + intros name tk Hlook. destruct (Hfrom name tk Hlook) as [H1|H1].
      * destruct (skipped row) eqn:Hskip; [left; now rewrite <- Hrow|].
        destruct Hrow as (t & title & Ht & Htitle & Htruthy & Hadd & _).
        destruct (Hadd name tk H1) as [H0| ->]; [now left|].
        right. exists row, t. repeat split; try done. left.
      * right. destruct H1 as (r & t & Hin & Hrest).
        exists r, t. split; [now right|exact Hrest].
Qed.

(** X29: the name index: it fails on a [null] ticker and on nothing
    else; it has a key for the title of every row that has a ticker and a
    title, and one for the title without its suffix; its values are never
    empty, each made of the ticker of a row of the file, and equal to that
    ticker in upper case where its upper case is within U+0000..U+00FF. *)
Theorem name_index_holds_every_title (company_data : list company_row) :
  match _build_name_index company_data with
  | Raise e =>
      e = attribute_error
      /\ exists row, row ∈ company_data /\ row_ticker row = Null
  | Ok index =>
      Forall (fun row => row_ticker row <> Null) company_data
      /\ (forall row,
            row ∈ company_data -> skipped row = false ->
            exists t title,
              row_ticker row = Val t /\ row_title row = Val title
              /\ is_Some (index !! name_key title)
              /\ forall suffix,
                   suffix ∈ name_suffixes ->
                   endswith (name_key title) suffix = true ->
                   is_Some (index !! Py.strip (str_replace suffix ""
                                                 (name_key title))))
      /\ (forall name tk,
            index !! name = Some tk ->
            exists row t,
              row ∈ company_data /\ skipped row = false
              /\ row_ticker row = Val t
              /\ Py.truthy tk = true
              /\ (Py.upper_exact t = true -> tk = Py.upper t))
  end.
Proof.
  unfold _build_name_index.
  pose proof (index_rows_cases company_data ∅) as H.
  destruct (index_rows ∅ company_data) as [index|e]; [|exact H].
  destruct H as (Hall & _ & Hrows & Hfrom).
  split; [exact Hall|]. split; [exact Hrows|].
  intros name tk Hlook.
  destruct (Hfrom name tk Hlook) as [H|(row & t & Hin & Hskip & Ht & -> & Hne)];
    [now rewrite lookup_empty in H|].
  exists row, t. auto.
Qed.

Section ResolveFacts.

Variable Registry : Type.
Variable _resolve_by_ticker :
  string -> Registry -> result (option CompanyMeta) * Registry.

(** X30: [resolve] over an index that [_build_name_index] built, for
    an identifier whose upper case is within U+0000..U+00FF: one lookup by
    ticker, and a second one, for the ticker of the indexed name, only if
    the first found nothing and the name is indexed; the entry of the index
    is then made of a ticker of the file (that ticker in upper case, where
    its upper case is within the range) and is not empty, so the test
    [if alt] always passes. *)
Theorem resolve_tries_the_ticker_then_the_title
    (company_data : list company_row) (index : gmap string string)
    (identifier : string) (st : Registry)
    (Hindex : _build_name_index company_data = Ok index)
    (Hupper : Py.upper_exact (Py.strip identifier) = true) :
  let id := Py.strip identifier in
  let first := _resolve_by_ticker (Py.upper id) st in
  resolve Registry _resolve_by_ticker index identifier st
  = match first.1, index !! Py.lower id with
    | Ok None, Some alt => _resolve_by_ticker alt first.2
    | _, _ => first
    end
  /\ forall alt,
       index !! Py.lower id = Some alt ->
       alt <> ""
       /\ exists row t,
            row ∈ company_data /\ row_ticker row = Val t
            /\ (Py.upper_exact t = true -> alt = Py.upper t).
Proof.
  intros id first.
  assert (forall alt,
            index !! Py.lower id = Some alt ->
            Py.truthy alt = true
            /\ exists row t,
                 row ∈ company_data /\ row_ticker row = Val t
                 /\ (Py.upper_exact t = true -> alt = Py.upper t)) as Halt.
  { intros alt Hlook.
    pose proof (index_rows_cases company_data ∅) as H.
    unfold _build_name_index in Hindex. rewrite Hindex in H.
    destruct H as (_ & _ & _ & Hfrom).
    destruct (Hfrom _ _ Hlook) as [H|(row & t & Hin & _ & Ht & -> & Htruthy)];
      [now rewrite lookup_empty in H|].
    eauto 10. }
  split.
  - unfold resolve. fold id. subst first.
    destruct (_resolve_by_ticker (Py.upper id) st) as [[[meta|]|e] st1];
      cbn [fst snd].
    + now destruct (index !! Py.lower id).
    + destruct (index !! Py.lower id) as [alt|] eqn:Hlook; [|reflexivity].
      destruct (Halt alt eq_refl) as [-> _]. reflexivity.
    + now destruct (index !! Py.lower id).
  - intros alt Hlook. destruct (Halt alt Hlook) as [Ht Hrow].
    split; [|exact Hrow]. intros ->. discriminate.
Qed.

End ResolveFacts.

(** two rows of the company file, and a lookup by ticker that knows
    them *)
Definition sample_rows : list company_row :=
  [ {| row_ticker := Val "aapl"; row_title := Val "Apple Inc." |};
    {| row_ticker := Val "MSFT"; row_title := Val " Microsoft Corp" |} ].

Definition sample_index : gmap string string :=
  match _build_name_index sample_rows with
  | Ok index => index
  | Raise _ => ∅
  end.

Definition listed_by_ticker (t : string) (st : unit)
  : result (option CompanyMeta) * unit :=
  (Ok (if String.eqb t "AAPL"
       then Some {| meta_ticker := "AAPL"; meta_cik := "0000320193";
                    meta_name := Some "Apple Inc."; meta_sic := None |}
       else if String.eqb t "MSFT"
       then Some {| meta_ticker := "MSFT"; meta_cik := "0000789019";
                    meta_name := Some " Microsoft Corp";
                    meta_sic := None |}
       else None), st).

Lemma resolve_by_title_witness :
  resolve unit listed_by_ticker sample_index "  Apple " tt
  = listed_by_ticker "AAPL" tt
  /\ map (fun name => sample_index !! name)
         ["apple inc."; "apple"; "microsoft corp"; "microsoft"; "aapl"]
     = [Some "AAPL"; Some "AAPL"; Some "MSFT"; Some "MSFT"; None].
Proof.
  assert (_build_name_index sample_rows = Ok sample_index) as Hindex
    by (vm_compute; reflexivity).
  destruct (resolve_tries_the_ticker_then_the_title unit listed_by_ticker
              sample_rows sample_index "  Apple " tt Hindex
              ltac:(vm_compute; reflexivity)) as [-> _].
  split; vm_compute; reflexivity.
Defined.
